(** * Surreal Phoenicians: the trading core, embedded and verified

    A shallow embedding of [surreal_phoenicians.py]: the three-axis price
    value [SurrealNumber], the market model, the pricing engine
    [get_price], the negotiation resolver [negotiate_price], the supply
    scheduler [refresh_city_supplies] and the two trading transactions
    [buy_goods] and [sell_goods]; then the valuation [get_net_worth],
    the journey [travel] with its events, and the house that ends the
    game, [purchase_house], [buy_house] and [show_victory_screen].

    Python's [float] is IEEE 754 binary64; it is modelled by Rocq's
    primitive [float], which is the same format with the same
    round-to-nearest-even arithmetic, so every number computed below is the
    number the program computes.  Python's [int] is unbounded and is
    modelled by [Z].  Exceptions are values of [exn] carried by the result
    type [Res]. *)

From Stdlib Require Import ZArith List String Bool Lia Floats.
Import ListNotations.

Set Warnings "-inexact-float".

Local Open Scope string_scope.
Local Open Scope Z_scope.

(** ** Exceptions and results *)

Inductive exn : Type :=
| KeyError
| OverflowError
| ZeroDivisionError
| ValueError.

Inductive Res (A : Type) : Type :=
| Ok (x : A)
| Raise (e : exn).

Arguments Ok {A} x.
Arguments Raise {A} e.

Definition bind {A B : Type} (m : Res A) (k : A -> Res B) : Res B :=
  match m with
  | Ok x => k x
  | Raise e => Raise e
  end.

Notation "x <- m ;; k" := (bind m (fun x => k))
  (at level 61, m at next level, right associativity).

Definition fmap {A B : Type} (f : A -> B) (m : Res A) : Res B :=
  x <- m ;; Ok (f x).

(** ** Python numbers

    The arithmetic of the program mixes [int] and [float] operands.  An
    [int] operand of a float operation is first converted to a float
    (rounding to nearest even; [OverflowError] when the result would not
    be finite), and [int / int] is the correctly rounded quotient. *)

Module Py.

Inductive number : Type :=
| Int (n : Z)
| Float (f : float).

(** The integer [n] as the unnormalised binary float [n * 2^0]. *)
Definition Z2SF (n : Z) : spec_float :=
  match n with
  | Z0 => S754_zero false
  | Zpos p => S754_finite false p 0
  | Zneg p => S754_finite true p 0
  end.

Definition finite_or_overflow (f : float) : Res float :=
  if is_infinity f then Raise OverflowError else Ok f.

(** [float(n)] for an int [n]. *)
Definition float_of_int (n : Z) : Res float :=
  finite_or_overflow (SF2Prim (binary_normalize prec emax n 0 false)).

Definition to_float (x : number) : Res float :=
  match x with
  | Int n => float_of_int n
  | Float f => Ok f
  end.

(** [a / b] for two ints: true division. *)
Definition int_truediv (a b : Z) : Res float :=
  if b =? 0 then Raise ZeroDivisionError
  else finite_or_overflow (SF2Prim (SFdiv prec emax (Z2SF a) (Z2SF b))).

(** [x / y] for two floats. *)
Definition float_truediv (x y : float) : Res float :=
  if (y =? 0)%float then Raise ZeroDivisionError else Ok (x / y)%float.

(** [n * f] for an int [n] and a float [f]. *)
Definition int_mul_float (n : Z) (f : float) : Res float :=
  x <- float_of_int n ;; Ok (x * f)%float.

(** The builtins [max(x, y)] and [min(x, y)] on two floats: the second
    argument replaces the first only when it compares strictly beyond
    it. *)
Definition max (x y : float) : float := if (x <? y)%float then y else x.
Definition min (x y : float) : float := if (y <? x)%float then y else x.

End Py.

(** ** SurrealNumber: a + b*eps + c*omega *)

Module SurrealNumber.

Record t : Type := mk {
  a : float;  (* real component *)
  b : float;  (* infinitesimal coefficient *)
  c : float   (* infinite coefficient *)
}.

(** [SurrealNumber(a, b, c)]: each argument goes through [float]. *)
Definition __init__ (a b c : Py.number) : Res t :=
  a' <- Py.to_float a ;;
  b' <- Py.to_float b ;;
  c' <- Py.to_float c ;;
  Ok (mk a' b' c').

Definition __add__ (self other : t) : t :=
  mk (a self + a other) (b self + b other) (c self + c other)%float.

(** [__add__] and [__sub__] with a plain number on the right: only the
    real axis moves. *)
Definition add_number (self : t) (other : Py.number) : Res t :=
  x <- Py.to_float other ;; Ok (mk (a self + x) (b self) (c self)).

Definition __sub__ (self other : t) : t :=
  mk (a self - a other) (b self - b other) (c self - c other)%float.

Definition sub_number (self : t) (other : Py.number) : Res t :=
  x <- Py.to_float other ;; Ok (mk (a self - x) (b self) (c self)).

(** [__mul__]: scalar multiplication by an int or a float. *)
Definition __mul__ (self : t) (scalar : Py.number) : Res t :=
  k <- Py.to_float scalar ;;
  Ok (mk (a self * k) (b self * k) (c self * k)).

(** Lexicographic comparison: omega, then the real part, then epsilon. *)
Definition __lt__ (self other : t) : bool :=
  if negb (c self =? c other)%float then (c self <? c other)%float
  else if negb (a self =? a other)%float then (a self <? a other)%float
  else (b self <? b other)%float.

Definition __eq__ (self other : t) : bool :=
  (abs (a self - a other) <? 1e-10)%float
  && (abs (b self - b other) <? 1e-10)%float
  && (abs (c self - c other) <? 1e-10)%float.

Definition __le__ (self other : t) : bool :=
  __lt__ self other || __eq__ self other.

Definition __gt__ (self other : t) : bool := negb (__le__ self other).

Definition __ge__ (self other : t) : bool := negb (__lt__ self other).

Definition is_legal (self : t) : bool := (c self <=? 0)%float.

Definition clear_omega (self : t) : t := mk (a self) (b self) 0.

End SurrealNumber.

Abbreviation Surreal := SurrealNumber.t.

(** ** Dictionaries

    A Python [dict] keyed by strings, as the list of its items in
    insertion order.  A key occurs once ([unique_keys]); [set] overwrites
    in place or appends, as assignment to [d[k]] does. *)

Module Dict.

Definition t (V : Type) : Type := list (string * V).

Fixpoint get {V : Type} (d : t V) (k : string) : option V :=
  match d with
  | [] => None
  | (k', v) :: rest => if String.eqb k k' then Some v else get rest k
  end.

(** [d.get(k, default)] *)
Definition get_default {V : Type} (d : t V) (k : string) (default : V) : V :=
  match get d k with
  | Some v => v
  | None => default
  end.

(** [k in d] *)
Definition contains {V : Type} (d : t V) (k : string) : bool :=
  match get d k with
  | Some _ => true
  | None => false
  end.

(** [d[k]] *)
Definition subscript {V : Type} (d : t V) (k : string) : Res V :=
  match get d k with
  | Some v => Ok v
  | None => Raise KeyError
  end.

(** [d[k] = v] *)
Fixpoint set {V : Type} (d : t V) (k : string) (v : V) : t V :=
  match d with
  | [] => [(k, v)]
  | (k', v') :: rest =>
      if String.eqb k k' then (k', v) :: rest else (k', v') :: set rest k v
  end.

(** [del d[k]] for a key that is present *)
Fixpoint del {V : Type} (d : t V) (k : string) : t V :=
  match d with
  | [] => []
  | (k', v') :: rest =>
      if String.eqb k k' then rest else (k', v') :: del rest k
  end.

Definition keys {V : Type} (d : t V) : list string := map fst d.

Fixpoint mem (k : string) (l : list string) : bool :=
  match l with
  | [] => false
  | k' :: rest => String.eqb k k' || mem k rest
  end.

Fixpoint unique (l : list string) : bool :=
  match l with
  | [] => true
  | k :: rest => negb (mem k rest) && unique rest
  end.

Definition unique_keys {V : Type} (d : t V) : bool := unique (keys d).

End Dict.

(** ** The market model *)

Module Good.
Record t : Type := mk {
  id : string;
  name : string;
  base_a : float;
  base_b : float;
  monopoly : bool;
  fragile : bool;
  perishable : bool
}.
End Good.

Module CityModifier.
Record t : Type := mk {
  a_mod : float;
  b_mod : float;
  c_mod : float  (* 0 = no monopoly, 1+ = monopoly/embargo *)
}.
End CityModifier.

Module City.
Record t : Type := mk {
  id : string;
  name : string;
  region : string;
  modifiers : Dict.t CityModifier.t;
  stock : Dict.t Z;
  demand_factors : Dict.t float
}.

Definition with_stock (city : t) (stock' : Dict.t Z) : t :=
  mk (id city) (name city) (region city) (modifiers city) stock'
     (demand_factors city).

(** [good_id in city.modifiers and city.modifiers[good_id].a_mod < 0] *)
Definition is_specialty (city : t) (good_id : string) : bool :=
  match Dict.get (modifiers city) good_id with
  | Some m => (CityModifier.a_mod m <? 0)%float
  | None => false
  end.
End City.

Module Charter.
Record t : Type := mk {
  cities : list string;
  goods : list string
}.

Definition applies_to (self : t) (city good : string) : bool :=
  Dict.mem city (cities self) && Dict.mem good (goods self).
End Charter.

(** ** The negotiation cut *)

Module NegotiationCut.

Record t : Type := mk {
  L : list Surreal;  (* left set, seller-leaning *)
  R : list Surreal   (* right set, buyer-leaning *)
}.

Definition empty : t := mk [] [].

Definition add_offer (self : t) (price : Surreal) (is_seller : bool) : t :=
  if is_seller then mk (L self ++ [price])%list (R self)
  else mk (L self) (R self ++ [price])%list.

(** The builtins [max] and [min] over a list, from its first element:
    a later element replaces the running one when [item > best]
    (respectively [item < best]). *)
Fixpoint max_from (best : Surreal) (rest : list Surreal) : Surreal :=
  match rest with
  | [] => best
  | item :: rest' =>
      max_from (if SurrealNumber.__gt__ item best then item else best) rest'
  end.

Fixpoint min_from (best : Surreal) (rest : list Surreal) : Surreal :=
  match rest with
  | [] => best
  | item :: rest' =>
      min_from (if SurrealNumber.__lt__ item best then item else best) rest'
  end.

(** The simplest surreal number in the gap between L and R, [None]
    when a side is empty or there is no gap. *)
Definition find_simplest_in_gap (self : t) : option Surreal :=
  match L self, R self with
  | l0 :: ls, r0 :: rs =>
      let max_L := max_from l0 ls in
      let min_R := min_from r0 rs in
      if SurrealNumber.__ge__ max_L min_R then None
      else
        let mid_a := ((SurrealNumber.a max_L + SurrealNumber.a min_R) / 2)%float in
        let mid_b := 0%float in
        let mid_c := Py.max (SurrealNumber.c max_L) (SurrealNumber.c min_R) in
        Some (SurrealNumber.mk mid_a mid_b mid_c)
  | _, _ => None
  end.

End NegotiationCut.

(** ** The random source

    [random.randint(lo, hi)] draws [lo + k] with [0 <= k <= hi - lo].  The
    generator is a stream of raw integers read in order; every sequence of
    draws the program can see is the reading of some stream. *)

Module Random.

Record t : Type := mk {
  raw : nat -> Z;
  pos : nat
}.

Definition randint (lo hi : Z) (g : t) : Z * t :=
  (lo + raw g (pos g) mod (hi - lo + 1), mk (raw g) (S (pos g))).

Arguments randint : simpl never.

(** [random.random()]: the next raw integer, reduced to 53 bits, as a
    multiple of 2^-53 in [0, 1). *)
Definition random (g : t) : float * t :=
  (SF2Prim (binary_normalize prec emax (raw g (pos g) mod 2 ^ 53) (-53) false),
   mk (raw g) (S (pos g))).

(** The index [random.choice] draws for a sequence of [n] elements. *)
Definition randbelow (n : Z) (g : t) : Z * t :=
  (raw g (pos g) mod n, mk (raw g) (S (pos g))).

Arguments random : simpl never.
Arguments randbelow : simpl never.

End Random.

(** ** Game state *)

Module Stats.
Record t : Type := mk {
  total_trades : Z;
  goods_bought : Dict.t Z;
  goods_sold : Dict.t Z;
  total_spent : Surreal;
  total_earned : Surreal;
  cities_visited : list string;
  routes_traveled : Z;
  events_encountered : Z;
  supply_refreshes : Z
}.
End Stats.

(** A line of the refresh report: the city's name, the good's name and
    the announced increase, for a specialty or for a regular good. *)
Inductive message : Type :=
| Production (city good : string) (delta : Z)
| Restock (city good : string) (delta : Z).

Module GameState.

(** The ship, the routes and the victory flags are neither read nor
    written by the operations below and are left out. *)
Record t : Type := mk {
  current_city : string;
  day : Z;
  money : Surreal;
  cargo : Dict.t Z;
  charters : list Charter.t;
  reputation : Dict.t Z;
  last_supply_refresh_day : Z;
  stats : Stats.t;
  goods : Dict.t Good.t;
  cities : Dict.t City.t;
  base_stock_levels : Dict.t (Dict.t Z)
}.

Definition with_cities (s : t) (cs : Dict.t City.t) : t :=
  mk (current_city s) (day s) (money s) (cargo s) (charters s)
     (reputation s) (last_supply_refresh_day s) (stats s) (goods s) cs
     (base_stock_levels s).

Definition with_stats (s : t) (st : Stats.t) : t :=
  mk (current_city s) (day s) (money s) (cargo s) (charters s)
     (reputation s) (last_supply_refresh_day s) st (goods s) (cities s)
     (base_stock_levels s).

Definition with_money (s : t) (m : Surreal) : t :=
  mk (current_city s) (day s) m (cargo s) (charters s)
     (reputation s) (last_supply_refresh_day s) (stats s) (goods s)
     (cities s) (base_stock_levels s).

Definition with_cargo (s : t) (cg : Dict.t Z) : t :=
  mk (current_city s) (day s) (money s) cg (charters s)
     (reputation s) (last_supply_refresh_day s) (stats s) (goods s)
     (cities s) (base_stock_levels s).

Definition with_charters (s : t) (chs : list Charter.t) : t :=
  mk (current_city s) (day s) (money s) (cargo s) chs
     (reputation s) (last_supply_refresh_day s) (stats s) (goods s)
     (cities s) (base_stock_levels s).

Definition with_last_supply_refresh_day (s : t) (d : Z) : t :=
  mk (current_city s) (day s) (money s) (cargo s) (charters s)
     (reputation s) d (stats s) (goods s) (cities s)
     (base_stock_levels s).

Definition with_day (s : t) (d : Z) : t :=
  mk (current_city s) d (money s) (cargo s) (charters s)
     (reputation s) (last_supply_refresh_day s) (stats s) (goods s)
     (cities s) (base_stock_levels s).

Definition with_current_city (s : t) (city_id : string) : t :=
  mk city_id (day s) (money s) (cargo s) (charters s)
     (reputation s) (last_supply_refresh_day s) (stats s) (goods s)
     (cities s) (base_stock_levels s).

(** *** Supply refresh *)

(** What a loop that may raise leaves behind: the exception, if any,
    and the values it had reached. *)
Definition loop (A : Type) : Type := option exn * A * Random.t * list message.

(** The inner loop of [refresh_city_supplies]: the goods of one city's
    base-stock table, in order, against that city's stock. *)
Fixpoint refresh_goods (goods : Dict.t Good.t) (city : City.t)
    (base_stocks : list (string * Z)) (stock : Dict.t Z)
    (g : Random.t) (refresh_messages : list message) : loop (Dict.t Z) :=
  match base_stocks with
  | [] => (None, stock, g, refresh_messages)
  | (good_id, base_amount) :: rest =>
      let current_stock := Dict.get_default stock good_id 0 in
      if City.is_specialty city good_id then
        (* Specialty goods: restore to base + extra production *)
        let (extra_production, g1) := Random.randint 2 8 g in
        let new_stock := base_amount + extra_production in
        match Dict.get goods good_id with
        | None => (Some KeyError, stock, g1, refresh_messages)
        | Some good =>
            let msgs :=
              (refresh_messages ++
               [Production (City.name city) (Good.name good)
                           (new_stock - current_stock)])%list in
            refresh_goods goods city rest
              (Dict.set stock good_id (Z.max current_stock new_stock))
              g1 msgs
        end
      else
        (* Regular goods: restore to base amount with some variance *)
        let (variance, g1) := Random.randint (-2) 4 g in
        let new_stock := Z.max 1 (base_amount + variance) in
        if new_stock >? current_stock then
          match Dict.get goods good_id with
          | None => (Some KeyError, stock, g1, refresh_messages)
          | Some good =>
              let msgs :=
                (refresh_messages ++
                 [Restock (City.name city) (Good.name good)
                          (new_stock - current_stock)])%list in
              refresh_goods goods city rest
                (Dict.set stock good_id (Z.max current_stock new_stock))
                g1 msgs
          end
        else
          refresh_goods goods city rest
            (Dict.set stock good_id (Z.max current_stock new_stock))
            g1 refresh_messages
  end.

(** The outer loop: every city, in order. *)
Fixpoint refresh_cities (goods : Dict.t Good.t)
    (base_stock_levels : Dict.t (Dict.t Z))
    (todo : list (string * City.t))
    (g : Random.t) (refresh_messages : list message)
    : loop (list (string * City.t)) :=
  match todo with
  | [] => (None, [], g, refresh_messages)
  | (city_id, city) :: rest =>
      match Dict.get base_stock_levels city_id with
      | None => (Some KeyError, todo, g, refresh_messages)
      | Some base_stocks =>
          let '(e, stock', g1, msgs1) :=
            refresh_goods goods city base_stocks (City.stock city)
                          g refresh_messages in
          let city' := City.with_stock city stock' in
          match e with
          | Some _ => (e, (city_id, city') :: rest, g1, msgs1)
          | None =>
              let '(e2, rest', g2, msgs2) :=
                refresh_cities goods base_stock_levels rest g1 msgs1 in
              (e2, (city_id, city') :: rest', g2, msgs2)
          end
      end
  end.

Definition count_refresh (st : Stats.t) : Stats.t :=
  Stats.mk (Stats.total_trades st) (Stats.goods_bought st)
    (Stats.goods_sold st) (Stats.total_spent st) (Stats.total_earned st)
    (Stats.cities_visited st) (Stats.routes_traveled st)
    (Stats.events_encountered st) (Stats.supply_refreshes st + 1).

(** Refresh supplies in all cities based on their specialties. *)
Definition refresh_city_supplies (self : t) (g : Random.t)
    : Res (list message) * t * Random.t :=
  let '(e, cities', g', msgs) :=
    refresh_cities (goods self) (base_stock_levels self) (cities self) g [] in
  let self1 := with_cities self cities' in
  match e with
  | Some ex => (Raise ex, self1, g')
  | None => (Ok msgs, with_stats self1 (count_refresh (stats self1)), g')
  end.

(** Check if it is time to refresh city supplies (every 14 days). *)
Definition check_supply_refresh (self : t) (g : Random.t)
    : Res bool * t * Random.t :=
  let days_since_refresh := day self - last_supply_refresh_day self in
  if days_since_refresh >=? 14 then
    match refresh_city_supplies self g with
    | (Ok _, self1, g') =>
        (Ok true, with_last_supply_refresh_day self1 (day self1), g')
    | (Raise ex, self1, g') => (Raise ex, self1, g')
    end
  else (Ok false, self, g).

(** The stock of a good in a city as the program reads it:
    [city.stock.get(good_id, 0)]. *)
Definition stock_of (self : t) (city_id good_id : string) : Z :=
  match Dict.get (cities self) city_id with
  | Some city => Dict.get_default (City.stock city) good_id 0
  | None => 0
  end.

(** *** Pricing *)

(** The charter loop of [get_price]: every applicable charter clears
    the restriction. *)
Fixpoint apply_charters (charters : list Charter.t) (city_id good_id : string)
    (price : Surreal) : Surreal :=
  match charters with
  | [] => price
  | charter :: rest =>
      apply_charters rest city_id good_id
        (if Charter.applies_to charter city_id good_id
         then SurrealNumber.mk (SurrealNumber.a price) (SurrealNumber.b price) 0
         else price)
  end.

(** Calculate the current price for a good in a city. *)
Definition get_price (self : t) (good_id city_id : string) (is_buying : bool)
    : Res Surreal :=
  good <- Dict.subscript (goods self) good_id ;;
  city <- Dict.subscript (cities self) city_id ;;
  (* Start with base price *)
  let price :=
    SurrealNumber.mk (Good.base_a good) (Good.base_b good)
                     (if Good.monopoly good then 1 else 0) in
  (* Apply city modifiers *)
  let price :=
    match Dict.get (City.modifiers city) good_id with
    | Some mod_ =>
        SurrealNumber.mk
          (SurrealNumber.a price + CityModifier.a_mod mod_)
          (SurrealNumber.b price + CityModifier.b_mod mod_)
          (if Good.monopoly good then CityModifier.c_mod mod_ else 0)
    | None => price
    end in
  (* Apply charter if available *)
  let price := apply_charters (charters self) city_id good_id price in
  let stock := Dict.get_default (City.stock city) good_id 0 in
  let player_cargo := Dict.get_default (cargo self) good_id 0 in
  let base_spread := 0.15%float in
  (* Supply pressure *)
  stock_tenth <- Py.int_truediv stock 10 ;;
  let stock_factor := Py.max 0.5 (Py.min 2.0 stock_tenth) in
  (* Player inventory pressure: 2% penalty per unit held *)
  cargo_penalty <- Py.int_mul_float player_cargo 0.02 ;;
  let inventory_pressure := (1.0 + cargo_penalty)%float in
  let is_specialty := City.is_specialty city good_id in
  let specialty_bonus := (if is_specialty then 0.05 else 0)%float in
  price <-
    (if is_buying then
       (* Player buying: pay market premium + spread *)
       inv <- Py.float_truediv 1.0 stock_factor ;;
       let spread_multiplier := (1.0 + base_spread + (inv - 1.0) * 0.1)%float in
       let a1 := (SurrealNumber.a price * spread_multiplier)%float in
       if is_specialty then
         Ok (SurrealNumber.mk (a1 * 1.02) (SurrealNumber.b price + 0.5)
                              (SurrealNumber.c price))
       else
         Ok (SurrealNumber.mk a1 (SurrealNumber.b price) (SurrealNumber.c price))
     else
       (* Player selling: receive discount from market price *)
       let spread_multiplier := (1.0 - base_spread - specialty_bonus)%float in
       let spread_multiplier :=
         (spread_multiplier - (stock_factor - 1.0) * 0.05)%float in
       spread_multiplier <- Py.float_truediv spread_multiplier inventory_pressure ;;
       let a1 := (SurrealNumber.a price * Py.max 0.7 spread_multiplier)%float in
       if is_specialty then
         Ok (SurrealNumber.mk a1 (SurrealNumber.b price - 0.3)
                              (SurrealNumber.c price))
       else
         Ok (SurrealNumber.mk a1 (SurrealNumber.b price) (SurrealNumber.c price))) ;;
  (* Apply reputation (helps both buying and selling) *)
  rep_bonus <-
    Py.int_mul_float (Dict.get_default (reputation self) "merchant_guild" 0)
                     (-0.15) ;;
  Ok (SurrealNumber.mk (SurrealNumber.a price)
                       (SurrealNumber.b price + rep_bonus)
                       (SurrealNumber.c price)).

(** Check if player can afford a price. *)
Definition can_afford (self : t) (price : Surreal) : bool :=
  if negb (SurrealNumber.is_legal price) then false
  else SurrealNumber.__ge__ (money self) price.

(** *** Negotiation *)

(** The cut [negotiate_price] builds from the two opening offers. *)
Definition opening_cut (base_price : Surreal) (is_buying : bool)
    : Res NegotiationCut.t :=
  let cut := NegotiationCut.empty in
  if is_buying then
    player_offer <- SurrealNumber.__mul__ base_price (Py.Float 0.85) ;;
    let cut := NegotiationCut.add_offer cut player_offer false in
    merchant_counter <- SurrealNumber.__mul__ base_price (Py.Float 1.05) ;;
    Ok (NegotiationCut.add_offer cut merchant_counter true)
  else
    player_offer <- SurrealNumber.__mul__ base_price (Py.Float 1.15) ;;
    let cut := NegotiationCut.add_offer cut player_offer true in
    merchant_counter <- SurrealNumber.__mul__ base_price (Py.Float 0.95) ;;
    Ok (NegotiationCut.add_offer cut merchant_counter false).

(** Simplified negotiation: [Ok None] when the good requires a permit. *)
Definition negotiate_price (self : t) (good_id city_id : string)
    (quantity : Z) (is_buying : bool) : Res (option Surreal) :=
  base_price <- get_price self good_id city_id is_buying ;;
  if negb (SurrealNumber.is_legal base_price) then Ok None
  else
    cut <- opening_cut base_price is_buying ;;
    (* Resolve to simplest price in gap *)
    let final_price :=
      match NegotiationCut.find_simplest_in_gap cut with
      | Some p => p
      | None => base_price
      end in
    total <- SurrealNumber.__mul__ final_price (Py.Int quantity) ;;
    Ok (Some total).

(** *** Net worth *)

(** The inner loop of [get_net_worth]: the sell quotes of one good over
    the cities, in order.  A quote that raises is skipped (the bare
    [except]), an illegal one is not counted. *)
Fixpoint sum_sell_prices (self : t) (good_id : string) (cities : list string)
    (avg_price : Surreal) (price_count : Z) : Surreal * Z :=
  match cities with
  | [] => (avg_price, price_count)
  | city_id :: rest =>
      match get_price self good_id city_id false with
      | Ok sell_price =>
          if SurrealNumber.is_legal sell_price then
            sum_sell_prices self good_id rest
              (SurrealNumber.__add__ avg_price sell_price) (price_count + 1)
          else sum_sell_prices self good_id rest avg_price price_count
      | Raise _ => sum_sell_prices self good_id rest avg_price price_count
      end
  end.

(** The outer loop: the goods of the hold, in order. *)
Fixpoint add_cargo_value (self : t) (items : list (string * Z))
    (total_worth : Surreal) : Res Surreal :=
  match items with
  | [] => Ok total_worth
  | (good_id, quantity) :: rest =>
      let cities := Dict.keys (cities self) in
      let '(avg_price, price_count) :=
        sum_sell_prices self good_id cities (SurrealNumber.mk 0 0 0) 0 in
      if price_count >? 0 then
        a' <- (n <- Py.float_of_int price_count ;;
               Py.float_truediv (SurrealNumber.a avg_price) n) ;;
        b' <- (n <- Py.float_of_int price_count ;;
               Py.float_truediv (SurrealNumber.b avg_price) n) ;;
        let avg_price := SurrealNumber.mk a' b' (SurrealNumber.c avg_price) in
        value <- SurrealNumber.__mul__ avg_price (Py.Int quantity) ;;
        add_cargo_value self rest (SurrealNumber.__add__ total_worth value)
      else add_cargo_value self rest total_worth
  end.

(** Calculate total net worth including cargo value. *)
Definition get_net_worth (self : t) : Res Surreal :=
  let total_worth :=
    SurrealNumber.mk (SurrealNumber.a (money self)) (SurrealNumber.b (money self))
                     (SurrealNumber.c (money self)) in
  add_cargo_value self (cargo self) total_worth.

End GameState.

(** ** The engine: buying and selling

    The two prompts of a transaction are the parameters [choice_input]
    and [quantity_input]: the integer typed, or [None] for text that
    [int] rejects with [ValueError].  What is printed is the [report]. *)

Inductive report : Type :=
| NothingToTrade      (* no goods available, or an empty hold *)
| InvalidInput        (* ValueError caught *)
| NoSuchChoice        (* selection outside the list: nothing happens *)
| InvalidQuantity     (* quantity outside 1..max *)
| Refused             (* restricted, or not affordable *)
| Done (total_price : Surreal).

Module GameEngine.

Definition add_bought (st : Stats.t) (good_id : string) (quantity : Z)
    (total_price : Surreal) : Stats.t :=
  Stats.mk (Stats.total_trades st + 1)
    (Dict.set (Stats.goods_bought st) good_id
       (Dict.get_default (Stats.goods_bought st) good_id 0 + quantity))
    (Stats.goods_sold st)
    (SurrealNumber.__add__ (Stats.total_spent st) total_price)
    (Stats.total_earned st)
    (Stats.cities_visited st) (Stats.routes_traveled st)
    (Stats.events_encountered st) (Stats.supply_refreshes st).

Definition add_sold (st : Stats.t) (good_id : string) (quantity : Z)
    (total_price : Surreal) : Stats.t :=
  Stats.mk (Stats.total_trades st + 1)
    (Stats.goods_bought st)
    (Dict.set (Stats.goods_sold st) good_id
       (Dict.get_default (Stats.goods_sold st) good_id 0 + quantity))
    (Stats.total_spent st)
    (SurrealNumber.__add__ (Stats.total_earned st) total_price)
    (Stats.cities_visited st) (Stats.routes_traveled st)
    (Stats.events_encountered st) (Stats.supply_refreshes st).

(** The price list printed before the prompt: each quote is computed,
    so an exception of [get_price] ends the transaction there. *)
Fixpoint quote_all (state : GameState.t) (items : list (string * Z))
    (is_buying : bool) : Res unit :=
  match items with
  | [] => Ok tt
  | (good_id, _) :: rest =>
      _ <- GameState.get_price state good_id
             (GameState.current_city state) is_buying ;;
      quote_all state rest is_buying
  end.

(** [0 <= choice < len(items)] and then [items[choice]]. *)
Definition select {A : Type} (items : list A) (choice : Z) : option A :=
  if (0 <=? choice) && (choice <? Z.of_nat (List.length items))
  then nth_error items (Z.to_nat choice)
  else None.

Definition buy_goods (state : GameState.t)
    (choice_input quantity_input : option Z) : Res report * GameState.t :=
  match Dict.get (GameState.cities state) (GameState.current_city state) with
  | None => (Raise KeyError, state)
  | Some city =>
  let available_goods :=
    filter (fun item => Dict.contains (GameState.goods state) (fst item)
                        && (snd item >? 0))
           (City.stock city) in
  match available_goods with
  | [] => (Ok NothingToTrade, state)
  | _ :: _ =>
  match quote_all state available_goods true with
  | Raise e => (Raise e, state)
  | Ok _ =>
  match choice_input with
  | None => (Ok InvalidInput, state)
  | Some typed =>
  let choice := typed - 1 in
  match select available_goods choice with
  | None => (Ok NoSuchChoice, state)
  | Some (good_id, max_stock) =>
  match quantity_input with
  | None => (Ok InvalidInput, state)
  | Some quantity =>
  if (1 <=? quantity) && (quantity <=? max_stock) then
    match GameState.negotiate_price state good_id
            (GameState.current_city state) quantity true with
    | Raise e => (Raise e, state)
    | Ok None => (Ok Refused, state)
    | Ok (Some total_price) =>
        if GameState.can_afford state total_price then
          (* Execute purchase *)
          let state1 :=
            GameState.with_money state
              (SurrealNumber.__sub__ (GameState.money state) total_price) in
          let state2 :=
            GameState.with_cargo state1
              (Dict.set (GameState.cargo state1) good_id
                 (Dict.get_default (GameState.cargo state1) good_id 0
                  + quantity)) in
          match Dict.get (City.stock city) good_id with
          | None => (Raise KeyError, state2)
          | Some in_stock =>
              let city' :=
                City.with_stock city
                  (Dict.set (City.stock city) good_id (in_stock - quantity)) in
              let state3 :=
                GameState.with_cities state2
                  (Dict.set (GameState.cities state2)
                     (GameState.current_city state2) city') in
              (* Update statistics *)
              let state4 :=
                GameState.with_stats state3
                  (add_bought (GameState.stats state3) good_id quantity
                              total_price) in
              (Ok (Done total_price), state4)
          end
        else (Ok Refused, state)
    end
  else (Ok InvalidQuantity, state)
  end end end end end end.

Definition sell_goods (state : GameState.t)
    (choice_input quantity_input : option Z) : Res report * GameState.t :=
  match GameState.cargo state with
  | [] => (Ok NothingToTrade, state)
  | _ :: _ =>
  let cargo_items := GameState.cargo state in
  match quote_all state cargo_items false with
  | Raise e => (Raise e, state)
  | Ok _ =>
  match choice_input with
  | None => (Ok InvalidInput, state)
  | Some typed =>
  let choice := typed - 1 in
  match select cargo_items choice with
  | None => (Ok NoSuchChoice, state)
  | Some (good_id, max_quantity) =>
  match quantity_input with
  | None => (Ok InvalidInput, state)
  | Some quantity =>
  if (1 <=? quantity) && (quantity <=? max_quantity) then
    match GameState.negotiate_price state good_id
            (GameState.current_city state) quantity false with
    | Raise e => (Raise e, state)
    | Ok None => (Ok Refused, state)
    | Ok (Some total_price) =>
        (* Execute sale *)
        let state1 :=
          GameState.with_money state
            (SurrealNumber.__add__ (GameState.money state) total_price) in
        match Dict.get (GameState.cargo state1) good_id with
        | None => (Raise KeyError, state1)
        | Some held =>
            let cargo1 := Dict.set (GameState.cargo state1) good_id
                                   (held - quantity) in
            let cargo2 :=
              if held - quantity =? 0 then Dict.del cargo1 good_id
              else cargo1 in
            let state2 := GameState.with_cargo state1 cargo2 in
            match Dict.get (GameState.cities state2)
                           (GameState.current_city state2) with
            | None => (Raise KeyError, state2)
            | Some city =>
                let city' :=
                  City.with_stock city
                    (Dict.set (City.stock city) good_id
                       (Dict.get_default (City.stock city) good_id 0
                        + quantity)) in
                let state3 :=
                  GameState.with_cities state2
                    (Dict.set (GameState.cities state2)
                       (GameState.current_city state2) city') in
                (* Update statistics *)
                let state4 :=
                  GameState.with_stats state3
                    (add_sold (GameState.stats state3) good_id quantity
                              total_price) in
                (Ok (Done total_price), state4)
            end
        end
    end
  else (Ok InvalidQuantity, state)
  end end end end end.

End GameEngine.

(** ** Routes and the ship *)

Module Route.
Record t : Type := mk {
  from_city : string;
  to_city : string;
  min_days : Z;
  max_days : Z;
  base_risk : float
}.

(** [random.randint(min_days, max_days)]; [randint] rejects an empty
    range with [ValueError] before it draws. *)
Definition travel_time (self : t) (g : Random.t) : Res Z * Random.t :=
  if min_days self >? max_days self then (Raise ValueError, g)
  else
    let (days, g') := Random.randint (min_days self) (max_days self) g in
    (Ok days, g').
End Route.

Module Ship.
Record t : Type := mk {
  hull_level : Z;
  rigging_level : Z;
  cargo_capacity : Z;
  crew_size : Z;
  crew_morale : float;
  special_equipment : list string
}.

Definition has_hidden_hold (self : t) : bool :=
  Dict.mem "hidden_hold" (special_equipment self).

Definition with_crew_morale (self : t) (m : float) : t :=
  mk (hull_level self) (rigging_level self) (cargo_capacity self)
     (crew_size self) m (special_equipment self).
End Ship.

(** ** The whole game state

    [GameState.t] holds the fields of the Python [GameState] that trading
    and the supply refresh use; [Game.t] adds the ship, the routes and the
    victory flags. *)

Module Game.

Record t : Type := mk {
  state : GameState.t;
  ship : Ship.t;
  routes : list Route.t;
  game_completed : bool;
  owns_house : bool;
  start_money : Surreal
}.

Definition with_state (self : t) (st : GameState.t) : t :=
  mk st (ship self) (routes self) (game_completed self) (owns_house self)
     (start_money self).

Definition with_ship (self : t) (sh : Ship.t) : t :=
  mk (state self) sh (routes self) (game_completed self) (owns_house self)
     (start_money self).

(** [SurrealNumber(10000, 0, 0)] *)
Definition house_price : Surreal := SurrealNumber.mk 10000 0 0.

(** Check if player can afford the victory house (10000 coins). *)
Definition can_afford_house (self : t) : bool :=
  SurrealNumber.__ge__ (GameState.money (state self)) house_price
  && negb (owns_house self).

(** Purchase the victory house. *)
Definition purchase_house (self : t) : bool * t :=
  if can_afford_house self then
    (true,
     mk (GameState.with_money (state self)
           (SurrealNumber.__sub__ (GameState.money (state self)) house_price))
        (ship self) (routes self) true true (start_money self))
  else (false, self).

End Game.

(** ** The engine: travel and the house *)

(** The four travel events, by what their text says. *)
Inductive event : Type :=
| Pirates      (* Pirates demand tribute! Lost 50 coins. *)
| Storm        (* Storm delays journey! Crew morale slightly decreased. *)
| Winds        (* Favorable winds! Arrived ahead of schedule. *)
| Trader.      (* Met another trader with valuable information! *)

(** What [travel] prints. *)
Inductive voyage : Type :=
| NoRoutes                (* no route leaves the current city *)
| BadInput                (* ValueError caught *)
| NoSuchRoute             (* selection outside the list: nothing happens *)
| Arrived (city_name : string) (travel_time : Z)
          (caravans : option (list message)) (met : option event).

Inductive title : Type :=
| Legendary
| Expert
| Skilled
| Novice.

(** What the victory screen shows. *)
Record victory : Type := mk_victory {
  completion_time : Z;
  final_worth : Surreal;
  total_profit : float;
  profit_percent : float;
  efficiency : option (float * float);  (* profit per trade, per day *)
  total_bought : Z;
  total_sold : Z;
  most_purchased : option (string * Z);
  most_sold : option (string * Z);
  cities_discovered : Z;
  visited_names : list string;
  score : Z;
  rating : title
}.

(** What [buy_house] prints. *)
Inductive house_report : Type :=
| OnlyInCarthage
| AlreadyOwned
| NotEnough (needed : float)
| NotPurchased
| Victory (screen : victory).

Module Engine.

Definition events : list event := [Pirates; Storm; Winds; Trader].

Definition count_event (st : Stats.t) : Stats.t :=
  Stats.mk (Stats.total_trades st) (Stats.goods_bought st)
    (Stats.goods_sold st) (Stats.total_spent st) (Stats.total_earned st)
    (Stats.cities_visited st) (Stats.routes_traveled st)
    (Stats.events_encountered st + 1) (Stats.supply_refreshes st).

(** [cities_visited.add(city_id)] and [routes_traveled += 1]. *)
Definition count_route (st : Stats.t) (city_id : string) : Stats.t :=
  Stats.mk (Stats.total_trades st) (Stats.goods_bought st)
    (Stats.goods_sold st) (Stats.total_spent st) (Stats.total_earned st)
    (if Dict.mem city_id (Stats.cities_visited st)
     then Stats.cities_visited st
     else (Stats.cities_visited st ++ [city_id])%list)
    (Stats.routes_traveled st + 1)
    (Stats.events_encountered st) (Stats.supply_refreshes st).

(** Handle random events during travel. *)
Definition _handle_travel_event (self : Game.t) (g : Random.t)
    : Res event * Game.t * Random.t :=
  let (i, g') := Random.randbelow (Z.of_nat (List.length events)) g in
  let event := nth (Z.to_nat i) events Pirates in
  (* Update statistics *)
  let st := Game.state self in
  let self1 :=
    Game.with_state self (GameState.with_stats st (count_event (GameState.stats st))) in
  (* Apply simple consequences *)
  match event with
  | Pirates =>
      match SurrealNumber.sub_number (GameState.money (Game.state self1))
                                     (Py.Int 50) with
      | Ok money' =>
          (Ok event,
           Game.with_state self1 (GameState.with_money (Game.state self1) money'),
           g')
      | Raise e => (Raise e, self1, g')
      end
  | Storm =>
      (Ok event,
       Game.with_ship self1
         (Ship.with_crew_morale (Game.ship self1)
            (Ship.crew_morale (Game.ship self1) * 0.9)%float),
       g')
  | _ => (Ok event, self1, g')
  end.

(** The destination list printed before the prompt: each destination
    city is looked up. *)
Fixpoint list_destinations (cities : Dict.t City.t)
    (available_routes : list Route.t) : Res unit :=
  match available_routes with
  | [] => Ok tt
  | route :: rest =>
      _ <- Dict.subscript cities (Route.to_city route) ;;
      list_destinations cities rest
  end.

Definition travel (self : Game.t) (choice_input : option Z) (g : Random.t)
    : Res voyage * Game.t * Random.t :=
  let st := Game.state self in
  let available_routes :=
    filter (fun r => String.eqb (Route.from_city r) (GameState.current_city st))
           (Game.routes self) in
  match available_routes with
  | [] => (Ok NoRoutes, self, g)
  | _ :: _ =>
  match list_destinations (GameState.cities st) available_routes with
  | Raise e => (Raise e, self, g)
  | Ok _ =>
  match choice_input with
  | None => (Ok BadInput, self, g)
  | Some typed =>
  let choice := typed - 1 in
  match GameEngine.select available_routes choice with
  | None => (Ok NoSuchRoute, self, g)
  | Some route =>
  match Route.travel_time route g with
  | (Raise ValueError, g1) => (Ok BadInput, self, g1)
  | (Raise e, g1) => (Raise e, self, g1)
  | (Ok travel_time, g1) =>
      (* Simple travel resolution *)
      let st1 := GameState.with_day st (GameState.day st + travel_time) in
      let st2 := GameState.with_current_city st1 (Route.to_city route) in
      (* Update statistics *)
      let st3 :=
        GameState.with_stats st2
          (count_route (GameState.stats st2) (Route.to_city route)) in
      (* Check for supply refresh after travel *)
      match GameState.check_supply_refresh st3 g1 with
      | (Raise e, st4, g2) => (Raise e, Game.with_state self st4, g2)
      | (Ok refresh_occurred, st4, g2) =>
      let '(caravans, st5, g3) :=
        if refresh_occurred then
          match GameState.refresh_city_supplies st4 g2 with
          | (Ok refresh_messages, st5, g3) => (Ok (Some refresh_messages), st5, g3)
          | (Raise e, st5, g3) => (Raise e, st5, g3)
          end
        else (Ok None, st4, g2) in
      let self5 := Game.with_state self st5 in
      match caravans with
      | Raise e => (Raise e, self5, g3)
      | Ok caravans =>
      (* Random event chance *)
      let (x, g4) := Random.random g3 in
      let '(met, self6, g5) :=
        if (x <? Route.base_risk route)%float then
          match _handle_travel_event self5 g4 with
          | (Ok event, self6, g5) => (Ok (Some event), self6, g5)
          | (Raise e, self6, g5) => (Raise e, self6, g5)
          end
        else (Ok None, self5, g4) in
      match met with
      | Raise e => (Raise e, self6, g5)
      | Ok met =>
      match Dict.get (GameState.cities (Game.state self6))
                     (GameState.current_city (Game.state self6)) with
      | None => (Raise KeyError, self6, g5)
      | Some city =>
          (Ok (Arrived (City.name city) travel_time caravans met), self6, g5)
      end end end end end end end end end.

(** [sum(d.values())] *)
Definition sum_values (d : Dict.t Z) : Z :=
  fold_left (fun acc item => acc + snd item) d 0.

(** [max(d.items(), key=lambda x: x[1])] from the first item: a later
    item replaces the running one when its value is strictly larger. *)
Fixpoint max_by_value (best : string * Z) (rest : list (string * Z))
    : string * Z :=
  match rest with
  | [] => best
  | item :: rest' =>
      max_by_value (if snd item >? snd best then item else best) rest'
  end.

(** The most traded good of a tally, by name, when the tally is not
    empty. *)
Definition most_traded (goods : Dict.t Good.t) (tally : Dict.t Z)
    : Res (option (string * Z)) :=
  match tally with
  | [] => Ok None
  | first :: rest =>
      let best := max_by_value first rest in
      good <- Dict.subscript goods (fst best) ;;
      Ok (Some (Good.name good, snd best))
  end.

(** [[cities[city_id].name for city_id in cities_visited]] *)
Fixpoint names_of (cities : Dict.t City.t) (visited : list string)
    : Res (list string) :=
  match visited with
  | [] => Ok []
  | city_id :: rest =>
      city <- Dict.subscript cities city_id ;;
      names <- names_of cities rest ;;
      Ok (City.name city :: names)
  end.

(** Display the final victory screen with comprehensive results. *)
Definition show_victory_screen (self : Game.t) : Res victory :=
  let st := Game.state self in
  (* Final financial summary *)
  net_worth <- GameState.get_net_worth st ;;
  let final_worth := SurrealNumber.__add__ net_worth Game.house_price in
  let total_profit :=
    (SurrealNumber.a final_worth - SurrealNumber.a (Game.start_money self))%float in
  ratio <- Py.float_truediv total_profit (SurrealNumber.a (Game.start_money self)) ;;
  let profit_percent := (ratio * 100)%float in
  (* Trading efficiency *)
  let stats := GameState.stats st in
  efficiency <-
    (if Stats.total_trades stats >? 0 then
       avg_profit_per_trade <-
         (n <- Py.float_of_int (Stats.total_trades stats) ;;
          Py.float_truediv total_profit n) ;;
       avg_profit_per_day <-
         (n <- Py.float_of_int (GameState.day st) ;;
          Py.float_truediv total_profit n) ;;
       Ok (Some (avg_profit_per_trade, avg_profit_per_day))
     else Ok None) ;;
  (* Goods traded summary *)
  let total_bought := sum_values (Stats.goods_bought stats) in
  let total_sold := sum_values (Stats.goods_sold stats) in
  (* Most traded goods *)
  most_purchased <- most_traded (GameState.goods st) (Stats.goods_bought stats) ;;
  most_sold <- most_traded (GameState.goods st) (Stats.goods_sold stats) ;;
  (* Travel achievements *)
  let cities_discovered := Z.of_nat (List.length (Stats.cities_visited stats)) in
  visited_names <- names_of (GameState.cities st) (Stats.cities_visited stats) ;;
  (* Performance rating *)
  let score := 0 in
  let score :=
    if GameState.day st <=? 30 then score + 3
    else if GameState.day st <=? 60 then score + 2
    else score + 1 in
  let score :=
    if (15000 <? total_profit)%float then score + 3
    else if (10000 <? total_profit)%float then score + 2
    else score + 1 in
  let score := if cities_discovered =? 3 then score + 2 else score in
  let score :=
    if Stats.events_encountered stats >=? 5 then score + 1 else score in
  let rating :=
    if score >=? 8 then Legendary
    else if score >=? 6 then Expert
    else if score >=? 4 then Skilled
    else Novice in
  Ok (mk_victory (GameState.day st) final_worth total_profit profit_percent
        efficiency total_bought total_sold most_purchased most_sold
        cities_discovered visited_names score rating).

(** Handle house purchase and victory. *)
Definition buy_house (self : Game.t) : Res house_report * Game.t :=
  if negb (String.eqb (GameState.current_city (Game.state self)) "carthage") then
    (Ok OnlyInCarthage, self)
  else if Game.owns_house self then (Ok AlreadyOwned, self)
  else if negb (Game.can_afford_house self) then
    let house_price := 10000%float in
    let needed :=
      (house_price - SurrealNumber.a (GameState.money (Game.state self)))%float in
    (Ok (NotEnough needed), self)
  else
    (* Purchase the house! *)
    match Game.purchase_house self with
    | (true, self') =>
        match show_victory_screen self' with
        | Ok screen => (Ok (Victory screen), self')
        | Raise e => (Raise e, self')
        end
    | (false, self') => (Ok NotPurchased, self')
    end.

End Engine.

(** ** The world a new game starts in *)

Module World.

Definition _create_goods : Dict.t Good.t :=
  [ ("purple_dye", Good.mk "purple_dye" "Purple Dye" 220 (-3) true false false);
    ("glass", Good.mk "glass" "Glass" 120 0 false false false);
    ("olive_oil", Good.mk "olive_oil" "Olive Oil" 40 (-1) false false true);
    ("cedar", Good.mk "cedar" "Cedar Timber" 90 (-1) false false false);
    ("wine", Good.mk "wine" "Wine" 36 0 false true true);
    ("salt", Good.mk "salt" "Salt" 18 1 false false false);
    ("tin", Good.mk "tin" "Tin" 130 1 false false false);
    ("silver", Good.mk "silver" "Silver" 240 2 false false false) ].

Definition base_stock_levels : Dict.t (Dict.t Z) :=
  [ ("carthage", [("glass", 18); ("olive_oil", 25); ("wine", 12); ("salt", 30)]);
    ("tyre", [("purple_dye", 5); ("glass", 15); ("cedar", 8)]);
    ("gadir", [("silver", 6); ("tin", 12); ("salt", 20)]) ].

Definition carthage : City.t :=
  City.mk "carthage" "Carthage" "N. Africa"
    [ ("glass", CityModifier.mk (-8) (-1) 0);   (* Glass production hub *)
      ("olive_oil", CityModifier.mk 4 0 0);     (* Festival bonus *)
      ("wine", CityModifier.mk 2 0 0) ]         (* Moderate demand *)
    [("glass", 18); ("olive_oil", 25); ("wine", 12); ("salt", 30)]
    [].

Definition tyre : City.t :=
  City.mk "tyre" "Tyre" "Levant"
    [ ("purple_dye", CityModifier.mk (-40) (-2) 0);  (* Major production center *)
      ("glass", CityModifier.mk (-20) (-1) 0);       (* Secondary production *)
      ("cedar", CityModifier.mk (-30) (-1) 0) ]      (* Local resource *)
    [("purple_dye", 5); ("glass", 15); ("cedar", 8)]
    [].

Definition gadir : City.t :=
  City.mk "gadir" "Gadir" "Iberia"
    [ ("purple_dye", CityModifier.mk 0 0 1);    (* Embargo - can't trade *)
      ("silver", CityModifier.mk (-30) 1 0);    (* Mining region *)
      ("tin", CityModifier.mk (-20) 0 0) ]      (* Local metal trade *)
    [("silver", 6); ("tin", 12); ("salt", 20)]
    [].

Definition _create_cities : Dict.t City.t :=
  [ ("carthage", carthage); ("tyre", tyre); ("gadir", gadir) ].

Definition zero : Surreal := SurrealNumber.mk 0 0 0.

Definition initial_stats : Stats.t :=
  Stats.mk 0 [] [] zero zero ["carthage"] 0 0 0.

(** [GameState()] *)
Definition initial : GameState.t :=
  GameState.mk "carthage" 1 (SurrealNumber.mk 1240 (-1) 0) [] []
    [("merchant_guild", 5)] 1 initial_stats
    _create_goods _create_cities base_stock_levels.

Definition _create_routes : list Route.t :=
  [ Route.mk "carthage" "gadir" 7 10 0.18;
    Route.mk "carthage" "tyre" 12 16 0.15;
    Route.mk "tyre" "gadir" 18 28 0.22;
    Route.mk "gadir" "carthage" 8 11 0.16;
    Route.mk "tyre" "carthage" 11 15 0.12;
    Route.mk "gadir" "tyre" 20 30 0.25 ].

(** [Ship()] *)
Definition ship : Ship.t := Ship.mk 1 1 50 8 1.0 [].

(** [GameEngine()]: a new game. *)
Definition new_game : Game.t :=
  Game.mk initial ship _create_routes false false (SurrealNumber.mk 1240 (-1) 0).

End World.

(** ** Worlds used as examples *)

Module Examples.

(** The new game's world with a charter for purple dye in Gadir. *)
Definition gadir_dye_charter : Charter.t :=
  Charter.mk ["gadir"] ["purple_dye"].

Definition chartered : GameState.t :=
  GameState.with_charters World.initial [gadir_dye_charter].

(** A generator whose raw stream is constantly 6: [randint 2 8] draws
    8 and [randint (-2) 4] draws 4. *)
Definition sixes : Random.t := Random.mk (fun _ => 6) 0.

(** A market for one good worth the smallest positive float. *)
Definition dust : Good.t :=
  Good.mk "dust" "Dust" 0x1p-1074 (-1) false false false.

Definition port : City.t :=
  City.mk "port" "Port" "Nowhere" [] [("dust", 10)] [].

Definition dust_market : GameState.t :=
  GameState.mk "port" 1 (SurrealNumber.mk 1240 (-1) 0) [] [] [] 1
    World.initial_stats [("dust", dust)] [("port", port)]
    [("port", [("dust", 10)])].

(** Prices whose real components add up past 2^53. *)
Definition big : Surreal := SurrealNumber.mk 1e16 0 0.
Definition one : Surreal := SurrealNumber.mk 1 0 0.

(** Two prices that differ only on the infinite axis, by less than the
    tolerance of [__eq__]. *)
Definition free : Surreal := SurrealNumber.mk 0 0 0.
Definition barely_restricted : Surreal := SurrealNumber.mk 0 0 1e-11.


(** A new game with three units of glass and two of salt in the hold. *)
Definition laden : GameState.t :=
  GameState.with_cargo World.initial [("glass", 3); ("salt", 2)].

(** A new game with a good in the hold that the catalogue does not
    list. *)
Definition stowaway : GameState.t :=
  GameState.with_cargo World.initial [("amber", 5)].

(** Generators whose raw streams are constantly 7 and constantly 8. *)
Definition sevens : Random.t := Random.mk (fun _ => 7) 0.
Definition eights : Random.t := Random.mk (fun _ => 8) 0.

(** A new game with 20000 coins. *)
Definition wealthy : Game.t :=
  Game.with_state World.new_game
    (GameState.with_money World.initial (SurrealNumber.mk 20000 (-1) 0)).
End Examples.

(** ** Notions the properties are stated with *)

(** The infinite component a quote starts from: 1 for a monopoly good,
    replaced by the city's override when the city has a modifier. *)
Definition restriction (good : Good.t) (city : City.t) (good_id : string) : float :=
  match Dict.get (City.modifiers city) good_id with
  | Some mod_ => if Good.monopoly good then CityModifier.c_mod mod_ else 0%float
  | None => if Good.monopoly good then 1%float else 0%float
  end.

(** The value the end-to-end example expects for the real component of
    the glass quote: the buying formula without the specialty factor. *)
Definition plain_glass_quote : float :=
  (112 * (1 + 0.15 + (1 / 1.8 - 1) * 0.1))%float.

(** [max_L] and [min_R] as [find_simplest_in_gap] computes them. *)
Definition bounds (cut : NegotiationCut.t) : option (Surreal * Surreal) :=
  match NegotiationCut.L cut, NegotiationCut.R cut with
  | l0 :: ls, r0 :: rs =>
      Some (NegotiationCut.max_from l0 ls, NegotiationCut.min_from r0 rs)
  | _, _ => None
  end.

(** The stock a refresh leaves for one good, from the draw [d]. *)
Definition refreshed (specialty : bool) (base_amount current d : Z) : Z :=
  if specialty then Z.max current (base_amount + d)
  else Z.max current (Z.max 1 (base_amount + d)).

(** The interval the draw comes from. *)
Definition in_draw_range (specialty : bool) (d : Z) : Prop :=
  if specialty then 2 <= d <= 8 else -2 <= d <= 4.

(** The stock of a good in a list of cities, read as [stock_of] reads it. *)
Definition stock_in (cs : Dict.t City.t) (city_id good_id : string) : Z :=
  match Dict.get cs city_id with
  | Some city => Dict.get_default (City.stock city) good_id 0
  | None => 0
  end.

(** The binary64 float of an integer, as [float_of_int] rounds it. *)
Definition BN (n : Z) : spec_float := binary_normalize prec emax n 0 false.

(** A mantissa shifted left by [n] places. *)
Definition shl (p : positive) (n : nat) : positive := Nat.iter n xO p.

(** The number of places a mantissa is shifted to fill the 53 bits. *)
Definition fill (p : positive) : nat := Z.to_nat (53 - Zpos (digits2_pos p)).

(** The state of the rounding shifter on a mantissa with nothing lost. *)
Definition exact (m : positive) : shr_record := Build_shr_record (Zpos m) false false.

(** The value of a finite float in units of 2^-1074, the spacing of the
    smallest floats: an integer.  [None] for infinities and NaN. *)
Definition scaled (x : spec_float) : option Z :=
  match x with
  | S754_zero _ => Some 0
  | S754_finite s m e => Some (cond_Zopp s (Zpos m * 2 ^ (e + 1074)))
  | _ => None
  end.

Definition value (f : float) : option Z := scaled (Prim2SF f).

(** All three components of a price are at most [bound] in magnitude. *)
Definition within (bound : float) (x : Surreal) : bool :=
  (abs (SurrealNumber.a x) <=? bound)%float
  && (abs (SurrealNumber.b x) <=? bound)%float
  && (abs (SurrealNumber.c x) <=? bound)%float.

(** The place of a binary64 value in the order [SFcompare] decides:
    its class (negative infinity, negative, zero, positive, positive
    infinity), then its exponent, then its mantissa. *)
Definition order_key (x : spec_float) : Z * Z * Z :=
  match x with
  | S754_nan => (0, 0, 0)
  | S754_zero _ => (0, 0, 0)
  | S754_infinity true => (-2, 0, 0)
  | S754_infinity false => (2, 0, 0)
  | S754_finite true m e => (-1, - e, - Zpos m)
  | S754_finite false m e => (1, e, Zpos m)
  end.

(** Whether a binary64 value is a number. *)
Definition is_number (x : spec_float) : bool :=
  match x with
  | S754_nan => false
  | _ => true
  end.

(** Lexicographic order on keys. *)
Definition key_lt (p q : Z * Z * Z) : Prop :=
  fst (fst p) < fst (fst q)
  \/ (fst (fst p) = fst (fst q)
      /\ (snd (fst p) < snd (fst q)
          \/ (snd (fst p) = snd (fst q) /\ snd p < snd q))).

(** The real component a quote starts from: the good's base price,
    moved by the city's modifier when the city has one. *)
Definition listed_a (good : Good.t) (city : City.t) (good_id : string) : float :=
  match Dict.get (City.modifiers city) good_id with
  | Some mod_ => (Good.base_a good + CityModifier.a_mod mod_)%float
  | None => Good.base_a good
  end.

(** The quantity of a good in the hold, as the program reads it:
    [cargo.get(good_id, 0)]. *)
Definition held (self : GameState.t) (good_id : string) : Z :=
  Dict.get_default (GameState.cargo self) good_id 0.

(** Every entry of the hold is a positive quantity. *)
Definition hold_is_positive (self : GameState.t) : bool :=
  forallb (fun item => 0 <? snd item) (GameState.cargo self).

(** The goods on offer in the current city, as [buy_goods] lists them:
    the entries of the city's stock whose good is in the catalogue and
    whose stock is positive. *)
Definition available_goods (state : GameState.t) : list (string * Z) :=
  match Dict.get (GameState.cities state) (GameState.current_city state) with
  | Some city =>
      filter (fun item => Dict.contains (GameState.goods state) (fst item)
                          && (snd item >? 0))
             (City.stock city)
  | None => []
  end.

(** Whether every restock line of a report announces an increase. *)
Definition announces_increases (msgs : list message) : Prop :=
  forall city good delta, In (Restock city good delta) msgs -> 1 <= delta.

(** Every city has a base-stock table, and every good of a table is in
    the catalogue. *)
Definition tables_complete (self : GameState.t) : Prop :=
  forall city_id city,
    In (city_id, city) (GameState.cities self) ->
    exists base_stocks,
      Dict.get (GameState.base_stock_levels self) city_id = Some base_stocks
      /\ forall good_id base_amount,
           In (good_id, base_amount) base_stocks ->
           Dict.contains (GameState.goods self) good_id = true.

(** The trading state on leaving for [route], [travel_time] days long:
    the day advanced, the city changed, the route counted. *)
Definition departed (st : GameState.t) (route : Route.t) (travel_time : Z)
    : GameState.t :=
  let st1 := GameState.with_day st (GameState.day st + travel_time) in
  let st2 := GameState.with_current_city st1 (Route.to_city route) in
  GameState.with_stats st2
    (Engine.count_route (GameState.stats st2) (Route.to_city route)).

(** Two trading states that differ at most in the stocks of the cities,
    the day of the last refresh and the refresh counter. *)
Definition same_but_supplies (s s' : GameState.t) : Prop :=
  GameState.current_city s' = GameState.current_city s
  /\ GameState.day s' = GameState.day s
  /\ GameState.money s' = GameState.money s
  /\ GameState.cargo s' = GameState.cargo s
  /\ Stats.routes_traveled (GameState.stats s')
     = Stats.routes_traveled (GameState.stats s)
  /\ Stats.cities_visited (GameState.stats s')
     = Stats.cities_visited (GameState.stats s)
  /\ forall city_id good_id,
       GameState.stock_of s city_id good_id
       <= GameState.stock_of s' city_id good_id.

(** * Properties *)

(** ** Facts about binary64 comparison *)

Section FloatOrder.

Local Open Scope float_scope.

Lemma SFcompare_antisym (x y : spec_float) :
  SFcompare y x = option_map CompOpp (SFcompare x y).
Proof.
  assert (A : forall p q, PosDef.Pos.compare_cont Eq q p
                          = CompOpp (PosDef.Pos.compare_cont Eq p q))
    by (intros p q; symmetry; exact (Pos.compare_cont_antisym p q Eq)).
  destruct x as [[]|[]| |[] mx ex], y as [[]|[]| |[] my ey]; simpl;
    try reflexivity;
    rewrite (Z.compare_antisym ex ey); destruct (ex ?= ey)%Z eqn:E; simpl;
    try reflexivity; rewrite (A mx my); reflexivity.
Qed.

Lemma ltb_asym (x y : float) : (x <? y) = true -> (y <? x) = false.
Proof.
  rewrite !ltb_spec. unfold SFltb. rewrite (SFcompare_antisym (Prim2SF x)).
  destruct (SFcompare (Prim2SF x) (Prim2SF y)) as [[]|]; simpl; congruence.
Qed.

Lemma ltb_neq (x y : float) : (x <? y) = true -> (x =? y) = false.
Proof.
  rewrite ltb_spec, eqb_spec. unfold SFltb, SFeqb.
  destruct (SFcompare (Prim2SF x) (Prim2SF y)) as [[]|]; congruence.
Qed.

Lemma eqb_sym (x y : float) : (x =? y) = (y =? x).
Proof.
  rewrite !eqb_spec. unfold SFeqb. rewrite (SFcompare_antisym (Prim2SF x)).
  destruct (SFcompare (Prim2SF x) (Prim2SF y)) as [[]|]; reflexivity.
Qed.

(** The floats equal to zero are the two zeros. *)
Lemma eqb_zero_inv (x : float) : (x =? 0) = true -> x = 0 \/ x = -0.
Proof.
  rewrite eqb_spec. intros H.
  rewrite <- (SF2Prim_Prim2SF x).
  change (Prim2SF 0) with (S754_zero false) in H.
  destruct (Prim2SF x) as [[]|[]| |[] m e]; try discriminate H.
  - right. reflexivity.
  - left. reflexivity.
Qed.

Lemma leb_one_not_leb_zero (x : float) : (1 <=? x) = true -> (x <=? 0) = false.
Proof.
  rewrite !leb_spec.
  change (Prim2SF 0) with (S754_zero false).
  change (Prim2SF 1) with (S754_finite false 4503599627370496 (-52)).
  destruct (Prim2SF x) as [[]|[]| |[] m e]; unfold SFleb; cbn;
    intros H; try reflexivity; discriminate H.
Qed.

End FloatOrder.

(** ** The ordering of prices *)

Section Ordering.

Import SurrealNumber.
Local Open Scope float_scope.

(** [__lt__] is decided by the infinite axis whenever that axis is
    strictly ordered, whatever the other two hold. *)
Lemma lt_by_omega (x y : Surreal) :
  (c x <? c y) = true ->
  __lt__ x y = true /\ __lt__ y x = false /\ __ge__ y x = true.
Proof.
  intros H. unfold __ge__, __lt__.
  rewrite (eqb_sym (c y) (c x)), (ltb_neq _ _ H), H, (ltb_asym _ _ H).
  repeat split; reflexivity.
Qed.

(** [__gt__] agrees with it on values that [__eq__] tells apart. *)
Lemma gt_by_omega (x y : Surreal) :
  (c x <? c y) = true -> __eq__ y x = false -> __gt__ y x = true.
Proof.
  intros H E. unfold __gt__, __le__.
  destruct (lt_by_omega x y H) as (_ & L & _). rewrite L, E. reflexivity.
Qed.

(** C9.  Of two prices whose infinite components differ, the one with
    the larger infinite component should compare strictly greater,
    whatever the real and infinitesimal components.  [free] and
    [barely_restricted] differ on the infinite axis only, by 1e-11:
    [free < barely_restricted] holds, yet
    [barely_restricted > free] is false, because [__gt__] goes through
    [__le__] and the tolerance of [__eq__]. *)
Theorem gt_ignores_small_omega_difference :
  (c Examples.free <? c Examples.barely_restricted) = true
  /\ __lt__ Examples.free Examples.barely_restricted = true
  /\ __gt__ Examples.barely_restricted Examples.free = false.
Proof. repeat split; reflexivity. Qed.

End Ordering.

(** ** Binary64 addition of integers is exact below 2^53 *)

Section ExactAddition.

Lemma shl_add p n m : shl (shl p n) m = shl p (n + m).
Proof. unfold shl. rewrite Nat.add_comm. symmetry. apply Nat.iter_add. Qed.

Lemma Zpos_shl p n : Zpos (shl p n) = Zpos p * 2 ^ Z.of_nat n.
Proof.
  induction n as [|n IH].
  - simpl. lia.
  - change (shl p (S n)) with (xO (shl p n)).
    rewrite Pos2Z.inj_xO, IH, Nat2Z.inj_succ, Z.pow_succ_r by lia. lia.
Qed.

Lemma digits_shl p n :
  Zpos (digits2_pos (shl p n)) = Zpos (digits2_pos p) + Z.of_nat n.
Proof.
  induction n as [|n IH].
  - simpl. lia.
  - change (shl p (S n)) with (xO (shl p n)). simpl digits2_pos.
    rewrite Pos2Z.inj_succ, IH. lia.
Qed.

Lemma iter_xO p k : Pos.iter xO p k = shl p (Pos.to_nat k).
Proof. unfold shl. rewrite Pos2Nat.inj_iter. reflexivity. Qed.

Lemma iter_pos_nat {A} (f : A -> A) (n : positive) (x : A) :
  iter_pos f n x = Nat.iter (Pos.to_nat n) f x.
Proof.
  revert x. induction n as [n IH|n IH|]; intros x; cbn [iter_pos].
  - rewrite !IH, Pos2Nat.inj_xI.
    replace (S (2 * Pos.to_nat n))%nat with (Pos.to_nat n + S (Pos.to_nat n))%nat by lia.
    rewrite Nat.iter_add, Nat.iter_succ_r. reflexivity.
  - rewrite !IH, Pos2Nat.inj_xO.
    replace (2 * Pos.to_nat n)%nat with (Pos.to_nat n + Pos.to_nat n)%nat by lia.
    rewrite Nat.iter_add. reflexivity.
  - reflexivity.
Qed.

Lemma shr_exact (m : positive) (n : nat) :
  Nat.iter n shr_1 (exact (shl m n)) = exact m.
Proof.
  induction n as [|n IH].
  - reflexivity.
  - rewrite Nat.iter_succ_r. change (shl m (S n)) with (xO (shl m n)).
    exact IH.
Qed.

Lemma digits_size p : digits2_pos p = Pos.size p.
Proof. induction p; simpl; congruence. Qed.

Lemma digits_le p k : Zpos p < 2 ^ k -> 0 <= k -> Zpos (digits2_pos p) <= k.
Proof.
  intros H K. rewrite digits_size.
  destruct (Z.le_gt_cases (Zpos (Pos.size p)) k) as [L|L]; [exact L|].
  exfalso.
  pose proof (Pos.size_le p) as S.
  assert (2 ^ (k + 1) <= 2 ^ Zpos (Pos.size p)) by (apply Z.pow_le_mono_r; lia).
  rewrite Z.pow_add_r in H0 by lia.
  assert (Zpos (2 ^ Pos.size p) <= Zpos p~0) by exact S.
  rewrite Pos2Z.inj_pow in H1. lia.
Qed.

Lemma fexp_normal (x : Z) : -1021 <= x -> fexp prec emax x = x - 53.
Proof. unfold fexp, SpecFloat.emin, prec, emax. lia. Qed.

Lemma shr_fexp_exact (M : positive) (E : Z) (t : nat) :
  Zpos (digits2_pos M) = 53 -> -1074 <= E ->
  shr_fexp prec emax (Zpos (shl M t)) (E - Z.of_nat t) loc_Exact = (exact M, E).
Proof.
  intros D R. unfold shr_fexp. cbn [Zdigits2 shr_record_of_loc].
  rewrite digits_shl, D.
  replace (53 + Z.of_nat t + (E - Z.of_nat t)) with (53 + E) by lia.
  rewrite fexp_normal by lia.
  replace (53 + E - 53 - (E - Z.of_nat t)) with (Z.of_nat t) by lia.
  unfold shr. destruct t as [|t].
  - simpl Z.of_nat. cbn iota. f_equal. lia.
  - assert (Z : Z.of_nat (S t) = Zpos (Pos.of_succ_nat t)) by (simpl; reflexivity).
    rewrite Z. cbn iota.
    rewrite iter_pos_nat, SuccNat2Pos.id_succ.
    fold (exact (shl M (S t))). rewrite shr_exact. f_equal. lia.
Qed.

Lemma binary_round_aux_exact (s : bool) (M : positive) (E : Z) (t : nat) :
  Zpos (digits2_pos M) = 53 -> -1074 <= E <= 971 ->
  binary_round_aux prec emax s (Zpos (shl M t)) (E - Z.of_nat t) loc_Exact
  = S754_finite s M E.
Proof.
  intros D R. unfold binary_round_aux.
  rewrite (shr_fexp_exact M E t D) by lia.
  cbn [exact shr_m loc_of_shr_record round_nearest_even].
  pose proof (shr_fexp_exact M E 0 D ltac:(lia)) as H0.
  change (shl M 0) with M in H0. change (Z.of_nat 0) with 0 in H0.
  rewrite Z.sub_0_r in H0. rewrite H0.
  cbn [exact shr_m].
  replace (E <=? emax - prec) with true; [reflexivity|].
  symmetry. apply Z.leb_le. unfold emax, prec. lia.
Qed.

Lemma binary_round_shift (s : bool) (p : positive) (j : nat) :
  Zpos (digits2_pos p) <= 53 ->
  binary_round prec emax s (shl p j) (- Z.of_nat j)
  = S754_finite s (shl p (fill p)) (- Z.of_nat (fill p)).
Proof.
  intros D. unfold binary_round, fill.
  set (d := Zpos (digits2_pos p)) in *.
  assert (Dpos : 1 <= d) by (unfold d; lia).
  rewrite digits_shl. fold d.
  replace (d + Z.of_nat j + - Z.of_nat j) with d by lia.
  rewrite fexp_normal by lia.
  assert (DM : Zpos (digits2_pos (shl p (Z.to_nat (53 - d)))) = 53)
    by (rewrite digits_shl; fold d; lia).
  unfold shl_align.
  destruct (d - 53 - - Z.of_nat j) as [|t|t] eqn:T.
  - replace (- Z.of_nat j) with (- Z.of_nat (Z.to_nat (53 - d)) - Z.of_nat 0) by lia.
    replace j with (Z.to_nat (53 - d) + 0)%nat at 1 by lia.
    rewrite <- shl_add.
    apply binary_round_aux_exact; [exact DM|lia].
  - replace (- Z.of_nat j)
      with (- Z.of_nat (Z.to_nat (53 - d)) - Z.of_nat (Pos.to_nat t)) by lia.
    replace j with (Z.to_nat (53 - d) + Pos.to_nat t)%nat at 1 by lia.
    rewrite <- shl_add.
    apply binary_round_aux_exact; [exact DM|lia].
  - rewrite iter_xO, shl_add.
    replace (j + Pos.to_nat t)%nat with (Z.to_nat (53 - d)) by lia.
    replace (d - 53) with (- Z.of_nat (Z.to_nat (53 - d)) - Z.of_nat 0) by lia.
    change (shl p (Z.to_nat (53 - d))) with (shl (shl p (Z.to_nat (53 - d))) 0) at 1.
    apply binary_round_aux_exact; [exact DM|lia].
Qed.

Lemma Z_signed (n : Z) :
  n = 0 \/ exists s p, n = cond_Zopp s (Zpos p).
Proof.
  destruct n as [|p|p]; [left; reflexivity| |].
  - right. exists false, p. reflexivity.
  - right. exists true, p. reflexivity.
Qed.

Lemma BN_finite (s : bool) (p : positive) :
  Zpos p < 2 ^ 53 ->
  BN (cond_Zopp s (Zpos p)) = S754_finite s (shl p (fill p)) (- Z.of_nat (fill p)).
Proof.
  intros B.
  assert (D : Zpos (digits2_pos p) <= 53) by (apply digits_le; lia).
  pose proof (binary_round_shift s p 0 D) as H.
  destruct s; exact H.
Qed.

Lemma normalize_shift (k : Z) (j : nat) :
  Z.abs k < 2 ^ 53 ->
  binary_normalize prec emax (k * 2 ^ Z.of_nat j) (- Z.of_nat j) false = BN k.
Proof.
  intros B. destruct (Z_signed k) as [->|(s & p & ->)]; [reflexivity|].
  assert (Bp : Zpos p < 2 ^ 53) by (destruct s; cbn [cond_Zopp] in B; lia).
  rewrite (BN_finite s p Bp).
  assert (D : Zpos (digits2_pos p) <= 53) by (apply digits_le; lia).
  rewrite <- (binary_round_shift s p j D).
  destruct s; cbn [cond_Zopp].
  - rewrite Z.mul_opp_l, <- Zpos_shl. reflexivity.
  - rewrite <- Zpos_shl. reflexivity.
Qed.

Lemma shl_align_fst (m : positive) (e e' : Z) :
  e' <= e -> fst (shl_align m e e') = shl m (Z.to_nat (e - e')).
Proof.
  intros L. unfold shl_align.
  destruct (e' - e) as [|t|t] eqn:T; cbn [fst].
  - replace (e - e') with 0 by lia. reflexivity.
  - lia.
  - rewrite iter_xO. f_equal. lia.
Qed.

Lemma aligned_value (s : bool) (p : positive) (J : nat) :
  (fill p <= J)%nat ->
  cond_Zopp s
    (Zpos (fst (shl_align (shl p (fill p)) (- Z.of_nat (fill p)) (- Z.of_nat J))))
  = cond_Zopp s (Zpos p) * 2 ^ Z.of_nat J.
Proof.
  intros L. rewrite shl_align_fst by lia. rewrite shl_add.
  replace (fill p + Z.to_nat (- Z.of_nat (fill p) - - Z.of_nat J))%nat with J by lia.
  rewrite Zpos_shl. destruct s; cbn [cond_Zopp]; lia.
Qed.

(** Adding the floats of two integers is exact while the integers and
    their sum stay below 2^53. *)
Lemma SFadd_BN (n m : Z) :
  Z.abs n < 2 ^ 53 -> Z.abs m < 2 ^ 53 -> Z.abs (n + m) < 2 ^ 53 ->
  SFadd prec emax (BN n) (BN m) = BN (n + m).
Proof.
  intros Bn Bm Bs.
  destruct (Z_signed n) as [->|(sn & pn & ->)];
    destruct (Z_signed m) as [->|(sm & pm & ->)].
  - reflexivity.
  - rewrite Z.add_0_l, BN_finite by (destruct sm; cbn [cond_Zopp] in Bm; lia).
    reflexivity.
  - rewrite Z.add_0_r, BN_finite by (destruct sn; cbn [cond_Zopp] in Bn; lia).
    reflexivity.
  - rewrite (BN_finite sn pn) by (destruct sn; cbn [cond_Zopp] in Bn; lia).
    rewrite (BN_finite sm pm) by (destruct sm; cbn [cond_Zopp] in Bm; lia).
    cbn [SFadd].
    set (J := Nat.max (fill pn) (fill pm)).
    replace (Z.min (- Z.of_nat (fill pn)) (- Z.of_nat (fill pm)))
      with (- Z.of_nat J) by (unfold J; lia).
    rewrite !aligned_value by (unfold J; lia).
    rewrite <- Z.mul_add_distr_r.
    apply normalize_shift. exact Bs.
Qed.

Lemma BN_valid (n : Z) : Z.abs n < 2 ^ 53 -> valid_binary (BN n) = true.
Proof.
  intros B. destruct (Z_signed n) as [->|(s & p & ->)]; [reflexivity|].
  assert (Bp : Zpos p < 2 ^ 53) by (destruct s; cbn [cond_Zopp] in B; lia).
  rewrite (BN_finite s p Bp).
  assert (D : Zpos (digits2_pos p) <= 53) by (apply digits_le; lia).
  cbn [SpecFloat.valid_binary]. unfold bounded, canonical_mantissa.
  rewrite digits_shl, fexp_normal by (unfold fill; lia).
  apply andb_true_iff. split.
  - apply Z.eqb_eq. unfold fill. lia.
  - apply Z.leb_le. unfold emax, prec, fill. lia.
Qed.

Lemma Prim2SF_BN (n : Z) :
  Z.abs n < 2 ^ 53 -> Prim2SF (SF2Prim (BN n)) = BN n.
Proof. intros B. apply Prim2SF_SF2Prim, BN_valid, B. Qed.

Lemma BN_zero_or_finite (n : Z) :
  Z.abs n < 2 ^ 53 ->
  BN n = S754_zero false \/ exists s m e, BN n = S754_finite s m e.
Proof.
  intros B. destruct (Z_signed n) as [->|(s & p & ->)]; [left; reflexivity|].
  right. rewrite BN_finite by (destruct s; cbn [cond_Zopp] in B; lia). eauto.
Qed.

(** [float(n)] succeeds below 2^53, with the exact value. *)
Lemma float_of_int_exact (n : Z) :
  Z.abs n < 2 ^ 53 -> Py.float_of_int n = Ok (SF2Prim (BN n)).
Proof.
  intros B. unfold Py.float_of_int, Py.finite_or_overflow. fold (BN n).
  replace (is_infinity (SF2Prim (BN n))) with false; [reflexivity|].
  symmetry. unfold is_infinity.
  rewrite eqb_spec, abs_spec, (Prim2SF_BN n B).
  change (Prim2SF infinity) with (S754_infinity false).
  destruct (BN_zero_or_finite n B) as [->|(s & m & e & ->)]; reflexivity.
Qed.

(** Float addition of two integers is the float of their sum. *)
Lemma add_integers (n m : Z) :
  Z.abs n < 2 ^ 53 -> Z.abs m < 2 ^ 53 -> Z.abs (n + m) < 2 ^ 53 ->
  (SF2Prim (BN n) + SF2Prim (BN m))%float = SF2Prim (BN (n + m)).
Proof.
  intros Bn Bm Bs. apply Prim2SF_inj.
  rewrite add_spec, !Prim2SF_BN by assumption.
  apply SFadd_BN; assumption.
Qed.

(** An integer-valued float minus itself is +0. *)
Lemma sub_integer_self (n : Z) :
  Z.abs n < 2 ^ 53 -> (SF2Prim (BN n) - SF2Prim (BN n))%float = 0%float.
Proof.
  intros B. apply Prim2SF_inj.
  rewrite sub_spec, (Prim2SF_BN n B).
  change (Prim2SF 0) with (S754_zero false).
  destruct (BN_zero_or_finite n B) as [->|(s & m & e & ->)]; [reflexivity|].
  unfold SF64sub. cbn [SFsub]. rewrite Z.sub_diag. reflexivity.
Qed.

End ExactAddition.

(** ** Binary64 products: rounding keeps the opening offers ordered *)

Section ProductOrder.

Lemma shr_1_nonneg (q : Z) (r s : bool) :
  0 <= q ->
  shr_1 (Build_shr_record q r s) = Build_shr_record (Z.div2 q) (Z.odd q) (r || s).
Proof.
  intros H. destruct q as [|[p|p|]|p]; try reflexivity. lia.
Qed.

(** What [k + 1] steps of the shifter leave of [P]: the quotient by
    2^(k+1), the next bit, and whether anything lies below it. *)
Lemma shr_iter_spec (P : Z) (k : nat) :
  0 <= P ->
  exists q r s t,
    Nat.iter (S k) shr_1 (Build_shr_record P false false) = Build_shr_record q r s
    /\ 0 <= q
    /\ P = q * 2 ^ (Z.of_nat k + 1) + Z.b2z r * 2 ^ Z.of_nat k + t
    /\ 0 <= t < 2 ^ Z.of_nat k
    /\ (s = true <-> 0 < t).
Proof.
  intros HP. induction k as [|k IH].
  - exists (Z.div2 P), (Z.odd P), false, 0.
    split; [cbn [Nat.iter nat_rect]; now rewrite shr_1_nonneg|].
    pose proof (Z.div2_odd P). pose proof (Z.div2_nonneg P).
    change (2 ^ (Z.of_nat 0 + 1)) with 2. change (2 ^ Z.of_nat 0) with 1.
    repeat split; try lia; discriminate.
  - destruct IH as (q & r & s & t & It & Hq & HPq & Ht & Hs).
    exists (Z.div2 q), (Z.odd q), (r || s), (Z.b2z r * 2 ^ Z.of_nat k + t).
    split.
    { change (Nat.iter (S (S k)) shr_1 ?x) with (shr_1 (Nat.iter (S k) shr_1 x)).
      rewrite It. now apply shr_1_nonneg. }
    pose proof (Z.div2_odd q) as Dq. pose proof (Z.div2_nonneg q) as Nq.
    assert (Pk : 0 < 2 ^ Z.of_nat k) by (apply Z.pow_pos_nonneg; lia).
    rewrite !Nat2Z.inj_succ.
    replace (Z.succ (Z.of_nat k) + 1) with (Z.succ (Z.succ (Z.of_nat k))) by lia.
    rewrite !Z.pow_succ_r by lia.
    replace (Z.of_nat k + 1) with (Z.succ (Z.of_nat k)) in HPq by lia.
    rewrite Z.pow_succ_r in HPq by lia.
    split; [lia|]. split; [|split].
    + rewrite HPq. rewrite Dq at 1. ring.
    + destruct r; cbn [Z.b2z]; lia.
    + rewrite orb_true_iff, Hs.
      destruct r; cbn [Z.b2z]; split; intros; try lia; intuition (discriminate || lia).
Qed.

(** Rounding to nearest even after the shift is within half a unit. *)
Lemma round_nearest_even_bound (P q t : Z) (r s : bool) (k : nat) :
  P = q * 2 ^ (Z.of_nat k + 1) + Z.b2z r * 2 ^ Z.of_nat k + t ->
  0 <= t < 2 ^ Z.of_nat k ->
  (s = true <-> 0 < t) ->
  let M := round_nearest_even q (loc_of_shr_record (Build_shr_record q r s)) in
  (M = q \/ M = q + 1)
  /\ Z.abs (M * 2 ^ (Z.of_nat k + 1) - P) <= 2 ^ Z.of_nat k.
Proof.
  intros HP Ht Hs M. subst M.
  replace (Z.of_nat k + 1) with (Z.succ (Z.of_nat k)) in * by lia.
  rewrite Z.pow_succ_r in * by lia.
  destruct r, s; cbn [loc_of_shr_record round_nearest_even Z.b2z] in *.
  - assert (0 < t) by (apply Hs; reflexivity). split; [right; reflexivity|lia].
  - assert (~ 0 < t) by (intros X; apply Hs in X; discriminate).
    destruct (Z.even q); split; auto; lia.
  - assert (0 < t) by (apply Hs; reflexivity). split; [left; reflexivity|lia].
  - assert (~ 0 < t) by (intros X; apply Hs in X; discriminate).
    split; [left; reflexivity|lia].
Qed.

Lemma digits_bounds (p : positive) :
  2 ^ (Zpos (digits2_pos p) - 1) <= Zpos p < 2 ^ Zpos (digits2_pos p).
Proof.
  rewrite digits_size.
  pose proof (Pos.size_gt p) as G. pose proof (Pos.size_le p) as L.
  assert (G' : Zpos p < Zpos (2 ^ Pos.size p)) by exact G.
  assert (L' : Zpos (2 ^ Pos.size p) <= Zpos p~0) by exact L.
  rewrite Pos2Z.inj_pow in G', L'.
  replace (Zpos (Pos.size p)) with (Z.succ (Zpos (Pos.size p) - 1)) in L' by lia.
  rewrite Z.pow_succ_r in L' by lia. lia.
Qed.

Lemma digits_exact (p : positive) (d : Z) :
  2 ^ (d - 1) <= Zpos p < 2 ^ d -> 1 <= d -> Zpos (digits2_pos p) = d.
Proof.
  intros [L U] D. pose proof (digits_bounds p) as [L' U'].
  assert (Zpos (digits2_pos p) <= d) by (apply digits_le; lia).
  destruct (Z.eq_dec (Zpos (digits2_pos p)) d) as [|N]; [assumption|].
  exfalso.
  assert (2 ^ Zpos (digits2_pos p) <= 2 ^ (d - 1)) by (apply Z.pow_le_mono_r; lia).
  lia.
Qed.

(** Rounding a long mantissa to 53 bits, away from the ends of the
    exponent range: the result is a normal float within half a unit in
    the last place, hence within 2^-53 relative, of the exact value. *)
Lemma binary_round_aux_normal (s : bool) (P : positive) (E : Z) (k : nat) :
  Zpos (digits2_pos P) = 53 + Z.of_nat k + 1 ->
  -1074 <= E + Z.of_nat k + 1 -> E + Z.of_nat k + 2 <= 971 ->
  exists M g,
    binary_round_aux prec emax s (Zpos P) E loc_Exact = S754_finite s M (E + g)
    /\ 2 ^ 52 <= Zpos M < 2 ^ 53
    /\ 0 <= g
    /\ Z.abs (Zpos M * 2 ^ g - Zpos P) * 2 ^ 53 <= Zpos P.
Proof.
  intros D Lo Hi.
  pose proof (digits_bounds P) as [PL PU]. rewrite D in PL, PU.
  replace (53 + Z.of_nat k + 1 - 1) with (53 + Z.of_nat k) in PL by lia.
  replace (53 + Z.of_nat k + 1) with (Z.succ (53 + Z.of_nat k)) in PU by lia.
  rewrite Z.pow_succ_r in PU by lia.
  rewrite Z.pow_add_r in PL, PU by lia.
  assert (Pk : 0 < 2 ^ Z.of_nat k) by (apply Z.pow_pos_nonneg; lia).
  unfold binary_round_aux, shr_fexp at 1. cbn [Zdigits2 shr_record_of_loc].
  rewrite D, fexp_normal by lia.
  replace (53 + Z.of_nat k + 1 + E - 53 - E) with (Zpos (Pos.of_succ_nat k)) by lia.
  cbn [shr]. rewrite iter_pos_nat, SuccNat2Pos.id_succ.
  destruct (shr_iter_spec (Zpos P) k ltac:(lia)) as (q & r & s' & t & It & Hq & HP & Ht & Hs).
  rewrite It. cbn [shr_m].
  destruct (round_nearest_even_bound _ _ _ _ _ _ HP Ht Hs) as [HM HB].
  set (M' := round_nearest_even q (loc_of_shr_record (Build_shr_record q r s'))) in *.
  replace (Z.of_nat k + 1) with (Z.succ (Z.of_nat k)) in HP, HB by lia.
  rewrite Z.pow_succ_r in HP, HB by lia.
  assert (Rq : 2 ^ 52 <= q < 2 ^ 53).
  { assert (0 <= Z.b2z r <= 1) by (destruct r; cbn; lia). split; nia. }
  assert (RM : 2 ^ 52 <= M' <= 2 ^ 53) by lia.
  destruct M' as [|m|m] eqn:EM; try lia.
  replace (E + Zpos (Pos.of_succ_nat k)) with (E + Z.of_nat k + 1) by lia.
  destruct (Z.eq_dec (Zpos m) (2 ^ 53)) as [Top|NTop].
  - injection Top as ->.
    unfold shr_fexp. cbn [Zdigits2 shr_record_of_loc].
    change (Zpos (digits2_pos 9007199254740992)) with 54.
    rewrite fexp_normal by lia.
    replace (54 + (E + Z.of_nat k + 1) - 53 - (E + Z.of_nat k + 1)) with 1 by lia.
    cbn [shr iter_pos shr_1 orb shr_m].
    replace (E + Z.of_nat k + 1 + 1 <=? emax - prec) with true
      by (symmetry; apply Z.leb_le; unfold emax, prec; lia).
    exists 4503599627370496%positive, (Z.of_nat k + 2).
    split; [f_equal; lia|]. split; [lia|]. split; [lia|].
    replace (Z.of_nat k + 2) with (Z.succ (Z.succ (Z.of_nat k))) by lia.
    rewrite !Z.pow_succ_r by lia.
    change (2 ^ 53) with 9007199254740992 in *. lia.
  - assert (Dm : Zpos (digits2_pos m) = 53) by (apply digits_exact; lia).
    pose proof (shr_fexp_exact m (E + Z.of_nat k + 1) 0 Dm ltac:(lia)) as H0.
    change (shl m 0) with m in H0. change (Z.of_nat 0) with 0 in H0.
    rewrite Z.sub_0_r in H0. rewrite H0. cbn [exact shr_m].
    replace (E + Z.of_nat k + 1 <=? emax - prec) with true
      by (symmetry; apply Z.leb_le; unfold emax, prec; lia).
    exists m, (Z.of_nat k + 1).
    split; [f_equal; lia|]. split; [lia|]. split; [lia|].
    replace (Z.of_nat k + 1) with (Z.succ (Z.of_nat k)) by lia.
    rewrite Z.pow_succ_r by lia.
    change (2 ^ 53) with 9007199254740992 in *. lia.
Qed.

(** Positive normal floats compare as their values do. *)
Lemma compare_by_value (M1 M2 : positive) (c u v : Z) :
  2 ^ 52 <= Zpos M1 < 2 ^ 53 -> 2 ^ 52 <= Zpos M2 < 2 ^ 53 ->
  0 <= u -> 0 <= v ->
  Zpos M1 * 2 ^ u < Zpos M2 * 2 ^ v ->
  SFcompare (S754_finite false M1 (c + u)) (S754_finite false M2 (c + v)) = Some Lt.
Proof.
  intros R1 R2 U V H. cbn [SFcompare].
  destruct (Z.compare_spec (c + u) (c + v)) as [E|L|G].
  - assert (u = v) by lia. subst v.
    assert (0 < 2 ^ u) by (apply Z.pow_pos_nonneg; lia).
    assert (Zpos M1 < Zpos M2) by nia.
    f_equal. change (PosDef.Pos.compare_cont Eq M1 M2) with (Pos.compare M1 M2).
    apply Pos.compare_lt_iff. lia.
  - reflexivity.
  - exfalso.
    assert (0 < 2 ^ v) by (apply Z.pow_pos_nonneg; lia).
    replace u with (Z.succ (u - v - 1) + v) in H by lia.
    rewrite Z.pow_add_r, Z.pow_succ_r in H by lia.
    assert (0 < 2 ^ (u - v - 1)) by (apply Z.pow_pos_nonneg; lia).
    set (A := 2 ^ v) in *. set (B := 2 ^ (u - v - 1)) in *.
    change (2 ^ 52) with 4503599627370496 in *.
    change (2 ^ 53) with 9007199254740992 in *.
    assert (Zpos M2 * A < 9007199254740992 * A)
      by (apply Z.mul_lt_mono_pos_r; lia).
    assert (9007199254740992 * 1 <= Zpos M1 * 2 * B)
      by (apply Z.mul_le_mono_nonneg; lia).
    assert (9007199254740992 * 1 * A <= Zpos M1 * 2 * B * A)
      by (apply Z.mul_le_mono_nonneg_r; lia).
    lia.
Qed.

Lemma product_digits (m m' : positive) :
  Zpos (digits2_pos m) = 53 -> Zpos (digits2_pos m') = 53 ->
  exists k : nat,
    Zpos (digits2_pos (m * m')) = 53 + Z.of_nat k + 1 /\ (51 <= k <= 52)%nat.
Proof.
  intros D D'.
  pose proof (digits_bounds m) as [L U]. rewrite D in L, U.
  pose proof (digits_bounds m') as [L' U']. rewrite D' in L', U'.
  pose proof (digits_bounds (m * m')) as [LP UP].
  rewrite Pos2Z.inj_mul in LP, UP.
  change (2 ^ (53 - 1)) with (2 ^ 52) in *.
  set (d := Zpos (digits2_pos (m * m'))) in *.
  assert (104 < d).
  { destruct (Z.lt_ge_cases 104 d) as [|G]; [assumption|exfalso].
    assert (2 ^ d <= 2 ^ 104) by (apply Z.pow_le_mono_r; lia).
    change (2 ^ 104) with (2 ^ 52 * 2 ^ 52) in *. nia. }
  assert (d <= 106).
  { destruct (Z.le_gt_cases d 106) as [|G]; [assumption|exfalso].
    assert (2 ^ 106 <= 2 ^ (d - 1)) by (apply Z.pow_le_mono_r; lia).
    change (2 ^ 106) with (2 ^ 53 * 2 ^ 53) in *. nia. }
  exists (Z.to_nat (d - 54)). lia.
Qed.

(** For a normal [x] away from the ends of the exponent range and two
    constants [lo = m1 * 2^-53] and [hi = m2 * 2^-52] that are more than
    two roundings apart, [x * lo < x * hi] still holds after rounding. *)
Lemma SFmul_order (m : positive) (e : Z) (m1 m2 : positive) :
  Zpos (digits2_pos m) = 53 -> -1073 <= e <= 969 ->
  Zpos (digits2_pos m1) = 53 -> Zpos (digits2_pos m2) = 53 ->
  Zpos m1 * (2 ^ 53 + 1) < 2 * Zpos m2 * (2 ^ 53 - 1) ->
  SFltb (SFmul prec emax (S754_finite false m e) (S754_finite false m1 (-53)))
        (SFmul prec emax (S754_finite false m e) (S754_finite false m2 (-52)))
  = true.
Proof.
  intros D R D1 D2 K. cbn [SFmul xorb].
  destruct (product_digits m m1 D D1) as (k1 & DP1 & Rk1).
  destruct (product_digits m m2 D D2) as (k2 & DP2 & Rk2).
  destruct (binary_round_aux_normal false (m * m1) (e + -53) k1 DP1)
    as (M1 & g1 & -> & RM1 & G1 & B1); [lia|lia|].
  destruct (binary_round_aux_normal false (m * m2) (e + -52) k2 DP2)
    as (M2 & g2 & -> & RM2 & G2 & B2); [lia|lia|].
  unfold SFltb.
  replace (e + -53 + g1) with (e - 53 + g1) by lia.
  replace (e + -52 + g2) with (e - 53 + (g2 + 1)) by lia.
  rewrite (compare_by_value M1 M2 (e - 53) g1 (g2 + 1)); try assumption; try lia.
  replace (g2 + 1) with (Z.succ g2) by lia. rewrite Z.pow_succ_r by lia.
  rewrite Pos2Z.inj_mul in B1, B2.
  assert (0 < 2 ^ g1) by (apply Z.pow_pos_nonneg; lia).
  assert (0 < 2 ^ g2) by (apply Z.pow_pos_nonneg; lia).
  set (X := Zpos M1 * 2 ^ g1) in *. set (Y := Zpos M2 * 2 ^ g2) in *.
  change (2 ^ 53) with 9007199254740992 in *.
  assert (X * 9007199254740992 <= Zpos m * Zpos m1 * (9007199254740992 + 1)) by lia.
  assert (Zpos m * Zpos m2 * (9007199254740992 - 1) <= Y * 9007199254740992) by lia.
  assert (Zpos m * (Zpos m1 * (9007199254740992 + 1))
          < Zpos m * (2 * Zpos m2 * (9007199254740992 - 1)))
    by (apply Z.mul_lt_mono_pos_l; lia).
  lia.
Qed.

Local Open Scope float_scope.

Lemma in_range_normal (x : float) :
  (1e-300 <=? x) = true -> (x <=? 1e300) = true ->
  exists m e,
    Prim2SF x = S754_finite false m e
    /\ Zpos (digits2_pos m) = 53%Z /\ (-1073 <= e <= 969)%Z.
Proof.
  rewrite !leb_spec. intros Lo Hi.
  pose proof (Prim2SF_valid x) as V.
  assert (Clo : Prim2SF 1e-300 = S754_finite false 6032057205060441 (-1049))
    by (vm_compute; reflexivity).
  assert (Chi : Prim2SF 1e300 = S754_finite false 6724873095247260 944)
    by (vm_compute; reflexivity).
  rewrite Clo in Lo. rewrite Chi in Hi.
  destruct (Prim2SF x) as [[]|[]| |[] m e]; try discriminate Lo; try discriminate Hi.
  exists m, e. split; [reflexivity|].
  unfold SFleb in Lo, Hi. cbn [SFcompare] in Lo, Hi.
  assert (Le : (-1049 <= e)%Z).
  { destruct (Z.compare_spec (-1049) e); try lia; discriminate Lo. }
  assert (He : (e <= 944)%Z).
  { destruct (Z.compare_spec e 944); try lia; discriminate Hi. }
  split; [|lia].
  cbn [SpecFloat.valid_binary] in V. unfold bounded, canonical_mantissa in V.
  apply andb_true_iff in V. destruct V as [V _]. apply Z.eqb_eq in V.
  unfold fexp, SpecFloat.emin, prec, emax in V. lia.
Qed.

(** The opening offers of a price between 1e-300 and 1e300 stay
    strictly ordered. *)
Lemma offers_stay_ordered (x : float) :
  (1e-300 <=? x) = true -> (x <=? 1e300) = true ->
  (x * 0.85 <? x * 1.05) = true /\ (x * 0.95 <? x * 1.15) = true.
Proof.
  intros Lo Hi.
  destruct (in_range_normal x Lo Hi) as (m & e & Ex & D & R).
  rewrite !ltb_spec, !mul_spec, Ex. unfold SF64mul.
  assert (C1 : Prim2SF 0.85 = S754_finite false 7656119366529843 (-53))
    by (vm_compute; reflexivity).
  assert (C2 : Prim2SF 1.05 = S754_finite false 4728779608739021 (-52))
    by (vm_compute; reflexivity).
  assert (C3 : Prim2SF 0.95 = S754_finite false 8556839292003942 (-53))
    by (vm_compute; reflexivity).
  assert (C4 : Prim2SF 1.15 = S754_finite false 5179139571476070 (-52))
    by (vm_compute; reflexivity).
  rewrite C1, C2, C3, C4.
  split; apply SFmul_order; try assumption; try lia; reflexivity.
Qed.

End ProductOrder.

(** ** Binary64 sums: the rounding error of an addition *)

Section SumError.

Lemma canonical_exponent (m : positive) (e : Z) :
  canonical_mantissa prec emax m e = true ->
  -1074 <= e /\ Zpos (digits2_pos m) <= 53
  /\ (-1074 < e -> Zpos (digits2_pos m) = 53).
Proof.
  unfold canonical_mantissa, fexp, SpecFloat.emin, prec, emax.
  intros H. apply Z.eqb_eq in H. lia.
Qed.

Lemma valid_finite (s : bool) (m : positive) (e : Z) :
  valid_binary (S754_finite s m e) = true ->
  canonical_mantissa prec emax m e = true /\ e <= 971.
Proof.
  cbn [SpecFloat.valid_binary]. unfold bounded. intros H.
  apply andb_true_iff in H. destruct H as [C B].
  apply Z.leb_le in B. unfold emax, prec in B. split; [exact C|lia].
Qed.

(** Rounding a mantissa that is already canonical changes nothing. *)
Lemma binary_round_aux_canonical (s : bool) (q : positive) (E : Z) :
  canonical_mantissa prec emax q E = true -> E <= 971 ->
  binary_round_aux prec emax s (Zpos q) E loc_Exact = S754_finite s q E.
Proof.
  unfold canonical_mantissa. intros C B. apply Z.eqb_eq in C.
  assert (H : shr_fexp prec emax (Zpos q) E loc_Exact = (exact q, E)).
  { unfold shr_fexp. cbn [Zdigits2 shr_record_of_loc]. rewrite C, Z.sub_diag.
    reflexivity. }
  unfold binary_round_aux. rewrite H.
  cbn [exact shr_m loc_of_shr_record round_nearest_even]. rewrite H.
  cbn [exact shr_m].
  replace (E <=? emax - prec) with true; [reflexivity|].
  symmetry. apply Z.leb_le. unfold emax, prec. lia.
Qed.

Lemma pow_split (a b : Z) : 0 <= a -> 0 <= b -> 2 ^ (a + b) = 2 ^ a * 2 ^ b.
Proof. intros. apply Z.pow_add_r; assumption. Qed.

(** [binary_round] to nearest: the result is finite and within 2^-53,
    relative, of the exact value; nothing is lost to underflow, since
    the input is a multiple of the smallest float. *)
Lemma binary_round_spec (s : bool) (q : positive) (ez : Z) :
  -1074 <= ez -> Zpos q * 2 ^ (ez + 1074) < 2 ^ 2074 ->
  exists M E,
    binary_round prec emax s q ez = S754_finite s M E
    /\ -1074 <= E
    /\ Z.abs (Zpos M * 2 ^ (E + 1074) - Zpos q * 2 ^ (ez + 1074)) * 2 ^ 53
       <= Zpos q * 2 ^ (ez + 1074).
Proof.
  intros Lo Hi.
  set (d := Zpos (digits2_pos q)).
  assert (Dpos : 1 <= d) by (unfold d; lia).
  assert (Pz : 0 < 2 ^ (ez + 1074)) by (apply Z.pow_pos_nonneg; lia).
  (* the magnitude is below 2^1000 *)
  assert (Mag : d + ez <= 1000).
  { pose proof (digits_bounds q) as [L _]. fold d in L.
    destruct (Z.le_gt_cases (d + ez) 1000) as [|G]; [assumption|exfalso].
    assert (2 ^ 2074 <= 2 ^ (d - 1 + (ez + 1074)))
      by (apply Z.pow_le_mono_r; lia).
    rewrite pow_split in H by lia.
    assert (2 ^ (d - 1) * 2 ^ (ez + 1074) <= Zpos q * 2 ^ (ez + 1074))
      by (apply Z.mul_le_mono_nonneg_r; lia).
    lia. }
  unfold binary_round. fold d.
  set (f := fexp prec emax (d + ez)).
  assert (Hf : f = Z.max (d + ez - 53) (-1074))
    by (unfold f, fexp, SpecFloat.emin, prec, emax; lia).
  unfold shl_align.
  destruct (f - ez) as [|n|n] eqn:N.
  - (* already canonical *)
    exists q, ez.
    rewrite binary_round_aux_canonical;
      [|unfold canonical_mantissa; fold d; fold f; apply Z.eqb_eq; lia|lia].
    split; [reflexivity|]. split; [lia|].
    rewrite Z.sub_diag. cbn [Z.abs]. lia.
  - (* too long: rounded *)
    assert (K : Zpos (digits2_pos q) = 53 + Z.of_nat (Z.to_nat (d - 54)) + 1)
      by (fold d; lia).
    destruct (binary_round_aux_normal s q ez _ K) as (M & g & R & RM & G & B);
      [lia|lia|].
    exists M, (ez + g). split; [exact R|]. split; [lia|].
    replace (ez + g + 1074) with (g + (ez + 1074)) by lia.
    rewrite (pow_split g (ez + 1074)) by lia.
    replace (Zpos M * (2 ^ g * 2 ^ (ez + 1074)) - Zpos q * 2 ^ (ez + 1074))
      with ((Zpos M * 2 ^ g - Zpos q) * 2 ^ (ez + 1074)) by ring.
    rewrite Z.abs_mul, (Z.abs_eq (2 ^ (ez + 1074))) by lia.
    rewrite <- Z.mul_assoc, (Z.mul_comm (2 ^ (ez + 1074))), Z.mul_assoc.
    apply Z.mul_le_mono_nonneg_r; lia.
  - (* short: shifted left, exactly *)
    rewrite iter_xO.
    exists (shl q (Pos.to_nat n)), f.
    rewrite binary_round_aux_canonical;
      [|unfold canonical_mantissa; rewrite digits_shl; fold d;
        replace (d + Z.of_nat (Pos.to_nat n) + f) with (d + ez) by lia;
        fold f; apply Z.eqb_refl|lia].
    split; [reflexivity|]. split; [lia|].
    rewrite Zpos_shl.
    replace (ez + 1074) with (Z.of_nat (Pos.to_nat n) + (f + 1074)) by lia.
    rewrite (pow_split (Z.of_nat (Pos.to_nat n)) (f + 1074)) by lia.
    replace (Zpos q * 2 ^ Z.of_nat (Pos.to_nat n) * 2 ^ (f + 1074)
             - Zpos q * (2 ^ Z.of_nat (Pos.to_nat n) * 2 ^ (f + 1074)))
      with 0 by ring.
    cbn [Z.abs].
    assert (0 < 2 ^ Z.of_nat (Pos.to_nat n)) by (apply Z.pow_pos_nonneg; lia).
    assert (0 < 2 ^ (f + 1074)) by (apply Z.pow_pos_nonneg; lia).
    nia.
Qed.

Lemma cond_Zopp_mul (s : bool) (a b : Z) : cond_Zopp s a * b = cond_Zopp s (a * b).
Proof. destruct s; cbn [cond_Zopp]; lia. Qed.

Lemma abs_cond_Zopp (s : bool) (a : Z) : Z.abs (cond_Zopp s a) = Z.abs a.
Proof. destruct s; cbn [cond_Zopp]; lia. Qed.

Lemma binary_normalize_spec (N ez : Z) :
  -1074 <= ez -> Z.abs (N * 2 ^ (ez + 1074)) < 2 ^ 2074 ->
  exists S,
    scaled (binary_normalize prec emax N ez false) = Some S
    /\ Z.abs (S - N * 2 ^ (ez + 1074)) * 2 ^ 53 <= Z.abs (N * 2 ^ (ez + 1074)).
Proof.
  intros Lo Hi.
  assert (Pz : 0 < 2 ^ (ez + 1074)) by (apply Z.pow_pos_nonneg; lia).
  destruct (Z_signed N) as [->|(s & q & ->)].
  - exists 0. split; [reflexivity|]. cbn. lia.
  - rewrite cond_Zopp_mul, abs_cond_Zopp in Hi |- *.
    rewrite Z.abs_eq in Hi |- * by lia.
    destruct (binary_round_spec s q ez Lo Hi) as (M & E & R & LE & B).
    exists (cond_Zopp s (Zpos M * 2 ^ (E + 1074))). split.
    + destruct s; cbn [cond_Zopp Z.opp binary_normalize]; rewrite R; reflexivity.
    + replace (cond_Zopp s (Zpos M * 2 ^ (E + 1074))
               - cond_Zopp s (Zpos q * 2 ^ (ez + 1074)))
        with (cond_Zopp s (Zpos M * 2 ^ (E + 1074) - Zpos q * 2 ^ (ez + 1074)))
        by (destruct s; cbn [cond_Zopp]; lia).
      rewrite abs_cond_Zopp. exact B.
Qed.

Lemma aligned_scaled (s : bool) (m : positive) (e ez : Z) :
  -1074 <= ez <= e ->
  cond_Zopp s (Zpos (fst (shl_align m e ez))) * 2 ^ (ez + 1074)
  = cond_Zopp s (Zpos m * 2 ^ (e + 1074)).
Proof.
  intros R. rewrite shl_align_fst, Zpos_shl, cond_Zopp_mul by lia. f_equal.
  rewrite Z2Nat.id by lia.
  replace (e + 1074) with (e - ez + (ez + 1074)) by lia.
  rewrite (pow_split (e - ez) (ez + 1074)) by lia. ring.
Qed.

Lemma scaled_finite (s : bool) (m : positive) (e X : Z) :
  scaled (S754_finite s m e) = Some X -> X = cond_Zopp s (Zpos m * 2 ^ (e + 1074)).
Proof. intros [= <-]. reflexivity. Qed.

Lemma scaled_zero (s : bool) (X : Z) : scaled (S754_zero s) = Some X -> X = 0.
Proof. intros [= <-]. reflexivity. Qed.

(** Float addition, on finite operands whose sum stays far below the
    overflow threshold, is within 2^-53, relative, of the exact sum. *)
Lemma SFadd_spec (x y : spec_float) (X Y : Z) :
  valid_binary x = true -> valid_binary y = true ->
  scaled x = Some X -> scaled y = Some Y ->
  Z.abs (X + Y) < 2 ^ 2074 ->
  exists S,
    scaled (SFadd prec emax x y) = Some S
    /\ Z.abs (S - (X + Y)) * 2 ^ 53 <= Z.abs (X + Y).
Proof.
  intros Vx Vy Sx Sy B.
  destruct x as [sx|sx| |sx mx ex]; try discriminate Sx;
    destruct y as [sy|sy| |sy my ey]; try discriminate Sy;
    try apply scaled_zero in Sx; try apply scaled_zero in Sy;
    try apply scaled_finite in Sx; try apply scaled_finite in Sy; subst X Y.
  - exists 0. split; [destruct sx, sy; reflexivity|cbn; lia].
  - eexists. split; [reflexivity|]. rewrite Z.add_0_l, Z.sub_diag. cbn [Z.abs]. lia.
  - eexists. split; [reflexivity|]. rewrite Z.add_0_r, Z.sub_diag. cbn [Z.abs]. lia.
  - apply valid_finite in Vx, Vy. destruct Vx as [Cx _], Vy as [Cy _].
    apply canonical_exponent in Cx, Cy.
    cbn [SFadd]. set (ez := Z.min ex ey).
    assert (Sum : cond_Zopp sx (Zpos mx * 2 ^ (ex + 1074))
                  + cond_Zopp sy (Zpos my * 2 ^ (ey + 1074))
                  = (cond_Zopp sx (Zpos (fst (shl_align mx ex ez)))
                     + cond_Zopp sy (Zpos (fst (shl_align my ey ez))))
                    * 2 ^ (ez + 1074)).
    { rewrite Z.mul_add_distr_r, !aligned_scaled by (unfold ez; lia).
      reflexivity. }
    rewrite Sum in B.
    destruct (binary_normalize_spec _ ez ltac:(unfold ez; lia) B) as (S & HS & HB).
    exists S. split; [exact HS|]. rewrite Sum. exact HB.
Qed.

Lemma SFsub_add_opp (x y : spec_float) :
  SFsub prec emax x y = SFadd prec emax x (SFopp y).
Proof.
  destruct x as [[]|[]| |sx mx ex], y as [[]|[]| |sy my ey]; try reflexivity.
  cbn [SFsub SFadd SFopp]. f_equal.
  destruct sy; cbn [cond_Zopp negb]; lia.
Qed.

Lemma scaled_opp (y : spec_float) (Y : Z) :
  scaled y = Some Y -> scaled (SFopp y) = Some (- Y).
Proof.
  destruct y as [s|s| |s m e]; try discriminate; intros H.
  - apply scaled_zero in H. subst Y. reflexivity.
  - apply scaled_finite in H. subst Y.
    change (scaled (SFopp (S754_finite s m e)))
      with (Some (cond_Zopp (negb s) (Zpos m * 2 ^ (e + 1074)))).
    f_equal. destruct s; cbn [cond_Zopp negb]; lia.
Qed.

Lemma valid_opp (y : spec_float) : valid_binary (SFopp y) = valid_binary y.
Proof. destruct y; reflexivity. Qed.

Lemma SFsub_spec (x y : spec_float) (X Y : Z) :
  valid_binary x = true -> valid_binary y = true ->
  scaled x = Some X -> scaled y = Some Y ->
  Z.abs (X - Y) < 2 ^ 2074 ->
  exists S,
    scaled (SFsub prec emax x y) = Some S
    /\ Z.abs (S - (X - Y)) * 2 ^ 53 <= Z.abs (X - Y).
Proof.
  intros Vx Vy Sx Sy B. rewrite SFsub_add_opp.
  apply (SFadd_spec x (SFopp y) X (- Y)); try assumption.
  - now rewrite valid_opp.
  - now apply scaled_opp.
Qed.

Local Open Scope float_scope.

Lemma add_value (x y : float) (X Y : Z) :
  value x = Some X -> value y = Some Y ->
  (Z.abs (X + Y) < 2 ^ 2074)%Z ->
  exists S,
    value (x + y) = Some S
    /\ (Z.abs (S - (X + Y)) * 2 ^ 53 <= Z.abs (X + Y))%Z.
Proof.
  unfold value. intros Vx Vy B. rewrite add_spec.
  apply SFadd_spec; try assumption; apply Prim2SF_valid.
Qed.

Lemma sub_value (x y : float) (X Y : Z) :
  value x = Some X -> value y = Some Y ->
  (Z.abs (X - Y) < 2 ^ 2074)%Z ->
  exists S,
    value (x - y) = Some S
    /\ (Z.abs (S - (X - Y)) * 2 ^ 53 <= Z.abs (X - Y))%Z.
Proof.
  unfold value. intros Vx Vy B. rewrite sub_spec.
  apply SFsub_spec; try assumption; apply Prim2SF_valid.
Qed.

Lemma mantissa_below (m : positive) (e : Z) :
  canonical_mantissa prec emax m e = true -> (Zpos m < 2 ^ 53)%Z.
Proof.
  intros C. apply canonical_exponent in C. destruct C as (_ & D & _).
  pose proof (digits_bounds m) as [_ U].
  assert (2 ^ Zpos (digits2_pos m) <= 2 ^ 53)%Z by (apply Z.pow_le_mono_r; lia).
  lia.
Qed.

Lemma mantissa_normal (m : positive) (e : Z) :
  canonical_mantissa prec emax m e = true -> (-1074 < e)%Z ->
  (2 ^ 52 <= Zpos m)%Z.
Proof.
  intros C N. apply canonical_exponent in C. destruct C as (_ & _ & D).
  pose proof (digits_bounds m) as [L _]. rewrite (D N) in L. exact L.
Qed.

Lemma compare_cont_Z (p q : positive) :
  PosDef.Pos.compare_cont Eq p q = (Zpos p ?= Zpos q)%Z.
Proof. reflexivity. Qed.

(** A float of magnitude at most 65536 is finite, with value at most
    2^16 = 2^1090 * 2^-1074. *)
Lemma bounded_value (x : float) :
  (abs x <=? 65536) = true ->
  exists X, value x = Some X /\ (Z.abs X <= 2 ^ 1090)%Z.
Proof.
  rewrite leb_spec, abs_spec. unfold value.
  assert (C : Prim2SF 65536 = S754_finite false 4503599627370496 (-36))
    by (vm_compute; reflexivity).
  rewrite C. pose proof (Prim2SF_valid x) as V.
  destruct (Prim2SF x) as [s|s| |s m e]; intros H; try discriminate H.
  - exists 0%Z. split; [reflexivity|]. change (Z.abs 0) with 0%Z.
    apply Z.pow_nonneg. lia.
  - eexists. split; [reflexivity|]. rewrite abs_cond_Zopp.
    apply valid_finite in V. destruct V as [V _].
    pose proof (mantissa_below m e V) as Mb.
    pose proof (canonical_exponent m e V) as (Le & _ & _).
    unfold SFleb in H. cbn [SFabs SFcompare] in H.
    assert (Pz : (0 < 2 ^ (e + 1074))%Z) by (apply Z.pow_pos_nonneg; lia).
    rewrite Z.abs_eq by lia.
    destruct (Z.compare_spec e (-36)) as [E|L|G]; try discriminate H.
    + subst e. change (2 ^ (-36 + 1074))%Z with (2 ^ 1038)%Z.
      change (2 ^ 1090)%Z with (2 ^ 52 * 2 ^ 1038)%Z.
      apply Z.mul_le_mono_nonneg_r; [lia|].
      rewrite compare_cont_Z in H.
      destruct (Z.compare_spec (Zpos m) 4503599627370496); try discriminate H;
        change (2 ^ 52)%Z with 4503599627370496%Z; lia.
    + assert (2 ^ (e + 1074) <= 2 ^ 1037)%Z by (apply Z.pow_le_mono_r; lia).
      change (2 ^ 1090)%Z with (2 ^ 53 * 2 ^ 1037)%Z.
      apply Z.mul_le_mono_nonneg; lia.
Qed.

(** A finite float of value below that of 1e-10 passes the tolerance
    test of [__eq__]. *)
Lemma below_tolerance (d : float) (D : Z) :
  value d = Some D ->
  (Z.abs D < 7737125245533627 * 2 ^ 988)%Z ->
  (abs d <? 1e-10) = true.
Proof.
  rewrite ltb_spec, abs_spec. unfold value.
  assert (C : Prim2SF 1e-10 = S754_finite false 7737125245533627 (-86))
    by (vm_compute; reflexivity).
  rewrite C. pose proof (Prim2SF_valid d) as V.
  destruct (Prim2SF d) as [s|s| |s m e]; intros H B; try discriminate H.
  - reflexivity.
  - apply scaled_finite in H. subst D. rewrite abs_cond_Zopp in B.
    apply valid_finite in V. destruct V as [V _].
    pose proof (canonical_exponent m e V) as (Le & _ & _).
    assert (Pz : (0 < 2 ^ (e + 1074))%Z) by (apply Z.pow_pos_nonneg; lia).
    rewrite Z.abs_eq in B by lia.
    unfold SFltb. cbn [SFabs SFcompare].
    destruct (Z.compare_spec e (-86)) as [E|L|G]; [|reflexivity|exfalso].
    + subst e. change (2 ^ (-86 + 1074))%Z with (2 ^ 988)%Z in B.
      assert (Zpos m < 7737125245533627)%Z by nia.
      rewrite compare_cont_Z.
      destruct (Z.compare_spec (Zpos m) 7737125245533627); try reflexivity; lia.
    + pose proof (mantissa_normal m e V ltac:(lia)) as Mn.
      assert (2 ^ 989 <= 2 ^ (e + 1074))%Z by (apply Z.pow_le_mono_r; lia).
      change (2 ^ 989)%Z with (2 * 2 ^ 988)%Z in H.
      assert (2 ^ 52 * (2 * 2 ^ 988) <= Zpos m * 2 ^ (e + 1074))%Z
        by (apply Z.mul_le_mono_nonneg; lia).
      assert (0 < 2 ^ 988)%Z by (apply Z.pow_pos_nonneg; lia).
      change (2 ^ 52)%Z with 4503599627370496%Z in *. nia.
Qed.

(** An error of at most 2^-53 of a sum bounded by [c * 2^53]. *)
Lemma small_error (e s c : Z) :
  (Z.abs e * 9007199254740992 <= Z.abs s)%Z ->
  (Z.abs s <= c * 9007199254740992)%Z -> (Z.abs e <= c)%Z.
Proof. lia. Qed.

Lemma abs_sum3 (a b c p q r : Z) :
  (Z.abs a <= p)%Z -> (Z.abs b <= q)%Z -> (Z.abs c <= r)%Z ->
  (Z.abs (a + b + c) <= p + q + r)%Z.
Proof. lia. Qed.

Lemma abs_sum4 (a b c d p q r s : Z) :
  (Z.abs a <= p)%Z -> (Z.abs b <= q)%Z -> (Z.abs c <= r)%Z -> (Z.abs d <= s)%Z ->
  (Z.abs (a + b - c - d) <= p + q + r + s)%Z.
Proof. lia. Qed.

(** The two groupings of a sum of three floats of magnitude at most
    65536 differ by four roundings, each at most 2^-53 of a partial sum
    below 2^18: less than the tolerance 1e-10. *)
Lemma close_groupings (X Y Z S1 L S3 R D U : Z) :
  (0 < U)%Z ->
  (Z.abs X <= 2 ^ 102 * U)%Z -> (Z.abs Y <= 2 ^ 102 * U)%Z ->
  (Z.abs Z <= 2 ^ 102 * U)%Z ->
  (Z.abs (S1 - (X + Y)) * 2 ^ 53 <= Z.abs (X + Y))%Z ->
  (Z.abs (L - (S1 + Z)) * 2 ^ 53 <= Z.abs (S1 + Z))%Z ->
  (Z.abs (S3 - (Y + Z)) * 2 ^ 53 <= Z.abs (Y + Z))%Z ->
  (Z.abs (R - (X + S3)) * 2 ^ 53 <= Z.abs (X + S3))%Z ->
  (Z.abs (D - (L - R)) * 2 ^ 53 <= Z.abs (L - R))%Z ->
  (Z.abs D < 7737125245533627 * U)%Z.
Proof.
  change (2 ^ 102)%Z with (562949953421312 * 9007199254740992)%Z.
  change (2 ^ 53)%Z with 9007199254740992%Z.
  intros HU HX HY HZ H1 H2 H3 H4 H5.
  rewrite <- Z.mul_assoc, (Z.mul_comm 9007199254740992 U), Z.mul_assoc in HX, HY, HZ.
  set (u := (562949953421312 * U)%Z) in *.
  assert (Hu : (562949953421312 <= u)%Z) by (unfold u; lia).
  assert (B1 : (Z.abs (X + Y) <= 2 * u * 9007199254740992)%Z)
    by (clear - HX HY; lia).
  assert (B3 : (Z.abs (Y + Z) <= 2 * u * 9007199254740992)%Z)
    by (clear - HY HZ; lia).
  pose proof (small_error _ _ _ H1 B1) as E1.
  pose proof (small_error _ _ _ H3 B3) as E3.
  assert (B2 : (Z.abs (S1 + Z) <= 4 * u * 9007199254740992)%Z).
  { replace (S1 + Z)%Z with ((S1 - (X + Y)) + (X + Y) + Z)%Z by ring.
    pose proof (abs_sum3 _ _ _ _ _ _ E1 B1 HZ) as T.
    clear - T Hu. lia. }
  assert (B4 : (Z.abs (X + S3) <= 4 * u * 9007199254740992)%Z).
  { replace (X + S3)%Z with ((S3 - (Y + Z)) + (Y + Z) + X)%Z by ring.
    pose proof (abs_sum3 _ _ _ _ _ _ E3 B3 HX) as T.
    clear - T Hu. lia. }
  pose proof (small_error _ _ _ H2 B2) as E2.
  pose proof (small_error _ _ _ H4 B4) as E4.
  assert (B5 : (Z.abs (L - R) <= 12 * u)%Z).
  { replace (L - R)%Z
      with ((L - (S1 + Z)) + (S1 - (X + Y)) - (R - (X + S3)) - (S3 - (Y + Z)))%Z
      by ring.
    pose proof (abs_sum4 _ _ _ _ _ _ _ _ E2 E1 E4 E3) as T.
    clear - T. lia. }
  assert (B5' : (Z.abs (L - R) <= u * 9007199254740992)%Z)
    by (clear - B5 Hu; lia).
  pose proof (small_error _ _ _ H5 B5') as E5.
  assert (BD : (Z.abs D <= 13 * u)%Z).
  { replace D with ((D - (L - R)) + (L - R) + 0)%Z by ring.
    pose proof (abs_sum3 _ _ _ _ _ _ E5 B5 (Z.le_refl (Z.abs 0))) as T.
    clear - T. cbn [Z.abs] in T. lia. }
  clear - BD HU. unfold u in BD. lia.
Qed.

Lemma far_from_overflow (a U : Z) :
  (0 < U)%Z -> (Z.abs a <= 2 ^ 112 * U)%Z -> (Z.abs a < 2 ^ 1086 * U)%Z.
Proof.
  intros HU H.
  assert (2 ^ 112 < 2 ^ 1086)%Z by (apply Z.pow_lt_mono_r; lia).
  assert (2 ^ 112 * U < 2 ^ 1086 * U)%Z by (apply Z.mul_lt_mono_pos_r; lia).
  lia.
Qed.

Lemma rounded_bound (S s : Z) :
  (Z.abs (S - s) * 2 ^ 53 <= Z.abs s)%Z -> (Z.abs S <= 2 * Z.abs s)%Z.
Proof. change (2 ^ 53)%Z with 9007199254740992%Z. lia. Qed.

(** One axis of the associativity test, for magnitudes up to 65536. *)
Lemma axis_close (x y z : float) :
  (abs x <=? 65536) = true -> (abs y <=? 65536) = true ->
  (abs z <=? 65536) = true ->
  (abs (x + y + z - (x + (y + z))) <? 1e-10) = true.
Proof.
  intros Bx By Bz.
  destruct (bounded_value x Bx) as (X & Vx & HX).
  destruct (bounded_value y By) as (Y & Vy & HY).
  destruct (bounded_value z Bz) as (Z & Vz & HZ).
  assert (F1 : (2 ^ 1090 = 2 ^ 102 * 2 ^ 988)%Z)
    by (rewrite <- Z.pow_add_r by lia; reflexivity).
  assert (F2 : (2 ^ 2074 = 2 ^ 1086 * 2 ^ 988)%Z)
    by (rewrite <- Z.pow_add_r by lia; reflexivity).
  assert (HU : (0 < 2 ^ 988)%Z) by (apply Z.pow_pos_nonneg; lia).
  rewrite F1 in HX, HY, HZ.
  assert (Safe : forall a, (Z.abs a <= 2 ^ 112 * 2 ^ 988 -> Z.abs a < 2 ^ 2074)%Z)
    by (intros a Ha; rewrite F2; apply far_from_overflow; assumption).
  remember (2 ^ 988)%Z as U eqn:EU. clear F1 F2.
  change (2 ^ 102)%Z with 5070602400912917605986812821504%Z in *.
  change (2 ^ 112)%Z with 5192296858534827628530496329220096%Z in *.
  destruct (add_value x y X Y Vx Vy) as (S1 & V1 & E1);
    [apply Safe; clear - HX HY HU; lia|].
  pose proof (rounded_bound _ _ E1) as R1.
  destruct (add_value (x + y) z S1 Z V1 Vz) as (L & VL & E2);
    [apply Safe; clear - HX HY HZ HU R1; lia|].
  pose proof (rounded_bound _ _ E2) as R2.
  destruct (add_value y z Y Z Vy Vz) as (S3 & V3 & E3);
    [apply Safe; clear - HY HZ HU; lia|].
  pose proof (rounded_bound _ _ E3) as R3.
  destruct (add_value x (y + z) X S3 Vx V3) as (R & VR & E4);
    [apply Safe; clear - HX HY HZ HU R3; lia|].
  pose proof (rounded_bound _ _ E4) as R4.
  destruct (sub_value (x + y + z) (x + (y + z)) L R VL VR) as (D & VD & E5);
    [apply Safe; clear - HX HY HZ R1 R2 R3 R4 HU; lia|].
  apply (below_tolerance _ D VD). rewrite <- EU.
  change 5070602400912917605986812821504%Z with (2 ^ 102)%Z in *.
  exact (close_groupings X Y Z S1 L S3 R D U HU HX HY HZ E1 E2 E3 E4 E5).
Qed.

End SumError.

(** ** Addition of prices *)

Section Addition.

Import SurrealNumber.
Local Open Scope float_scope.

(** C10, as stated, fails.  Float addition rounds: 1e16 + 1 is 1e16
    again, so (big + one) + one has real component 1e16 while
    big + (one + one) has 1e16 + 2, and [__eq__] tells them apart. *)
Lemma addition_is_not_associative :
  a (__add__ (__add__ Examples.big Examples.one) Examples.one) = 1e16
  /\ a (__add__ Examples.big (__add__ Examples.one Examples.one))
     = 10000000000000002
  /\ __eq__ (__add__ (__add__ Examples.big Examples.one) Examples.one)
            (__add__ Examples.big (__add__ Examples.one Examples.one))
     = false.
Proof. repeat split; reflexivity. Qed.

(** One axis: three integers of magnitude at most 2^51 add up the same
    way in either grouping, with no rounding at all. *)
Lemma axis_associative (i j k : Z) :
  (Z.abs i <= 2 ^ 51)%Z -> (Z.abs j <= 2 ^ 51)%Z -> (Z.abs k <= 2 ^ 51)%Z ->
  SF2Prim (BN i) + SF2Prim (BN j) + SF2Prim (BN k)
  = SF2Prim (BN i) + (SF2Prim (BN j) + SF2Prim (BN k))
  /\ (abs (SF2Prim (BN i) + SF2Prim (BN j) + SF2Prim (BN k)
           - (SF2Prim (BN i) + (SF2Prim (BN j) + SF2Prim (BN k))))
      <? 1e-10) = true.
Proof.
  intros Bi Bj Bk.
  assert (P : (2 ^ 53 = 4 * 2 ^ 51)%Z) by reflexivity.
  rewrite (add_integers i j), (add_integers (i + j) k),
          (add_integers j k), (add_integers i (j + k)) by lia.
  rewrite Z.add_assoc. split; [reflexivity|].
  rewrite sub_integer_self by lia. reflexivity.
Qed.

Lemma init_integers (i j k : Z) :
  (Z.abs i <= 2 ^ 51)%Z -> (Z.abs j <= 2 ^ 51)%Z -> (Z.abs k <= 2 ^ 51)%Z ->
  __init__ (Py.Int i) (Py.Int j) (Py.Int k)
  = Ok (mk (SF2Prim (BN i)) (SF2Prim (BN j)) (SF2Prim (BN k))).
Proof.
  intros Bi Bj Bk.
  assert (P : (2 ^ 53 = 4 * 2 ^ 51)%Z) by reflexivity.
  unfold __init__, Py.to_float.
  rewrite !float_of_int_exact by lia. reflexivity.
Qed.

(** For prices built from integers of magnitude at most 2^51 the two
    groupings are the same value, axis by axis: every intermediate sum
    is an integer below 2^53, which binary64 holds exactly. *)
Lemma addition_of_whole_prices_is_associative
    (xa xb xc ya yb yc za zb zc : Z) :
  Forall (fun n => (Z.abs n <= 2 ^ 51)%Z) [xa; xb; xc; ya; yb; yc; za; zb; zc] ->
  exists x y z,
    __init__ (Py.Int xa) (Py.Int xb) (Py.Int xc) = Ok x
    /\ __init__ (Py.Int ya) (Py.Int yb) (Py.Int yc) = Ok y
    /\ __init__ (Py.Int za) (Py.Int zb) (Py.Int zc) = Ok z
    /\ __add__ (__add__ x y) z = __add__ x (__add__ y z)
    /\ __eq__ (__add__ (__add__ x y) z) (__add__ x (__add__ y z)) = true.
Proof.
  intros F.
  repeat match goal with
         | H : Forall _ (_ :: _) |- _ => inversion H; subst; clear H
         end.
  do 3 eexists.
  split; [apply init_integers; assumption|].
  split; [apply init_integers; assumption|].
  split; [apply init_integers; assumption|].
  destruct (axis_associative xa ya za) as [Ea Ta]; try assumption.
  destruct (axis_associative xb yb zb) as [Eb Tb]; try assumption.
  destruct (axis_associative xc yc zc) as [Ec Tc]; try assumption.
  unfold __eq__, __add__. cbn [a b c].
  rewrite Ta, Tb, Tc, Ea, Eb, Ec. split; reflexivity.
Qed.

(** C10, amended.  For all prices x, y, z whose components are at most
    65536 in magnitude, x.add(y).add(z) equals x.add(y.add(z)) under the
    tolerance-based equality, on each of the three axes: the two
    groupings differ by four roundings of partial sums below 2^18, which
    stays under 1e-10. *)
Theorem addition_is_associative_within_tolerance (x y z : Surreal) :
  within 65536 x = true -> within 65536 y = true -> within 65536 z = true ->
  (abs (a (__add__ (__add__ x y) z) - a (__add__ x (__add__ y z))) <? 1e-10) = true
  /\ (abs (b (__add__ (__add__ x y) z) - b (__add__ x (__add__ y z))) <? 1e-10) = true
  /\ (abs (c (__add__ (__add__ x y) z) - c (__add__ x (__add__ y z))) <? 1e-10) = true
  /\ __eq__ (__add__ (__add__ x y) z) (__add__ x (__add__ y z)) = true.
Proof.
  unfold within. intros Hx Hy Hz.
  apply andb_true_iff in Hx, Hy, Hz.
  destruct Hx as [Hx Hxc], Hy as [Hy Hyc], Hz as [Hz Hzc].
  apply andb_true_iff in Hx, Hy, Hz.
  destruct Hx as [Hxa Hxb], Hy as [Hya Hyb], Hz as [Hza Hzb].
  pose proof (axis_close _ _ _ Hxa Hya Hza) as Ta.
  pose proof (axis_close _ _ _ Hxb Hyb Hzb) as Tb.
  pose proof (axis_close _ _ _ Hxc Hyc Hzc) as Tc.
  unfold __eq__, __add__. cbn [a b c].
  rewrite Ta, Tb, Tc. repeat split; reflexivity.
Qed.

Lemma addition_is_associative_within_tolerance_witness :
  __eq__ (__add__ (__add__ (mk 1240 (-1) 0) (mk 126.29866666666665 (-1.25) 0))
                  (mk 0.1 0.2 0.3))
         (__add__ (mk 1240 (-1) 0)
                  (__add__ (mk 126.29866666666665 (-1.25) 0) (mk 0.1 0.2 0.3)))
  = true.
Proof.
  apply (addition_is_associative_within_tolerance
           (mk 1240 (-1) 0) (mk 126.29866666666665 (-1.25) 0) (mk 0.1 0.2 0.3));
    reflexivity.
Defined.

End Addition.

(** ** Dictionaries: reading after writing *)

Section DictFacts.

Context {V : Type}.

Lemma get_set_same (d : Dict.t V) (k : string) (v : V) :
  Dict.get (Dict.set d k v) k = Some v.
Proof.
  induction d as [|[k' v'] d IH]; simpl.
  - now rewrite String.eqb_refl.
  - destruct (String.eqb k k') eqn:E; simpl; rewrite E; auto.
Qed.

Lemma get_set_other (d : Dict.t V) (k j : string) (v : V) :
  j <> k -> Dict.get (Dict.set d k v) j = Dict.get d j.
Proof.
  intros N. induction d as [|[k' v'] d IH]; simpl.
  - destruct (String.eqb j k) eqn:E; [apply String.eqb_eq in E; contradiction|reflexivity].
  - destruct (String.eqb k k') eqn:E; simpl.
    + apply String.eqb_eq in E. subst k'.
      destruct (String.eqb j k) eqn:E'; [apply String.eqb_eq in E'; contradiction|reflexivity].
    + now rewrite IH.
Qed.

Lemma keys_set_present (d : Dict.t V) (k : string) (v : V) :
  Dict.contains d k = true -> Dict.keys (Dict.set d k v) = Dict.keys d.
Proof.
  unfold Dict.contains. induction d as [|[k' v'] d IH]; simpl.
  - discriminate.
  - destruct (String.eqb k k') eqn:E; simpl; [reflexivity|].
    intros H. now rewrite IH.
Qed.

Lemma in_get (d : Dict.t V) (k : string) (v : V) :
  In (k, v) d -> exists v', Dict.get d k = Some v'.
Proof.
  induction d as [|[k' v'] d IH]; simpl; [contradiction|].
  intros [H|H].
  - inversion H; subst. rewrite String.eqb_refl. eauto.
  - destruct (String.eqb k k'); eauto.
Qed.

Lemma mem_In (k : string) (l : list string) : Dict.mem k l = true <-> In k l.
Proof.
  induction l as [|k' l IH]; simpl; [split; [discriminate|contradiction]|].
  rewrite orb_true_iff, IH, String.eqb_eq. intuition congruence.
Qed.

Lemma unique_NoDup (l : list string) : Dict.unique l = true <-> NoDup l.
Proof.
  induction l as [|k l IH]; simpl.
  - split; [constructor|reflexivity].
  - rewrite andb_true_iff, negb_true_iff, IH. split.
    + intros [M U]. constructor; [|assumption].
      rewrite <- mem_In. congruence.
    + intros N. inversion N as [|? ? M U]; subst. split; [|assumption].
      destruct (Dict.mem k l) eqn:E; [|reflexivity].
      apply mem_In in E. contradiction.
Qed.

(** With unique keys, an item of the dictionary is what [get] finds. *)
Lemma get_of_item (d : Dict.t V) (k : string) (v : V) :
  Dict.unique_keys d = true -> In (k, v) d -> Dict.get d k = Some v.
Proof.
  unfold Dict.unique_keys, Dict.keys.
  induction d as [|[k' v'] d IH]; simpl; [contradiction|].
  rewrite andb_true_iff, negb_true_iff. intros [M U] [H|H].
  - inversion H; subst. now rewrite String.eqb_refl.
  - destruct (String.eqb k k') eqn:E; [|auto].
    apply String.eqb_eq in E. subst k'.
    assert (I : In k (map fst d)) by (apply (in_map fst) in H; exact H).
    apply mem_In in I. congruence.
Qed.

Lemma get_item (d : Dict.t V) (k : string) (v : V) :
  Dict.get d k = Some v -> In (k, v) d.
Proof.
  induction d as [|[k' v'] d IH]; simpl; [discriminate|].
  destruct (String.eqb k k') eqn:E.
  - apply String.eqb_eq in E. intros H. inversion H; subst. now left.
  - auto.
Qed.

End DictFacts.

(** ** The pricing engine *)

(** Inversion of an equation [... = Ok _] through the [bind]s, the
    conditionals and the dictionary reads on its left. *)
Ltac res_inv :=
  repeat match goal with
  | H : Raise _ = Ok _ |- _ => discriminate H
  | H : Ok _ = Ok _ |- _ => injection H as H
  | H : match ?m with Ok _ => _ | Raise _ => _ end = Ok _ |- _ =>
      let E := fresh "E" in destruct m eqn:E; [|discriminate H]
  | H : (if ?b then _ else _) = Ok _ |- _ =>
      let E := fresh "E" in destruct b eqn:E
  | H : match ?m with Some _ => _ | None => _ end = Ok _ |- _ =>
      let E := fresh "E" in destruct m eqn:E
  end.

Section Pricing.

Import GameState.
Local Open Scope float_scope.

(** Neither the spread nor the reputation touches the infinite axis:
    the quote carries what the charter loop left. *)
Lemma get_price_omega (self : t) (good_id city_id : string) (is_buying : bool)
    (price : Surreal) :
  get_price self good_id city_id is_buying = Ok price ->
  exists good city a0 b0,
    Dict.get (goods self) good_id = Some good
    /\ Dict.get (cities self) city_id = Some city
    /\ SurrealNumber.c price =
       SurrealNumber.c
         (apply_charters (charters self) city_id good_id
            (SurrealNumber.mk a0 b0 (restriction good city good_id))).
Proof.
  unfold get_price, Dict.subscript, restriction, bind. intros H.
  destruct (Dict.get (goods self) good_id) as [good|] eqn:G; [|discriminate H].
  destruct (Dict.get (cities self) city_id) as [city|] eqn:C; [|discriminate H].
  exists good, city.
  destruct (Dict.get (City.modifiers city) good_id) as [mod_|] eqn:M.
  - exists (Good.base_a good + CityModifier.a_mod mod_),
           (Good.base_b good + CityModifier.b_mod mod_).
    split; [reflexivity|split; [reflexivity|]].
    res_inv; subst; reflexivity.
  - exists (Good.base_a good), (Good.base_b good).
    split; [reflexivity|split; [reflexivity|]].
    res_inv; subst; reflexivity.
Qed.

Lemma apply_charters_cleared (chs : list Charter.t) (city_id good_id : string)
    (p : Surreal) :
  SurrealNumber.c p = 0 ->
  SurrealNumber.c (apply_charters chs city_id good_id p) = 0.
Proof.
  revert p. induction chs as [|ch chs IH]; intros p H; simpl; [exact H|].
  apply IH. destruct (Charter.applies_to ch city_id good_id); [reflexivity|exact H].
Qed.


Lemma apply_charters_none (chs : list Charter.t) (city_id good_id : string)
    (p : Surreal) :
  (forall ch, In ch chs -> Charter.applies_to ch city_id good_id = false) ->
  apply_charters chs city_id good_id p = p.
Proof.
  revert p. induction chs as [|ch chs IH]; intros p H; simpl; [reflexivity|].
  rewrite (H ch (or_introl eq_refl)). apply IH.
  intros ch' I. apply H. now right.
Qed.



(** C5.  A monopoly good that no active charter covers, in a city
    that has either no modifier for it or a modifier whose infinite
    override is at least 1, is quoted illegal.  In particular purple
    dye in Gadir (override 1) is illegal to buy and to sell in a new
    game, and legal once a charter covers Gadir and purple dye. *)
Theorem monopoly_without_charter_is_illegal :
  (forall (self : t) (good_id city_id : string) (is_buying : bool)
          (good : Good.t) (city : City.t) (price : Surreal),
      Dict.get (goods self) good_id = Some good ->
      Good.monopoly good = true ->
      Dict.get (cities self) city_id = Some city ->
      (forall charter, In charter (charters self) ->
                       Charter.applies_to charter city_id good_id = false) ->
      match Dict.get (City.modifiers city) good_id with
      | Some mod_ => (1 <=? CityModifier.c_mod mod_) = true
      | None => True
      end ->
      get_price self good_id city_id is_buying = Ok price ->
      SurrealNumber.is_legal price = false)
  /\ (forall is_buying, exists price,
         get_price World.initial "purple_dye" "gadir" is_buying = Ok price
         /\ SurrealNumber.is_legal price = false)
  /\ (forall is_buying, exists price,
         get_price Examples.chartered "purple_dye" "gadir" is_buying = Ok price
         /\ SurrealNumber.is_legal price = true).
Proof.
  split; [|split].
  - intros self good_id city_id is_buying good city price G Mono C NoCh Mod H.
    destruct (get_price_omega _ _ _ _ _ H) as (good' & city' & a0 & b0 & G' & C' & Hc).
    rewrite G in G'. rewrite C in C'.
    injection G' as <-. injection C' as <-.
    rewrite (apply_charters_none _ _ _ _ NoCh) in Hc. simpl in Hc.
    unfold SurrealNumber.is_legal. rewrite Hc.
    unfold restriction. rewrite Mono.
    destruct (Dict.get (City.modifiers city) good_id) as [mod_|].
    + now apply leb_one_not_leb_zero.
    + reflexivity.
  - intros []; eexists; (split; [vm_compute; reflexivity|reflexivity]).
  - intros []; eexists; (split; [vm_compute; reflexivity|reflexivity]).
Qed.

Lemma monopoly_without_charter_is_illegal_witness :
  exists price,
    get_price World.initial "purple_dye" "gadir" true = Ok price
    /\ SurrealNumber.is_legal price = false.
Proof.
  eexists. split; [vm_compute; reflexivity|].
  apply (proj1 monopoly_without_charter_is_illegal
           World.initial "purple_dye" "gadir" true
           (Good.mk "purple_dye" "Purple Dye" 220 (-3) true false false)
           World.gadir).
  - reflexivity.
  - reflexivity.
  - reflexivity.
  - intros charter [].
  - reflexivity.
  - vm_compute. reflexivity.
Defined.

(** C3, as stated, fails: glass bought in Carthage in a new game (base
    120, modifier (-8, -1, 0), stock 18, nothing held, reputation 5) is
    not quoted at 112 * (1 + 0.15 + (1/1.8 - 1) * 0.1), not even
    within the tolerance of [__eq__]. *)
Lemma glass_quote_is_not_plain :
  exists price,
    get_price World.initial "glass" "carthage" true = Ok price
    /\ (SurrealNumber.a price =? plain_glass_quote) = false
    /\ (abs (SurrealNumber.a price - plain_glass_quote) <? 1e-10) = false.
Proof.
  eexists. split; [vm_compute; reflexivity|split; reflexivity].
Qed.

(** C3, amended.  Glass is a specialty of Carthage (its modifier lowers
    the real base price), so the buying formula applies the specialty
    factor as well: the real component of the quote is exactly
    112 * (1 + 0.15 + (1/1.8 - 1) * 0.1) * 1.02, and the whole quote
    is (that, -1.25, 0). *)
Theorem glass_quote_in_carthage :
  City.is_specialty World.carthage "glass" = true
  /\ get_price World.initial "glass" "carthage" true
     = Ok (SurrealNumber.mk (plain_glass_quote * 1.02) (-1.25) 0).
Proof. split; vm_compute; reflexivity. Qed.

End Pricing.

(** ** The negotiation resolver *)

Section Negotiation.

Import GameState.
Local Open Scope float_scope.

Lemma no_gap_no_price (cut : NegotiationCut.t) (max_L min_R : Surreal) :
  bounds cut = Some (max_L, min_R) ->
  SurrealNumber.__ge__ max_L min_R = true ->
  NegotiationCut.find_simplest_in_gap cut = None.
Proof.
  unfold bounds, NegotiationCut.find_simplest_in_gap.
  destruct (NegotiationCut.L cut) as [|l0 ls]; [discriminate|].
  destruct (NegotiationCut.R cut) as [|r0 rs]; [discriminate|].
  intros [= <- <-] ->. reflexivity.
Qed.

(** Once the base price is known, [negotiate_price] is the rest of its
    body. *)
Lemma negotiate_price_from_base (self : t) (good_id city_id : string)
    (quantity : Z) (is_buying : bool) (base_price : Surreal) :
  get_price self good_id city_id is_buying = Ok base_price ->
  negotiate_price self good_id city_id quantity is_buying =
  if negb (SurrealNumber.is_legal base_price) then Ok None
  else
    cut <- opening_cut base_price is_buying ;;
    total <- SurrealNumber.__mul__
               match NegotiationCut.find_simplest_in_gap cut with
               | Some p => p
               | None => base_price
               end (Py.Int quantity) ;;
    Ok (Some total).
Proof. unfold negotiate_price. intros ->. reflexivity. Qed.

(** The opening cut always holds one offer on each side. *)
Lemma opening_cut_offers (base_price : Surreal) (is_buying : bool) :
  exists l r,
    opening_cut base_price is_buying = Ok (NegotiationCut.mk [l] [r])
    /\ SurrealNumber.__mul__ base_price
         (Py.Float (if is_buying then 1.05 else 1.15)) = Ok l
    /\ SurrealNumber.__mul__ base_price
         (Py.Float (if is_buying then 0.85 else 0.95)) = Ok r.
Proof.
  destruct is_buying; do 2 eexists; repeat split; reflexivity.
Qed.

(** Without a gap the final price is the base price. *)
Lemma negotiate_price_no_gap (self : t) (good_id city_id : string)
    (quantity : Z) (is_buying : bool) (base_price : Surreal)
    (cut : NegotiationCut.t) (max_L min_R : Surreal) :
  get_price self good_id city_id is_buying = Ok base_price ->
  SurrealNumber.is_legal base_price = true ->
  opening_cut base_price is_buying = Ok cut ->
  bounds cut = Some (max_L, min_R) ->
  SurrealNumber.__ge__ max_L min_R = true ->
  negotiate_price self good_id city_id quantity is_buying
  = (total <- SurrealNumber.__mul__ base_price (Py.Int quantity) ;;
     Ok (Some total)).
Proof.
  intros P Legal Cut B NoGap.
  rewrite (negotiate_price_from_base _ _ _ _ _ _ P), Legal, Cut. simpl.
  rewrite (no_gap_no_price _ _ _ B NoGap). reflexivity.
Qed.

(** Scaling a price by a quantity below 2^53 never raises. *)
Lemma mul_quantity_ok (price : Surreal) (quantity : Z) :
  Z.abs quantity < 2 ^ 53 ->
  exists total, SurrealNumber.__mul__ price (Py.Int quantity) = Ok total.
Proof.
  intros B. unfold SurrealNumber.__mul__, Py.to_float.
  rewrite (float_of_int_exact quantity B). simpl. eauto.
Qed.

(** C2, with the bound on the quantity it needs.  When the base price
    is legal and the opening offers leave no gap (max L >= min R), the
    resolver, buying or selling, ends as [base_price * quantity] does and
    never returns [None]; for every quantity below 2^53 in magnitude the
    product is a price and the resolver returns it. *)
Theorem no_gap_falls_back_to_base_price (self : t) (good_id city_id : string)
    (quantity : Z) (is_buying : bool) (base_price : Surreal)
    (cut : NegotiationCut.t) (max_L min_R : Surreal) :
  get_price self good_id city_id is_buying = Ok base_price ->
  SurrealNumber.is_legal base_price = true ->
  opening_cut base_price is_buying = Ok cut ->
  bounds cut = Some (max_L, min_R) ->
  SurrealNumber.__ge__ max_L min_R = true ->
  negotiate_price self good_id city_id quantity is_buying
  = (total <- SurrealNumber.__mul__ base_price (Py.Int quantity) ;;
     Ok (Some total))
  /\ negotiate_price self good_id city_id quantity is_buying <> Ok None
  /\ (Z.abs quantity < 2 ^ 53 ->
      exists total,
        SurrealNumber.__mul__ base_price (Py.Int quantity) = Ok total
        /\ negotiate_price self good_id city_id quantity is_buying
           = Ok (Some total)).
Proof.
  intros P Legal Cut B NoGap.
  rewrite (negotiate_price_no_gap _ _ _ quantity _ _ _ _ _ P Legal Cut B NoGap).
  split; [reflexivity|split].
  - destruct (SurrealNumber.__mul__ base_price (Py.Int quantity)); discriminate.
  - intros Q. destruct (mul_quantity_ok base_price quantity Q) as [total E].
    exists total. rewrite E. split; reflexivity.
Qed.

Lemma no_gap_falls_back_to_base_price_witness :
  exists total,
    SurrealNumber.__mul__ (SurrealNumber.mk 126.29866666666665 (-1.25) 0)
                          (Py.Int 3) = Ok total
    /\ negotiate_price World.initial "glass" "carthage" 3 true = Ok (Some total)
    /\ total = SurrealNumber.mk 378.89599999999996 (-3.75) 0.
Proof.
  destruct (no_gap_falls_back_to_base_price World.initial "glass" "carthage" 3 true
              (SurrealNumber.mk 126.29866666666665 (-1.25) 0)
              (NegotiationCut.mk
                 [SurrealNumber.mk (126.29866666666665 * 1.05) (-1.25 * 1.05) (0 * 1.05)]
                 [SurrealNumber.mk (126.29866666666665 * 0.85) (-1.25 * 0.85) (0 * 0.85)])
              (SurrealNumber.mk (126.29866666666665 * 1.05) (-1.25 * 1.05) (0 * 1.05))
              (SurrealNumber.mk (126.29866666666665 * 0.85) (-1.25 * 0.85) (0 * 0.85))
              ltac:(vm_compute; reflexivity) ltac:(vm_compute; reflexivity)
              ltac:(vm_compute; reflexivity) ltac:(vm_compute; reflexivity)
              ltac:(vm_compute; reflexivity))
    as (_ & _ & Priced).
  destruct (Priced ltac:(vm_compute; reflexivity)) as (total & M & N).
  exists total. split; [exact M|]. split; [exact N|].
  vm_compute in M. injection M as <-. reflexivity.
Defined.

(** C2, as stated, fails.  For glass bought in Carthage in a new game
    the base price is legal and the opening offers leave no gap, and the
    call for a quantity of 2^1024 raises [OverflowError]: the quantity
    has no float to scale the price by. *)
Lemma huge_quantity_overflows :
  get_price World.initial "glass" "carthage" true
  = Ok (SurrealNumber.mk 126.29866666666665 (-1.25) 0)
  /\ SurrealNumber.is_legal (SurrealNumber.mk 126.29866666666665 (-1.25) 0) = true
  /\ opening_cut (SurrealNumber.mk 126.29866666666665 (-1.25) 0) true
     = Ok (NegotiationCut.mk
             [SurrealNumber.mk (126.29866666666665 * 1.05) (-1.25 * 1.05) (0 * 1.05)]
             [SurrealNumber.mk (126.29866666666665 * 0.85) (-1.25 * 0.85) (0 * 0.85)])
  /\ bounds (NegotiationCut.mk
               [SurrealNumber.mk (126.29866666666665 * 1.05) (-1.25 * 1.05) (0 * 1.05)]
               [SurrealNumber.mk (126.29866666666665 * 0.85) (-1.25 * 0.85) (0 * 0.85)])
     = Some (SurrealNumber.mk (126.29866666666665 * 1.05) (-1.25 * 1.05) (0 * 1.05),
             SurrealNumber.mk (126.29866666666665 * 0.85) (-1.25 * 0.85) (0 * 0.85))
  /\ SurrealNumber.__ge__
       (SurrealNumber.mk (126.29866666666665 * 1.05) (-1.25 * 1.05) (0 * 1.05))
       (SurrealNumber.mk (126.29866666666665 * 0.85) (-1.25 * 0.85) (0 * 0.85)) = true
  /\ negotiate_price World.initial "glass" "carthage" (2 ^ 1024) true
     = Raise OverflowError.
Proof. repeat split; vm_compute; reflexivity. Qed.

(** C1, as stated, fails.  In [dust_market] the quote for dust is
    (2^-1074, -1, 0): legal, infinite component 0, real component
    strictly positive.  Both opening offers round to the same real
    component, the infinitesimal components -1.05 and -0.85 then order
    them, a gap is found and the resolver returns the midpoint
    (2^-1074, 0, 0) instead of the base price. *)
Lemma tiny_price_finds_a_gap :
  let base_price := SurrealNumber.mk 0x1p-1074 (-1) 0 in
  get_price Examples.dust_market "dust" "port" true = Ok base_price
  /\ SurrealNumber.is_legal base_price = true
  /\ (SurrealNumber.c base_price =? 0) = true
  /\ (0 <? SurrealNumber.a base_price) = true
  /\ (exists cut,
        opening_cut base_price true = Ok cut
        /\ NegotiationCut.find_simplest_in_gap cut
           = Some (SurrealNumber.mk 0x1p-1074 0 0))
  /\ negotiate_price Examples.dust_market "dust" "port" 1 true
     = Ok (Some (SurrealNumber.mk 0x1p-1074 0 0))
  /\ SurrealNumber.__mul__ base_price (Py.Int 1) = Ok base_price.
Proof.
  repeat split; try (vm_compute; reflexivity).
  eexists. split; vm_compute; reflexivity.
Qed.

(** The two opening offers, as [__lt__] compares them, when the infinite
    component is a zero and the real components stay ordered. *)
Lemma offers_not_lt (x : Surreal) (lo hi : float) :
  (SurrealNumber.c x * hi =? SurrealNumber.c x * lo) = true ->
  (SurrealNumber.a x * lo <? SurrealNumber.a x * hi) = true ->
  forall l r,
    SurrealNumber.__mul__ x (Py.Float hi) = Ok l ->
    SurrealNumber.__mul__ x (Py.Float lo) = Ok r ->
    SurrealNumber.__ge__ l r = true.
Proof.
  intros Hc Ha l r [= <-] [= <-].
  unfold SurrealNumber.__ge__, SurrealNumber.__lt__. simpl.
  rewrite Hc. simpl.
  rewrite (eqb_sym (SurrealNumber.a x * hi)), (ltb_neq _ _ Ha). simpl.
  rewrite (ltb_asym _ _ Ha). reflexivity.
Qed.

(** The opening cut of a price whose infinite component is a zero and
    whose offers stay strictly ordered on the real axis has no gap. *)
Lemma ordered_offers_leave_no_gap (self : t) (good_id city_id : string)
    (quantity : Z) (is_buying : bool) (base_price : Surreal) :
  get_price self good_id city_id is_buying = Ok base_price ->
  (SurrealNumber.c base_price =? 0) = true ->
  (if is_buying
   then SurrealNumber.a base_price * 0.85 <? SurrealNumber.a base_price * 1.05
   else SurrealNumber.a base_price * 0.95 <? SurrealNumber.a base_price * 1.15)
  = true ->
  (exists cut max_L min_R,
      opening_cut base_price is_buying = Ok cut
      /\ bounds cut = Some (max_L, min_R)
      /\ SurrealNumber.__ge__ max_L min_R = true
      /\ NegotiationCut.find_simplest_in_gap cut = None)
  /\ negotiate_price self good_id city_id quantity is_buying
     = (total <- SurrealNumber.__mul__ base_price (Py.Int quantity) ;;
        Ok (Some total)).
Proof.
  intros P Hc Ha.
  destruct (opening_cut_offers base_price is_buying) as (l & r & Cut & Hl & Hr).
  assert (Legal : SurrealNumber.is_legal base_price = true).
  { unfold SurrealNumber.is_legal.
    destruct (eqb_zero_inv _ Hc) as [-> | ->]; reflexivity. }
  assert (Ge : SurrealNumber.__ge__ l r = true).
  { destruct is_buying.
    - apply (offers_not_lt base_price 0.85 1.05); try assumption.
      destruct (eqb_zero_inv _ Hc) as [-> | ->]; reflexivity.
    - apply (offers_not_lt base_price 0.95 1.15); try assumption.
      destruct (eqb_zero_inv _ Hc) as [-> | ->]; reflexivity. }
  split.
  - exists (NegotiationCut.mk [l] [r]), l, r.
    repeat split; try assumption.
    apply (no_gap_no_price _ l r); [reflexivity|assumption].
  - apply (negotiate_price_no_gap self good_id city_id quantity
             is_buying base_price (NegotiationCut.mk [l] [r]) l r);
      try assumption; reflexivity.
Qed.

(** C1, amended.  For a base price whose infinite component is 0 and
    whose real component lies between 1e-300 and 1e300, the two opening
    offers satisfy max L >= min R, buying or selling:
    [find_simplest_in_gap] returns [None] and [negotiate_price] returns
    the base price times the quantity.  The midpoint branch is reached
    only by real components at the ends of the float range. *)
Theorem opening_offers_leave_no_gap (self : t) (good_id city_id : string)
    (quantity : Z) (is_buying : bool) (base_price : Surreal) :
  get_price self good_id city_id is_buying = Ok base_price ->
  (SurrealNumber.c base_price =? 0) = true ->
  (1e-300 <=? SurrealNumber.a base_price) = true ->
  (SurrealNumber.a base_price <=? 1e300) = true ->
  (exists cut max_L min_R,
      opening_cut base_price is_buying = Ok cut
      /\ bounds cut = Some (max_L, min_R)
      /\ SurrealNumber.__ge__ max_L min_R = true
      /\ NegotiationCut.find_simplest_in_gap cut = None)
  /\ negotiate_price self good_id city_id quantity is_buying
     = (total <- SurrealNumber.__mul__ base_price (Py.Int quantity) ;;
        Ok (Some total)).
Proof.
  intros P Hc Lo Hi.
  destruct (offers_stay_ordered _ Lo Hi) as [Buy Sell].
  apply ordered_offers_leave_no_gap; try assumption.
  destruct is_buying; assumption.
Qed.

Lemma opening_offers_leave_no_gap_witness :
  (exists cut max_L min_R,
      opening_cut (SurrealNumber.mk 126.29866666666665 (-1.25) 0) true = Ok cut
      /\ bounds cut = Some (max_L, min_R)
      /\ SurrealNumber.__ge__ max_L min_R = true
      /\ NegotiationCut.find_simplest_in_gap cut = None)
  /\ negotiate_price World.initial "glass" "carthage" 3 true
     = Ok (Some (SurrealNumber.mk 378.89599999999996 (-3.75) 0)).
Proof.
  refine (opening_offers_leave_no_gap World.initial "glass" "carthage" 3 true
            (SurrealNumber.mk 126.29866666666665 (-1.25) 0) _ _ _ _);
    vm_compute; reflexivity.
Defined.

End Negotiation.

(** ** Transactions *)

Section Trading.

Import GameState GameEngine.

Lemma select_In {A : Type} (items : list A) (choice : Z) (x : A) :
  select items choice = Some x -> In x items.
Proof.
  unfold select.
  destruct ((0 <=? choice) && (choice <? Z.of_nat (List.length items)));
    [|discriminate].
  apply nth_error_In.
Qed.

(** A settled price means the quote was computed, so the city exists. *)
Lemma negotiate_price_quoted (self : t) (good_id city_id : string)
    (quantity : Z) (is_buying : bool) (r : option Surreal) :
  negotiate_price self good_id city_id quantity is_buying = Ok r ->
  exists base_price city,
    get_price self good_id city_id is_buying = Ok base_price
    /\ Dict.get (cities self) city_id = Some city
    /\ (SurrealNumber.is_legal base_price = false -> r = None)
    /\ (SurrealNumber.is_legal base_price = true -> r <> None).
Proof.
  unfold negotiate_price. intros H.
  destruct (get_price self good_id city_id is_buying) as [base_price|] eqn:P;
    [|discriminate H].
  destruct (get_price_omega _ _ _ _ _ P) as (good & city & _ & _ & _ & C & _).
  exists base_price, city. split; [reflexivity|split; [exact C|]].
  simpl in H.
  destruct (SurrealNumber.is_legal base_price); simpl in H.
  - split; [intros E; discriminate E|]. intros _.
    unfold bind in H. res_inv. congruence.
  - split; [|intros E; discriminate E]. intros _. congruence.
Qed.

(** An illegal base price is refused: no price is settled. *)
Lemma illegal_base_price_gives_none (self : t) (good_id city_id : string)
    (quantity : Z) (is_buying : bool) (base_price : Surreal) :
  get_price self good_id city_id is_buying = Ok base_price ->
  SurrealNumber.is_legal base_price = false ->
  negotiate_price self good_id city_id quantity is_buying = Ok None.
Proof. unfold negotiate_price. intros -> L. simpl. rewrite L. reflexivity. Qed.

(** Any outcome of [buy_goods] other than a completed purchase leaves
    the state as it was. *)
Lemma buy_goods_atomic (state state' : t) (choice_input quantity_input : option Z)
    (r : Res report) :
  buy_goods state choice_input quantity_input = (r, state') ->
  (forall total_price, r <> Ok (Done total_price)) ->
  state' = state.
Proof.
  unfold buy_goods. intros H N.
  destruct (Dict.get (cities state) (current_city state)) as [city|];
    [|injection H as _ <-; reflexivity].
  destruct (filter _ (City.stock city)) as [|item rest] eqn:F;
    [injection H as _ <-; reflexivity|].
  destruct (quote_all state (item :: rest) true);
    [|injection H as _ <-; reflexivity].
  destruct choice_input as [typed|]; [|injection H as _ <-; reflexivity].
  destruct (select (item :: rest) (typed - 1)) as [[good_id max_stock]|] eqn:S;
    [|injection H as _ <-; reflexivity].
  destruct quantity_input as [quantity|]; [|injection H as _ <-; reflexivity].
  destruct ((1 <=? quantity) && (quantity <=? max_stock));
    [|injection H as _ <-; reflexivity].
  destruct (negotiate_price state good_id (current_city state) quantity true)
    as [[total_price|]|]; try (injection H as _ <-; reflexivity).
  destruct (can_afford state total_price); [|injection H as _ <-; reflexivity].
  destruct (Dict.get (City.stock city) good_id) as [in_stock|] eqn:G.
  - injection H as <- _. exfalso. exact (N total_price eq_refl).
  - exfalso. apply select_In in S. rewrite <- F in S.
    apply filter_In in S. destruct S as [S _].
    destruct (in_get _ _ _ S) as [v' G']. congruence.
Qed.

(** The same for [sell_goods]. *)
Lemma sell_goods_atomic (state state' : t) (choice_input quantity_input : option Z)
    (r : Res report) :
  sell_goods state choice_input quantity_input = (r, state') ->
  (forall total_price, r <> Ok (Done total_price)) ->
  state' = state.
Proof.
  unfold sell_goods. intros H N.
  destruct (cargo state) as [|item rest] eqn:Cg;
    [injection H as _ <-; reflexivity|].
  destruct (quote_all state (item :: rest) false);
    [|injection H as _ <-; reflexivity].
  destruct choice_input as [typed|]; [|injection H as _ <-; reflexivity].
  destruct (select (item :: rest) (typed - 1)) as [[good_id max_quantity]|] eqn:S;
    [|injection H as _ <-; reflexivity].
  destruct quantity_input as [quantity|]; [|injection H as _ <-; reflexivity].
  destruct ((1 <=? quantity) && (quantity <=? max_quantity));
    [|injection H as _ <-; reflexivity].
  destruct (negotiate_price state good_id (current_city state) quantity false)
    as [[total_price|]|] eqn:Np; try (injection H as _ <-; reflexivity).
  simpl in H. rewrite Cg in H.
  destruct (Dict.get (item :: rest) good_id) as [held|] eqn:G.
  - destruct (negotiate_price_quoted _ _ _ _ _ _ Np) as (_ & city & _ & C & _).
    rewrite C in H.
    injection H as <- _. exfalso. exact (N total_price eq_refl).
  - exfalso. apply select_In in S.
    destruct (in_get _ _ _ S) as [v' G']. congruence.
Qed.

(** What a completed purchase has passed: a quantity between 1 and the
    stock on offer, a settled price, and enough money for it. *)
Lemma buy_goods_done (state state' : t) (choice_input quantity_input : option Z)
    (total_price : Surreal) :
  buy_goods state choice_input quantity_input = (Ok (Done total_price), state') ->
  exists city good_id max_stock quantity,
    Dict.get (cities state) (current_city state) = Some city
    /\ In (good_id, max_stock) (City.stock city)
    /\ quantity_input = Some quantity
    /\ 1 <= quantity <= max_stock
    /\ negotiate_price state good_id (current_city state) quantity true
       = Ok (Some total_price)
    /\ can_afford state total_price = true.
Proof.
  unfold buy_goods. intros H.
  destruct (Dict.get (cities state) (current_city state)) as [city|];
    [|discriminate H].
  destruct (filter _ (City.stock city)) as [|item rest] eqn:F; [discriminate H|].
  destruct (quote_all state (item :: rest) true); [|discriminate H].
  destruct choice_input as [typed|]; [|discriminate H].
  destruct (select (item :: rest) (typed - 1)) as [[good_id max_stock]|] eqn:S;
    [|discriminate H].
  destruct quantity_input as [quantity|]; [|discriminate H].
  destruct ((1 <=? quantity) && (quantity <=? max_stock)) eqn:Q;
    [|discriminate H].
  destruct (negotiate_price state good_id (current_city state) quantity true)
    as [[total|]|] eqn:Np; try discriminate H.
  destruct (can_afford state total) eqn:Af; [|discriminate H].
  destruct (Dict.get (City.stock city) good_id); [|discriminate H].
  injection H as <- _.
  exists city, good_id, max_stock, quantity.
  apply select_In in S. rewrite <- F in S. apply filter_In in S.
  apply andb_true_iff in Q. destruct Q as [Q1 Q2].
  repeat split; try tauto; try reflexivity; try assumption; lia.
Qed.

Lemma sell_goods_done (state state' : t) (choice_input quantity_input : option Z)
    (total_price : Surreal) :
  sell_goods state choice_input quantity_input = (Ok (Done total_price), state') ->
  exists good_id max_quantity quantity,
    In (good_id, max_quantity) (cargo state)
    /\ quantity_input = Some quantity
    /\ 1 <= quantity <= max_quantity
    /\ negotiate_price state good_id (current_city state) quantity false
       = Ok (Some total_price).
Proof.
  unfold sell_goods. intros H.
  destruct (cargo state) as [|item rest] eqn:Cg; [discriminate H|].
  destruct (quote_all state (item :: rest) false); [|discriminate H].
  destruct choice_input as [typed|]; [|discriminate H].
  destruct (select (item :: rest) (typed - 1)) as [[good_id max_quantity]|] eqn:S;
    [|discriminate H].
  destruct quantity_input as [quantity|]; [|discriminate H].
  destruct ((1 <=? quantity) && (quantity <=? max_quantity)) eqn:Q;
    [|discriminate H].
  destruct (negotiate_price state good_id (current_city state) quantity false)
    as [[total|]|] eqn:Np; try discriminate H.
  simpl in H. rewrite Cg in H.
  destruct (Dict.get (item :: rest) good_id); [|discriminate H].
  destruct (Dict.get (cities state) (current_city state)); [|discriminate H].
  injection H as <- _.
  exists good_id, max_quantity, quantity.
  apply select_In in S.
  apply andb_true_iff in Q. destruct Q as [Q1 Q2].
  repeat split; try reflexivity; try assumption; lia.
Qed.

(** C6.  A rejected transaction is atomic.  Whatever a buy or a sell
    attempt ends with other than a completed transaction, the whole
    state (cash, cargo, city stock, statistics) is exactly what it was;
    and a transaction completes only with a quantity between 1 and the
    stock (buying) or the cargo held (selling), a settled price, which
    an illegal base price never gives, and, when buying, a price the
    player can afford. *)
Theorem rejected_transaction_changes_nothing :
  (forall (state state' : t) (choice_input quantity_input : option Z)
          (r : Res report),
      buy_goods state choice_input quantity_input = (r, state')
      \/ sell_goods state choice_input quantity_input = (r, state') ->
      (forall total_price, r <> Ok (Done total_price)) ->
      state' = state)
  /\ (forall (state state' : t) (choice_input quantity_input : option Z)
             (total_price : Surreal),
         buy_goods state choice_input quantity_input
         = (Ok (Done total_price), state') ->
         exists city good_id max_stock quantity,
           Dict.get (cities state) (current_city state) = Some city
           /\ In (good_id, max_stock) (City.stock city)
           /\ quantity_input = Some quantity
           /\ 1 <= quantity <= max_stock
           /\ negotiate_price state good_id (current_city state) quantity true
              = Ok (Some total_price)
           /\ can_afford state total_price = true)
  /\ (forall (state state' : t) (choice_input quantity_input : option Z)
             (total_price : Surreal),
         sell_goods state choice_input quantity_input
         = (Ok (Done total_price), state') ->
         exists good_id max_quantity quantity,
           In (good_id, max_quantity) (cargo state)
           /\ quantity_input = Some quantity
           /\ 1 <= quantity <= max_quantity
           /\ negotiate_price state good_id (current_city state) quantity false
              = Ok (Some total_price))
  /\ (forall (state : t) (good_id city_id : string) (quantity : Z)
             (is_buying : bool) (base_price : Surreal),
         get_price state good_id city_id is_buying = Ok base_price ->
         SurrealNumber.is_legal base_price = false ->
         negotiate_price state good_id city_id quantity is_buying = Ok None).
Proof.
  split; [|split; [|split]].
  - intros state state' c q r [H|H] N.
    + exact (buy_goods_atomic _ _ _ _ _ H N).
    + exact (sell_goods_atomic _ _ _ _ _ H N).
  - exact buy_goods_done.
  - exact sell_goods_done.
  - exact illegal_base_price_gives_none.
Qed.

(** Asking for more glass than Carthage holds changes nothing. *)
Lemma rejected_transaction_changes_nothing_witness :
  buy_goods World.initial (Some 1) (Some 19) = (Ok InvalidQuantity, World.initial)
  /\ World.initial = World.initial.
Proof.
  split; [vm_compute; reflexivity|].
  apply (proj1 rejected_transaction_changes_nothing World.initial World.initial
           (Some 1) (Some 19) (Ok InvalidQuantity)).
  - left. vm_compute. reflexivity.
  - intros total_price. discriminate.
Defined.

End Trading.

(** ** The supply scheduler *)

Section Supply.

Import GameState.

Lemma randint_range (lo hi : Z) (g : Random.t) :
  lo <= hi -> lo <= fst (Random.randint lo hi g) <= hi.
Proof.
  intros H. unfold Random.randint. simpl.
  pose proof (Z.mod_pos_bound (Random.raw g (Random.pos g)) (hi - lo + 1)).
  lia.
Qed.

Lemma get_default_set (d : Dict.t Z) (k j : string) (v : Z) :
  Dict.get_default (Dict.set d k v) j 0
  = if String.eqb j k then v else Dict.get_default d j 0.
Proof.
  unfold Dict.get_default.
  destruct (String.eqb j k) eqn:E.
  - apply String.eqb_eq in E. subst j. now rewrite get_set_same.
  - apply String.eqb_neq in E. now rewrite get_set_other.
Qed.

(** One step of the inner loop, whichever branch it takes: the good's
    stock becomes [refreshed ...] of a draw in range, the other goods
    keep theirs. *)
Lemma refresh_goods_step (goods : Dict.t Good.t) (city : City.t)
    (good_id : string) (base_amount : Z) (rest : list (string * Z))
    (stock : Dict.t Z) (g : Random.t) (msgs : list message)
    (e : option exn) (stock' : Dict.t Z) (g' : Random.t) (msgs' : list message) :
  refresh_goods goods city ((good_id, base_amount) :: rest) stock g msgs
  = (e, stock', g', msgs') ->
  (e <> None /\ stock' = stock)
  \/ exists d g1 msgs1,
       in_draw_range (City.is_specialty city good_id) d
       /\ refresh_goods goods city rest
            (Dict.set stock good_id
               (refreshed (City.is_specialty city good_id) base_amount
                          (Dict.get_default stock good_id 0) d))
            g1 msgs1
          = (e, stock', g', msgs').
Proof.
  cbn [refresh_goods]. unfold refreshed, in_draw_range.
  destruct (City.is_specialty city good_id).
  - pose proof (randint_range 2 8 g ltac:(lia)) as R.
    destruct (Random.randint 2 8 g) as [d g1]. simpl in R.
    destruct (Dict.get goods good_id) as [good|].
    + intros H. right. exists d, g1. eexists. split; [exact R|exact H].
    + intros [= <- <- _ _]. left. split; [discriminate|reflexivity].
  - pose proof (randint_range (-2) 4 g ltac:(lia)) as R.
    destruct (Random.randint (-2) 4 g) as [d g1]. simpl in R.
    destruct (Z.max 1 (base_amount + d) >? Dict.get_default stock good_id 0).
    + destruct (Dict.get goods good_id) as [good|].
      * intros H. right. exists d, g1. eexists. split; [exact R|exact H].
      * intros [= <- <- _ _]. left. split; [discriminate|reflexivity].
    + intros H. right. exists d, g1. eexists. split; [exact R|exact H].
Qed.

Lemma refreshed_ge (specialty : bool) (base_amount current d : Z) :
  current <= refreshed specialty base_amount current d.
Proof. unfold refreshed. destruct specialty; lia. Qed.

(** The inner loop never lowers a stock, however it ends. *)
Lemma refresh_goods_monotone (goods : Dict.t Good.t) (city : City.t)
    (base_stocks : list (string * Z)) :
  forall stock g msgs e stock' g' msgs',
    refresh_goods goods city base_stocks stock g msgs = (e, stock', g', msgs') ->
    forall k, Dict.get_default stock k 0 <= Dict.get_default stock' k 0.
Proof.
  induction base_stocks as [|[good_id base_amount] rest IH];
    intros stock g msgs e stock' g' msgs' H k.
  - simpl in H. injection H as _ <- _ _. lia.
  - destruct (refresh_goods_step _ _ _ _ _ _ _ _ _ _ _ _ H)
      as [[_ ->]|(d & g1 & msgs1 & _ & H1)]; [lia|].
    specialize (IH _ _ _ _ _ _ _ H1 k).
    rewrite get_default_set in IH.
    pose proof (refreshed_ge (City.is_specialty city good_id) base_amount
                  (Dict.get_default stock good_id 0) d).
    destruct (String.eqb k good_id) eqn:E; [|exact IH].
    apply String.eqb_eq in E. subst k. lia.
Qed.

Lemma refresh_cities_monotone (goods : Dict.t Good.t)
    (bsl : Dict.t (Dict.t Z)) (todo : list (string * City.t)) :
  forall g msgs e cities' g' msgs',
    refresh_cities goods bsl todo g msgs = (e, cities', g', msgs') ->
    forall city_id good_id,
      stock_in todo city_id good_id <= stock_in cities' city_id good_id.
Proof.
  induction todo as [|[cid city] rest IH];
    intros g msgs e cities' g' msgs' H city_id good_id.
  - simpl in H. injection H as _ <- _ _. lia.
  - simpl in H.
    destruct (Dict.get bsl cid) as [base_stocks|];
      [|injection H as _ <- _ _; lia].
    destruct (refresh_goods goods city base_stocks (City.stock city) g msgs)
      as [[[e1 stock1] g1] msgs1] eqn:R.
    pose proof (refresh_goods_monotone _ _ _ _ _ _ _ _ _ _ R good_id) as M.
    destruct e1 as [ex|].
    + injection H as _ <- _ _. unfold stock_in. simpl.
      destruct (String.eqb city_id cid); [exact M|lia].
    + destruct (refresh_cities goods bsl rest g1 msgs1)
        as [[[e2 rest'] g2] msgs2] eqn:R2.
      injection H as _ <- _ _. unfold stock_in. simpl.
      destruct (String.eqb city_id cid); [exact M|].
      exact (IH _ _ _ _ _ _ R2 city_id good_id).
Qed.

(** C7.  Supply refresh is monotonically non-decreasing: for every
    state and every random source, whether the refresh completes or is
    cut short by an exception, the stock of every good in every city is
    afterwards at least what it was before. *)
Theorem refresh_never_lowers_stock (self : t) (g : Random.t)
    (city_id good_id : string) :
  stock_of self city_id good_id
  <= stock_of (snd (fst (refresh_city_supplies self g))) city_id good_id.
Proof.
  unfold refresh_city_supplies.
  destruct (refresh_cities (goods self) (base_stock_levels self) (cities self) g [])
    as [[[e cities'] g'] msgs] eqn:R.
  pose proof (refresh_cities_monotone _ _ _ _ _ _ _ _ _ R city_id good_id) as M.
  destruct e; exact M.
Qed.

Lemma mem_keys_In {V : Type} (d : Dict.t V) (k : string) (v : V) :
  In (k, v) d -> Dict.mem k (Dict.keys d) = true.
Proof.
  intros I. apply mem_In. unfold Dict.keys.
  change k with (fst (k, v)). now apply in_map.
Qed.

(** A completed pass of the inner loop over a table with unique keys:
    every good of the table got its refreshed stock from one draw, every
    other good kept its stock. *)
Lemma refresh_goods_sets (goods : Dict.t Good.t) (city : City.t)
    (base_stocks : list (string * Z)) :
  forall stock g msgs stock' g' msgs',
    refresh_goods goods city base_stocks stock g msgs = (None, stock', g', msgs') ->
    Dict.unique (Dict.keys base_stocks) = true ->
    (forall k, Dict.mem k (Dict.keys base_stocks) = false ->
               Dict.get_default stock' k 0 = Dict.get_default stock k 0)
    /\ (forall good_id base_amount,
           In (good_id, base_amount) base_stocks ->
           exists d,
             in_draw_range (City.is_specialty city good_id) d
             /\ Dict.get_default stock' good_id 0
                = refreshed (City.is_specialty city good_id) base_amount
                            (Dict.get_default stock good_id 0) d).
Proof.
  induction base_stocks as [|[gid base] rest IH];
    intros stock g msgs stock' g' msgs' H U.
  - simpl in H. injection H as <- _ _.
    split; [reflexivity|intros ? ? []].
  - destruct (refresh_goods_step _ _ _ _ _ _ _ _ _ _ _ _ H)
      as [[N _]|(d & g1 & msgs1 & R & H1)]; [congruence|].
    simpl in U. apply andb_true_iff in U. destruct U as [Fresh U].
    apply negb_true_iff in Fresh.
    destruct (IH _ _ _ _ _ _ H1 U) as [Frame Sets].
    split.
    + intros k M. simpl in M. apply orb_false_iff in M. destruct M as [Ne M].
      rewrite (Frame k M), get_default_set, Ne. reflexivity.
    + intros good_id base_amount [I|I].
      * injection I as <- <-. exists d. split; [exact R|].
        rewrite (Frame gid Fresh), get_default_set, String.eqb_refl.
        reflexivity.
      * destruct (Sets _ _ I) as (d' & R' & E). exists d'. split; [exact R'|].
        rewrite E, get_default_set.
        destruct (String.eqb good_id gid) eqn:Eq; [|reflexivity].
        apply String.eqb_eq in Eq. subst good_id.
        apply mem_keys_In in I. congruence.
Qed.

(** A completed pass of the outer loop ran the inner loop, to its end,
    on every city and its base-stock table. *)
Lemma refresh_cities_sets (goods : Dict.t Good.t)
    (bsl : Dict.t (Dict.t Z)) (todo : list (string * City.t)) :
  forall g msgs cities' g' msgs',
    refresh_cities goods bsl todo g msgs = (None, cities', g', msgs') ->
    forall city_id city,
      Dict.get todo city_id = Some city ->
      exists base_stocks stock' g0 msgs0 g1 msgs1,
        Dict.get bsl city_id = Some base_stocks
        /\ Dict.get cities' city_id = Some (City.with_stock city stock')
        /\ refresh_goods goods city base_stocks (City.stock city) g0 msgs0
           = (None, stock', g1, msgs1).
Proof.
  induction todo as [|[cid c] rest IH];
    intros g msgs cities' g' msgs' H city_id city G.
  - discriminate G.
  - simpl in H.
    destruct (Dict.get bsl cid) as [base_stocks|] eqn:B; [|discriminate H].
    destruct (refresh_goods goods c base_stocks (City.stock c) g msgs)
      as [[[e1 stock1] g1] msgs1] eqn:R.
    destruct e1 as [ex|]; [discriminate H|].
    destruct (refresh_cities goods bsl rest g1 msgs1)
      as [[[e2 rest'] g2] msgs2] eqn:R2.
    injection H as -> <- _ _.
    simpl in G. simpl.
    destruct (String.eqb city_id cid) eqn:E.
    + apply String.eqb_eq in E. subst cid. injection G as <-.
      exists base_stocks, stock1, g, msgs, g1, msgs1. auto.
    + exact (IH _ _ _ _ _ R2 city_id city G).
Qed.

(** C8.  A refresh that completes sets, for each good of each city's
    base-stock table, the stock to max(current, base + d) with a draw d
    in [2, 8] when the good is a specialty of the city, and to
    max(current, max(1, base + d)) with d in [-2, 4] otherwise.  In
    particular purple dye in Tyre, a specialty with base stock 5 and
    current stock 5, is restocked to max(5, 5 + 8) = 13 when the draw
    is 8. *)
Theorem refresh_sets_stock :
  (forall (self self' : t) (g g' : Random.t) (msgs : list message)
          (city_id good_id : string) (city : City.t)
          (base_stocks : Dict.t Z) (base_amount : Z),
      refresh_city_supplies self g = (Ok msgs, self', g') ->
      Dict.get (cities self) city_id = Some city ->
      Dict.get (base_stock_levels self) city_id = Some base_stocks ->
      Dict.unique_keys base_stocks = true ->
      Dict.get base_stocks good_id = Some base_amount ->
      exists d,
        in_draw_range (City.is_specialty city good_id) d
        /\ stock_of self' city_id good_id
           = refreshed (City.is_specialty city good_id) base_amount
                       (stock_of self city_id good_id) d)
  /\ (stock_of World.initial "tyre" "purple_dye" = 5
      /\ City.is_specialty World.tyre "purple_dye" = true
      /\ Dict.get World.base_stock_levels "tyre"
         = Some [("purple_dye", 5); ("glass", 15); ("cedar", 8)]
      /\ fst (Random.randint 2 8 Examples.sixes) = 8
      /\ stock_of (snd (fst (refresh_city_supplies World.initial Examples.sixes)))
                  "tyre" "purple_dye" = 13
      /\ refreshed true 5 5 8 = 13).
Proof.
  split; [|repeat split; vm_compute; reflexivity].
  intros self self' g g' msgs city_id good_id city base_stocks base_amount
         H C B U G.
  unfold refresh_city_supplies in H.
  destruct (refresh_cities (goods self) (base_stock_levels self) (cities self) g [])
    as [[[e cities'] g1] msgs1] eqn:R.
  destruct e as [ex|]; [discriminate H|].
  injection H as _ <- _.
  destruct (refresh_cities_sets _ _ _ _ _ _ _ _ R city_id city C)
    as (bs & stock' & g0 & msgs0 & g2 & msgs2 & B' & C' & RG).
  rewrite B in B'. injection B' as <-.
  destruct (refresh_goods_sets _ _ _ _ _ _ _ _ _ RG U) as [_ Sets].
  destruct (Sets good_id base_amount (get_item _ _ _ G)) as (d & Rg & E).
  exists d. split; [exact Rg|].
  unfold stock_of. simpl. rewrite C, C'. simpl. exact E.
Qed.

Lemma refresh_sets_stock_witness :
  exists d,
    in_draw_range true d
    /\ stock_of (snd (fst (refresh_city_supplies World.initial Examples.sixes)))
                "tyre" "purple_dye"
       = refreshed true 5 5 d.
Proof.
  refine (proj1 refresh_sets_stock World.initial _ Examples.sixes _ _
            "tyre" "purple_dye" World.tyre
            [("purple_dye", 5); ("glass", 15); ("cedar", 8)] 5 _ _ _ _ _);
    [vm_compute; reflexivity| reflexivity | reflexivity | reflexivity | reflexivity].
Defined.

End Supply.

Section KeyOrder.

Lemma SFcompare_number (x y : spec_float) :
  SFcompare x y <> None <-> is_number x = true /\ is_number y = true.
Proof.
  destruct x as [[]|[]| |[] m e], y as [[]|[]| |[] m' e']; simpl;
    intuition congruence.
Qed.

Lemma SFcompare_Lt (x y : spec_float) :
  SFcompare x y = Some Lt
  <-> is_number x = true /\ is_number y = true /\ key_lt (order_key x) (order_key y).
Proof.
  unfold key_lt.
  destruct x as [[]|[]| |[] m e], y as [[]|[]| |[] m' e']; simpl;
    try rewrite compare_cont_Z;
    try destruct (Z.compare_spec e e'); try destruct (Z.compare_spec (Zpos m) (Zpos m'));
    simpl;
    (split;
     [ try discriminate; intros _; repeat split; lia
     | intros (N1 & N2 & K); try discriminate; try reflexivity; lia ]).
Qed.

Lemma SFcompare_Eq (x y : spec_float) :
  SFcompare x y = Some Eq
  <-> is_number x = true /\ is_number y = true /\ order_key x = order_key y.
Proof.
  destruct x as [[]|[]| |[] m e], y as [[]|[]| |[] m' e']; simpl;
    try rewrite compare_cont_Z;
    try destruct (Z.compare_spec e e'); try destruct (Z.compare_spec (Zpos m) (Zpos m'));
    simpl;
    (split;
     [ try discriminate; intros _; repeat split; congruence
     | intros (N1 & N2 & K); try discriminate; try reflexivity;
       injection K; intros; lia ]).
Qed.

Lemma ltb_key (x y : float) :
  (x <? y)%float = true
  <-> is_number (Prim2SF x) = true /\ is_number (Prim2SF y) = true
      /\ key_lt (order_key (Prim2SF x)) (order_key (Prim2SF y)).
Proof.
  rewrite ltb_spec, <- SFcompare_Lt. unfold SFltb.
  destruct (SFcompare (Prim2SF x) (Prim2SF y)) as [[]|]; split; congruence.
Qed.

Lemma eqb_key (x y : float) :
  (x =? y)%float = true
  <-> is_number (Prim2SF x) = true /\ is_number (Prim2SF y) = true
      /\ order_key (Prim2SF x) = order_key (Prim2SF y).
Proof.
  rewrite eqb_spec, <- SFcompare_Eq. unfold SFeqb.
  destruct (SFcompare (Prim2SF x) (Prim2SF y)) as [[]|]; split; congruence.
Qed.

Lemma leb_key (x y : float) :
  (x <=? y)%float = true <-> (x <? y)%float = true \/ (x =? y)%float = true.
Proof.
  rewrite leb_spec, ltb_spec, eqb_spec. unfold SFleb, SFltb, SFeqb.
  destruct (SFcompare (Prim2SF x) (Prim2SF y)) as [[]|]; intuition congruence.
Qed.

Lemma ltb_trans (x y z : float) :
  (x <? y)%float = true -> (y <? z)%float = true -> (x <? z)%float = true.
Proof.
  rewrite !ltb_key. unfold key_lt.
  destruct (order_key (Prim2SF x)) as [[? ?] ?], (order_key (Prim2SF y)) as [[? ?] ?],
           (order_key (Prim2SF z)) as [[? ?] ?]; simpl.
  intros (? & ? & ?) (? & ? & ?). repeat split; try assumption. lia.
Qed.

Lemma ltb_eqb_trans (x y z : float) :
  (x <? y)%float = true -> (y =? z)%float = true -> (x <? z)%float = true.
Proof.
  rewrite !ltb_key, eqb_key.
  intros (? & ? & ?) (? & ? & E). rewrite <- E. auto.
Qed.

Lemma eqb_ltb_trans (x y z : float) :
  (x =? y)%float = true -> (y <? z)%float = true -> (x <? z)%float = true.
Proof.
  rewrite !ltb_key, eqb_key.
  intros (? & ? & E) (? & ? & ?). rewrite E. auto.
Qed.

Lemma eqb_trans (x y z : float) :
  (x =? y)%float = true -> (y =? z)%float = true -> (x =? z)%float = true.
Proof.
  rewrite !eqb_key.
  intros (? & ? & E) (? & ? & E'). rewrite E, E'. auto.
Qed.

Lemma eqb_ltb_false (x y : float) :
  (x =? y)%float = true -> (x <? y)%float = false.
Proof.
  intros E. destruct (x <? y)%float eqn:L; [|reflexivity].
  apply ltb_neq in L. congruence.
Qed.

End KeyOrder.

Section PriceOrder.

Import SurrealNumber.
Local Open Scope float_scope.

(** Which axis decides [x < y]. *)
Lemma lt_cases (x y : Surreal) :
  __lt__ x y = true <->
  (c x <? c y) = true
  \/ ((c x =? c y) = true /\ (a x <? a y) = true)
  \/ ((c x =? c y) = true /\ (a x =? a y) = true /\ (b x <? b y) = true).
Proof.
  unfold __lt__.
  destruct (c x =? c y) eqn:Ec; simpl.
  - pose proof (eqb_ltb_false _ _ Ec) as Lc.
    destruct (a x =? a y) eqn:Ea; simpl.
    + pose proof (eqb_ltb_false _ _ Ea) as La. intuition congruence.
    + intuition congruence.
  - split; [auto|]. intros [H|[[H _]|[H _]]]; [exact H|discriminate|discriminate].
Qed.

(** X1.  The lexicographic comparison is asymmetric, hence irreflexive. *)
Theorem lt_is_asymmetric (x y : Surreal) :
  __lt__ x y = true -> __lt__ y x = false.
Proof.
  intros H. destruct (__lt__ y x) eqn:H'; [exfalso|reflexivity].
  apply lt_cases in H, H'.
  destruct H as [H|[[E H]|(E & E2 & H)]], H' as [H'|[[E' H']|(E' & E2' & H')]];
    repeat match goal with
    | L : (?u <? ?v) = true, L' : (?v <? ?u) = true |- _ =>
        apply ltb_asym in L; congruence
    | L : (?u <? ?v) = true, L' : (?v =? ?u) = true |- _ =>
        apply ltb_neq in L; rewrite eqb_sym in L; congruence
    | L : (?u <? ?v) = true, L' : (?u =? ?v) = true |- _ =>
        apply ltb_neq in L; congruence
    end.
Qed.

Lemma lt_is_asymmetric_witness :
  __lt__ (mk 120 (-1) 0) (mk 220 (-3) 1) = true
  /\ __lt__ (mk 220 (-3) 1) (mk 120 (-1) 0) = false.
Proof.
  split; [reflexivity|].
  apply (lt_is_asymmetric (mk 120 (-1) 0) (mk 220 (-3) 1)). reflexivity.
Defined.

(** X2.  The lexicographic comparison is transitive. *)
Theorem lt_is_transitive (x y z : Surreal) :
  __lt__ x y = true -> __lt__ y z = true -> __lt__ x z = true.
Proof.
  intros H H'. apply lt_cases. apply lt_cases in H, H'.
  destruct H as [H|[[E H]|(E & E2 & H)]], H' as [H'|[[E' H']|(E' & E2' & H')]].
  - left. eapply ltb_trans; eassumption.
  - left. eapply ltb_eqb_trans; eassumption.
  - left. eapply ltb_eqb_trans; eassumption.
  - left. eapply eqb_ltb_trans; eassumption.
  - right. left. split; [eapply eqb_trans|eapply ltb_trans]; eassumption.
  - right. left. split; [eapply eqb_trans|eapply ltb_eqb_trans]; eassumption.
  - left. eapply eqb_ltb_trans; eassumption.
  - right. left. split; [eapply eqb_trans|eapply eqb_ltb_trans]; eassumption.
  - right. right. split; [eapply eqb_trans; eassumption|].
    split; [eapply eqb_trans|eapply ltb_trans]; eassumption.
Qed.

Lemma lt_is_transitive_witness :
  __lt__ (mk 120 (-1) 0) (mk 120 0 0) = true
  /\ __lt__ (mk 120 0 0) (mk 0 0 1) = true
  /\ __lt__ (mk 120 (-1) 0) (mk 0 0 1) = true.
Proof.
  split; [reflexivity|split; [reflexivity|]].
  apply (lt_is_transitive (mk 120 (-1) 0) (mk 120 0 0) (mk 0 0 1)); reflexivity.
Defined.

End PriceOrder.

(** ** The algebra of prices *)

Section PriceAlgebra.

Lemma SFadd_comm (x y : spec_float) : SFadd prec emax x y = SFadd prec emax y x.
Proof.
  destruct x as [[]|[]| |sx mx ex], y as [[]|[]| |sy my ey]; try reflexivity.
  cbn [SFadd]. rewrite (Z.min_comm ey ex), Z.add_comm. reflexivity.
Qed.

Lemma add_comm (x y : float) : (x + y)%float = (y + x)%float.
Proof.
  apply Prim2SF_inj. rewrite !add_spec. apply SFadd_comm.
Qed.

(** The sign given to the rounding only marks its result. *)
Lemma SFabs_round (s : bool) (m : positive) (e : Z) :
  SFabs (binary_round prec emax s m e) = SFabs (binary_round prec emax false m e).
Proof.
  unfold binary_round, binary_round_aux.
  destruct (shl_align m e _) as [mz ez].
  destruct (shr_fexp prec emax (Zpos mz) ez loc_Exact) as [mrs' e'].
  destruct (shr_fexp prec emax _ e' loc_Exact) as [mrs'' e''].
  destruct (shr_m mrs''); [reflexivity| |reflexivity].
  destruct (e'' <=? emax - prec); reflexivity.
Qed.

Lemma SFabs_normalize_opp (n e : Z) :
  SFabs (binary_normalize prec emax (- n) e false)
  = SFabs (binary_normalize prec emax n e false).
Proof.
  destruct n as [|p|p]; cbn [Z.opp binary_normalize]; [reflexivity| |].
  - apply SFabs_round.
  - symmetry. apply SFabs_round.
Qed.

Lemma SFabs_sub_sym (x y : spec_float) :
  SFabs (SFsub prec emax x y) = SFabs (SFsub prec emax y x).
Proof.
  destruct x as [[]|[]| |sx mx ex], y as [[]|[]| |sy my ey]; try reflexivity.
  cbn [SFsub]. rewrite (Z.min_comm ey ex).
  rewrite <- SFabs_normalize_opp. f_equal. f_equal. lia.
Qed.

Lemma abs_sub_sym (x y : float) : abs (x - y) = abs (y - x).
Proof.
  apply Prim2SF_inj. rewrite !abs_spec, !sub_spec. apply SFabs_sub_sym.
Qed.

(** A finite float, by its representation. *)
Lemma is_finite_inv (x : float) :
  is_finite x = true ->
  (exists s, Prim2SF x = S754_zero s) \/ (exists s m e, Prim2SF x = S754_finite s m e).
Proof.
  unfold is_finite, is_nan, is_infinity.
  rewrite negb_true_iff, orb_false_iff, negb_false_iff.
  rewrite !eqb_spec, abs_spec.
  change (Prim2SF infinity) with (S754_infinity false).
  destruct (Prim2SF x) as [s|s| |s m e]; intros [N I]; try discriminate; eauto.
Qed.

Lemma SFsub_self (x : spec_float) :
  (exists s, x = S754_zero s) \/ (exists s m e, x = S754_finite s m e) ->
  SFsub prec emax x x = S754_zero false.
Proof.
  intros [[s ->]|(s & m & e & ->)].
  - destruct s; reflexivity.
  - cbn [SFsub]. rewrite Z.sub_diag. reflexivity.
Qed.

Lemma sub_self_close (x : float) :
  is_finite x = true -> (abs (x - x) <? 1e-10)%float = true.
Proof.
  intros F. rewrite ltb_spec, abs_spec, sub_spec.
  unfold SF64sub. rewrite (SFsub_self _ (is_finite_inv _ F)). reflexivity.
Qed.

(** Rounding a canonical mantissa shifted left brings it back. *)
Lemma binary_round_aux_shifted (s : bool) (q : positive) (E : Z) (t : nat) :
  canonical_mantissa prec emax q E = true -> E <= 971 ->
  binary_round_aux prec emax s (Zpos (shl q t)) (E - Z.of_nat t) loc_Exact
  = S754_finite s q E.
Proof.
  intros C B. pose proof C as C'. unfold canonical_mantissa in C'.
  apply Z.eqb_eq in C'.
  assert (H : shr_fexp prec emax (Zpos (shl q t)) (E - Z.of_nat t) loc_Exact
              = (exact q, E)).
  { unfold shr_fexp. cbn [Zdigits2 shr_record_of_loc].
    rewrite digits_shl.
    replace (Zpos (digits2_pos q) + Z.of_nat t + (E - Z.of_nat t))
      with (Zpos (digits2_pos q) + E) by lia.
    rewrite C'.
    replace (E - (E - Z.of_nat t)) with (Z.of_nat t) by lia.
    unfold shr. destruct t as [|t].
    - simpl Z.of_nat. cbn iota. f_equal. lia.
    - assert (Z : Z.of_nat (S t) = Zpos (Pos.of_succ_nat t)) by (simpl; reflexivity).
      rewrite Z. cbn iota.
      rewrite iter_pos_nat, SuccNat2Pos.id_succ.
      fold (exact (shl q (S t))). rewrite shr_exact. f_equal. lia. }
  unfold binary_round_aux. rewrite H.
  cbn [exact shr_m loc_of_shr_record round_nearest_even].
  pose proof (binary_round_aux_canonical s q E C B) as R.
  unfold binary_round_aux in R.
  cbn [exact shr_m loc_of_shr_record round_nearest_even] in R.
  destruct (shr_fexp prec emax (Zpos q) E loc_Exact) as [mrs e0] eqn:H0.
  assert (H1 : (mrs, e0) = (exact q, E)).
  { rewrite <- H0. unfold shr_fexp. cbn [Zdigits2 shr_record_of_loc].
    rewrite C', Z.sub_diag. reflexivity. }
  injection H1 as -> ->.
  cbn [exact shr_m loc_of_shr_record round_nearest_even] in R.
  rewrite H0 in R. exact R.
Qed.

Lemma SFmul_one (x : spec_float) :
  valid_binary x = true ->
  SFmul prec emax x (S754_finite false 4503599627370496 (-52)) = x.
Proof.
  destruct x as [[]|[]| |s m e]; try reflexivity.
  intros V. destruct (valid_finite _ _ _ V) as [C B].
  cbn [SFmul]. rewrite xorb_false_r.
  assert (P : (m * 4503599627370496)%positive = shl m 52).
  { apply Pos2Z.inj. rewrite Zpos_shl, Pos2Z.inj_mul. reflexivity. }
  rewrite P.
  replace (e + -52) with (e - Z.of_nat 52) by reflexivity.
  apply binary_round_aux_shifted; assumption.
Qed.

Lemma mul_one (x : float) : (x * 1)%float = x.
Proof.
  apply Prim2SF_inj. rewrite mul_spec. unfold SF64mul.
  change (Prim2SF 1) with (S754_finite false 4503599627370496 (-52)).
  apply SFmul_one, Prim2SF_valid.
Qed.

Import SurrealNumber.

(** X3.  Equality within the tolerance is symmetric. *)
Theorem eq_is_symmetric (x y : Surreal) : __eq__ x y = __eq__ y x.
Proof.
  unfold __eq__.
  rewrite (abs_sub_sym (a x)), (abs_sub_sym (b x)), (abs_sub_sym (c x)).
  reflexivity.
Qed.

(** X4.  A price whose three components are finite equals itself. *)
Theorem eq_is_reflexive_on_finite (x : Surreal) :
  is_finite (a x) = true -> is_finite (b x) = true -> is_finite (c x) = true ->
  __eq__ x x = true.
Proof.
  intros A B C. unfold __eq__.
  rewrite (sub_self_close _ A), (sub_self_close _ B), (sub_self_close _ C).
  reflexivity.
Qed.

Lemma eq_is_reflexive_on_finite_witness :
  __eq__ (mk 1240 (-1) 0) (mk 1240 (-1) 0) = true.
Proof.
  apply (eq_is_reflexive_on_finite (mk 1240 (-1) 0)); reflexivity.
Defined.

(** X5.  Addition of prices is commutative, exactly. *)
Theorem add_is_commutative (x y : Surreal) : __add__ x y = __add__ y x.
Proof.
  unfold __add__.
  rewrite (add_comm (a x)), (add_comm (b x)), (add_comm (c x)). reflexivity.
Qed.

(** X6.  Multiplying a price by the integer 1 returns the same price. *)
Theorem mul_by_one (x : Surreal) : __mul__ x (Py.Int 1) = Ok x.
Proof.
  unfold __mul__.
  change (Py.to_float (Py.Int 1)) with (@Ok float 1%float).
  cbn [bind]. rewrite !mul_one. destruct x; reflexivity.
Qed.

End PriceAlgebra.

(** ** The negotiation cut *)

Section Cut.

Import SurrealNumber NegotiationCut.

Lemma max_from_In (ls : list Surreal) :
  forall best, In (max_from best ls) (best :: ls).
Proof.
  induction ls as [|item ls IH]; intros best; simpl; [now left|].
  destruct (IH (if __gt__ item best then item else best)) as [H|H].
  - destruct (__gt__ item best); rewrite <- H; auto.
  - auto.
Qed.

Lemma min_from_In (rs : list Surreal) :
  forall best, In (min_from best rs) (best :: rs).
Proof.
  induction rs as [|item rs IH]; intros best; simpl; [now left|].
  destruct (IH (if __lt__ item best then item else best)) as [H|H].
  - destruct (__lt__ item best); rewrite <- H; auto.
  - auto.
Qed.

Lemma legal_below (x y : float) :
  (x =? y)%float = true -> (y <=? 0)%float = true -> (x <=? 0)%float = true.
Proof.
  intros E L. apply leb_key. apply leb_key in L. destruct L as [L|L].
  - left. eapply eqb_ltb_trans; eassumption.
  - right. eapply eqb_trans; eassumption.
Qed.

(** X7.  A price found in the gap is the midpoint, on the real axis, of
    an offer of L and an offer of R that are strictly ordered; its
    infinitesimal part is zero, its infinite part is the larger of the
    two, and it is legal whenever the offer of R is. *)
Theorem gap_price_lies_between_offers (cut : NegotiationCut.t) (p : Surreal) :
  find_simplest_in_gap cut = Some p ->
  exists l r,
    In l (L cut) /\ In r (R cut)
    /\ __lt__ l r = true
    /\ a p = ((a l + a r) / 2)%float
    /\ b p = 0%float
    /\ c p = Py.max (c l) (c r)
    /\ (is_legal r = true -> is_legal p = true).
Proof.
  unfold find_simplest_in_gap.
  destruct (L cut) as [|l0 ls]; [discriminate|].
  destruct (R cut) as [|r0 rs]; [discriminate|].
  pose proof (max_from_In ls l0) as IL. pose proof (min_from_In rs r0) as IR.
  set (l := max_from l0 ls) in *. set (r := min_from r0 rs) in *.
  unfold __ge__. destruct (__lt__ l r) eqn:Lt; [|discriminate].
  cbn [negb]. intros [= <-]. exists l, r.
  repeat split; try assumption.
  unfold is_legal, Py.max. cbn [c]. intros Lr.
  destruct (c l <? c r)%float eqn:Lc; [exact Lr|].
  apply lt_cases in Lt. destruct Lt as [H|[[E _]|(E & _)]]; [congruence| |];
    exact (legal_below _ _ E Lr).
Qed.

Lemma gap_price_lies_between_offers_witness :
  exists l r,
    In l [SurrealNumber.mk 100 0 0] /\ In r [SurrealNumber.mk 110 0 0]
    /\ __lt__ l r = true
    /\ a (SurrealNumber.mk 105 0 0) = ((a l + a r) / 2)%float
    /\ b (SurrealNumber.mk 105 0 0) = 0%float
    /\ c (SurrealNumber.mk 105 0 0) = Py.max (c l) (c r)
    /\ (is_legal r = true -> is_legal (SurrealNumber.mk 105 0 0) = true).
Proof.
  apply (gap_price_lies_between_offers
           (NegotiationCut.mk [SurrealNumber.mk 100 0 0] [SurrealNumber.mk 110 0 0])
           (SurrealNumber.mk 105 0 0)).
  reflexivity.
Defined.

End Cut.

(** ** Quotes *)

Section Quotes.

Import GameState.
Local Open Scope float_scope.

Lemma float_of_int_raises (n : Z) (e : exn) :
  Py.float_of_int n = Raise e -> e = OverflowError.
Proof.
  unfold Py.float_of_int, Py.finite_or_overflow.
  destruct (is_infinity _); congruence.
Qed.

Lemma int_truediv_raises (n d : Z) (e : exn) :
  Py.int_truediv n d = Raise e -> e <> KeyError.
Proof.
  unfold Py.int_truediv, Py.finite_or_overflow.
  destruct (d =? 0)%Z; [congruence|].
  destruct (is_infinity _); congruence.
Qed.

Lemma float_truediv_raises (x y : float) (e : exn) :
  Py.float_truediv x y = Raise e -> e = ZeroDivisionError.
Proof. unfold Py.float_truediv. destruct (y =? 0); congruence. Qed.

Lemma int_mul_float_raises (n : Z) (f : float) (e : exn) :
  Py.int_mul_float n f = Raise e -> e = OverflowError.
Proof.
  unfold Py.int_mul_float, bind.
  destruct (Py.float_of_int n) eqn:F; [discriminate|].
  intros [= <-]. exact (float_of_int_raises _ _ F).
Qed.

(** X8.  The pricing engine raises KeyError exactly when the good or
    the city is unknown. *)
Theorem get_price_key_error (self : t) (good_id city_id : string)
    (is_buying : bool) :
  get_price self good_id city_id is_buying = Raise KeyError
  <-> Dict.get (goods self) good_id = None
      \/ Dict.get (cities self) city_id = None.
Proof.
  unfold get_price, Dict.subscript.
  destruct (Dict.get (goods self) good_id) as [good|]; cbn [bind];
    [|split; [now left|reflexivity]].
  destruct (Dict.get (cities self) city_id) as [city|]; cbn [bind];
    [|split; [now right|reflexivity]].
  split; [|intros [H|H]; discriminate H].
  intros H. exfalso. revert H.
  destruct (Py.int_truediv _ 10) as [stock_tenth|e] eqn:D; cbn [bind];
    [|intros [= ->]; exact (int_truediv_raises _ _ _ D eq_refl)].
  destruct (Py.int_mul_float _ 0.02) as [cargo_penalty|e] eqn:M; cbn [bind];
    [|intros [= ->]; apply int_mul_float_raises in M; discriminate M].
  destruct is_buying.
  - destruct (Py.float_truediv 1.0 _) as [inv|e] eqn:V; cbn [bind];
      [|intros [= ->]; apply float_truediv_raises in V; discriminate V].
    destruct (City.is_specialty city good_id); cbn [bind];
      (destruct (Py.int_mul_float _ (-0.15)) as [rep|e] eqn:R; cbn [bind];
       [discriminate|intros [= ->]; apply int_mul_float_raises in R; discriminate R]).
  - destruct (Py.float_truediv _ _) as [sm|e] eqn:V; cbn [bind];
      [|intros [= ->]; apply float_truediv_raises in V; discriminate V].
    destruct (City.is_specialty city good_id); cbn [bind];
      (destruct (Py.int_mul_float _ (-0.15)) as [rep|e] eqn:R; cbn [bind];
       [discriminate|intros [= ->]; apply int_mul_float_raises in R; discriminate R]).
Qed.

(** X9.  A good that is not a monopoly is never restricted: its quote
    has no infinite part, whatever the city's modifier says. *)
Theorem plain_good_is_never_restricted (self : t) (good_id city_id : string)
    (is_buying : bool) (good : Good.t) (price : Surreal) :
  Dict.get (goods self) good_id = Some good ->
  Good.monopoly good = false ->
  get_price self good_id city_id is_buying = Ok price ->
  SurrealNumber.c price = 0 /\ SurrealNumber.is_legal price = true.
Proof.
  intros G M H.
  destruct (get_price_omega _ _ _ _ _ H) as (good' & city & a0 & b0 & G' & _ & Hc).
  rewrite G in G'. injection G' as <-.
  assert (Z : SurrealNumber.c price = 0).
  { rewrite Hc. apply apply_charters_cleared. unfold restriction. cbn.
    rewrite M. destruct (Dict.get (City.modifiers city) good_id); reflexivity. }
  split; [exact Z|]. unfold SurrealNumber.is_legal. rewrite Z. reflexivity.
Qed.

Lemma plain_good_is_never_restricted_witness :
  exists price,
    get_price World.initial "glass" "carthage" true = Ok price
    /\ SurrealNumber.c price = 0 /\ SurrealNumber.is_legal price = true.
Proof.
  eexists. split; [vm_compute; reflexivity|].
  apply (plain_good_is_never_restricted World.initial "glass" "carthage" true
           (Good.mk "glass" "Glass" 120 0 false false false));
    [reflexivity|reflexivity|vm_compute; reflexivity].
Defined.

(** The charter loop leaves the real and the infinitesimal parts alone
    and either keeps the infinite part or clears it. *)
Lemma apply_charters_shape (chs : list Charter.t) (city_id good_id : string)
    (p : Surreal) :
  SurrealNumber.a (apply_charters chs city_id good_id p) = SurrealNumber.a p
  /\ SurrealNumber.b (apply_charters chs city_id good_id p) = SurrealNumber.b p
  /\ (SurrealNumber.c (apply_charters chs city_id good_id p) = SurrealNumber.c p
      \/ SurrealNumber.c (apply_charters chs city_id good_id p) = 0).
Proof.
  revert p. induction chs as [|ch chs IH]; intros p; simpl; [auto|].
  destruct (Charter.applies_to ch city_id good_id).
  - destruct (IH (SurrealNumber.mk (SurrealNumber.a p) (SurrealNumber.b p) 0))
      as (A & B & C).
    simpl in A, B, C. repeat split; try assumption. right. tauto.
  - apply IH.
Qed.

(** X10.  Charters touch only the infinite part of a quote: without
    them the engine returns a quote with the same real and infinitesimal
    parts, and the infinite part is either the same or cleared to 0. *)
Theorem charters_touch_only_the_infinite_part (self : t)
    (good_id city_id : string) (is_buying : bool) (price : Surreal) :
  get_price self good_id city_id is_buying = Ok price ->
  exists unchartered,
    get_price (with_charters self []) good_id city_id is_buying = Ok unchartered
    /\ SurrealNumber.a price = SurrealNumber.a unchartered
    /\ SurrealNumber.b price = SurrealNumber.b unchartered
    /\ (SurrealNumber.c price = SurrealNumber.c unchartered
        \/ SurrealNumber.c price = 0).
Proof.
  unfold get_price, Dict.subscript. cbn [with_charters goods cities charters cargo reputation apply_charters].
  destruct (Dict.get (goods self) good_id) as [good|]; cbn [bind]; [|discriminate].
  destruct (Dict.get (cities self) city_id) as [city|]; cbn [bind]; [|discriminate].
  match goal with
  | |- context [apply_charters (charters self) city_id good_id ?p] =>
      destruct (apply_charters_shape (charters self) city_id good_id p)
        as (A & B & C);
      generalize dependent (apply_charters (charters self) city_id good_id p);
      generalize p
  end.
  intros p q A B C.
  destruct (Py.int_truediv _ 10) as [stock_tenth|]; cbn [bind]; [|discriminate].
  destruct (Py.int_mul_float _ 0.02) as [cargo_penalty|]; cbn [bind]; [|discriminate].
  destruct is_buying.
  - destruct (Py.float_truediv 1.0 _) as [inv|]; cbn [bind]; [|discriminate].
    destruct (City.is_specialty city good_id); cbn [bind];
      (destruct (Py.int_mul_float _ (-0.15)) as [rep|]; cbn [bind]; [|discriminate]);
      intros [= <-]; eexists; (split; [reflexivity|]); cbn;
      rewrite A, B; repeat split; exact C.
  - destruct (Py.float_truediv _ _) as [sm|]; cbn [bind]; [|discriminate].
    destruct (City.is_specialty city good_id); cbn [bind];
      (destruct (Py.int_mul_float _ (-0.15)) as [rep|]; cbn [bind]; [|discriminate]);
      intros [= <-]; eexists; (split; [reflexivity|]); cbn;
      rewrite A, B; repeat split; exact C.
Qed.

Lemma charters_touch_only_the_infinite_part_witness :
  exists price unchartered,
    get_price Examples.chartered "purple_dye" "gadir" true = Ok price
    /\ get_price (with_charters Examples.chartered []) "purple_dye" "gadir" true
       = Ok unchartered
    /\ SurrealNumber.a price = SurrealNumber.a unchartered
    /\ SurrealNumber.b price = SurrealNumber.b unchartered
    /\ (SurrealNumber.c price = SurrealNumber.c unchartered
        \/ SurrealNumber.c price = 0).
Proof.
  eexists.
  destruct (charters_touch_only_the_infinite_part Examples.chartered
              "purple_dye" "gadir" true _ ltac:(vm_compute; reflexivity))
    as (u & H).
  exists u. split; [vm_compute; reflexivity|exact H].
Defined.

Lemma max_floor (y : float) : (0.7 <=? Py.max 0.7 y) = true.
Proof.
  unfold Py.max. destruct (0.7 <? y) eqn:L; [|reflexivity].
  apply leb_key. now left.
Qed.

(** X11.  Minimum 30% loss protection: a selling quote's real part is
    the listed price times a factor that is never below 0.7, whatever
    the stock, the holdings and the specialties. *)
Theorem selling_keeps_seventy_percent (self : t) (good_id city_id : string)
    (price : Surreal) :
  get_price self good_id city_id false = Ok price ->
  exists good city factor,
    Dict.get (goods self) good_id = Some good
    /\ Dict.get (cities self) city_id = Some city
    /\ (0.7 <=? factor) = true
    /\ SurrealNumber.a price = listed_a good city good_id * factor.
Proof.
  unfold get_price, Dict.subscript, listed_a.
  destruct (Dict.get (goods self) good_id) as [good|]; cbn [bind]; [|discriminate].
  destruct (Dict.get (cities self) city_id) as [city|]; cbn [bind]; [|discriminate].
  intros H. exists good, city.
  match type of H with
  | context [apply_charters (charters self) city_id good_id ?p] =>
      destruct (apply_charters_shape (charters self) city_id good_id p)
        as (A & _ & _);
      generalize dependent (apply_charters (charters self) city_id good_id p)
  end.
  intros q H A.
  destruct (Py.int_truediv _ 10) as [stock_tenth|]; cbn [bind] in H; [|discriminate].
  destruct (Py.int_mul_float _ 0.02) as [cargo_penalty|]; cbn [bind] in H;
    [|discriminate].
  destruct (Py.float_truediv _ _) as [sm|]; cbn [bind] in H; [|discriminate].
  exists (Py.max 0.7 sm).
  split; [reflexivity|split; [reflexivity|split; [apply max_floor|]]].
  destruct (City.is_specialty city good_id); cbn [bind] in H;
    (destruct (Py.int_mul_float _ (-0.15)) as [rep|]; cbn [bind] in H;
     [|discriminate]);
    injection H as <-; cbn [SurrealNumber.a]; rewrite A;
    destruct (Dict.get (City.modifiers city) good_id); reflexivity.
Qed.

Lemma selling_keeps_seventy_percent_witness :
  exists price good city factor,
    get_price World.initial "salt" "carthage" false = Ok price
    /\ Dict.get (goods World.initial) "salt" = Some good
    /\ Dict.get (cities World.initial) "carthage" = Some city
    /\ (0.7 <=? factor) = true
    /\ SurrealNumber.a price = listed_a good city "salt" * factor.
Proof.
  eexists.
  destruct (selling_keeps_seventy_percent World.initial "salt" "carthage" _
              ltac:(vm_compute; reflexivity))
    as (good & city & factor & H).
  exists good, city, factor. split; [vm_compute; reflexivity|exact H].
Defined.

End Quotes.

(** ** Quotes are defined *)

Section QuotesDefined.

(** The last step of a rounding, on a mantissa of 53 bits or on 2^53. *)
Lemma round_tail (s : bool) (M1 e1 : Z) :
  2 ^ 52 <= M1 <= 2 ^ 53 -> -1074 <= e1 <= 970 ->
  exists M E,
    (let '(mrs, e) := shr_fexp prec emax M1 e1 loc_Exact in
     match shr_m mrs with
     | Z0 => S754_zero s
     | Zpos m => if e <=? emax - prec then S754_finite s m e else S754_infinity s
     | Zneg _ => S754_nan
     end) = S754_finite s M E
    /\ 2 ^ 52 <= Zpos M < 2 ^ 53 /\ e1 <= E <= e1 + 1.
Proof.
  intros RM Re.
  destruct M1 as [|m|m]; try lia.
  destruct (Z.eq_dec (Zpos m) (2 ^ 53)) as [Top|NTop].
  - injection Top as ->.
    unfold shr_fexp. cbn [Zdigits2 shr_record_of_loc].
    change (Zpos (digits2_pos 9007199254740992)) with 54.
    rewrite fexp_normal by lia.
    replace (54 + e1 - 53 - e1) with 1 by lia.
    cbn [shr iter_pos shr_1 orb shr_m].
    replace (e1 + 1 <=? emax - prec) with true
      by (symmetry; apply Z.leb_le; unfold emax, prec; lia).
    exists 4503599627370496%positive, (e1 + 1).
    split; [reflexivity|]. split; lia.
  - assert (Dm : Zpos (digits2_pos m) = 53) by (apply digits_exact; lia).
    pose proof (shr_fexp_exact m e1 0 Dm ltac:(lia)) as H0.
    change (shl m 0) with m in H0. change (Z.of_nat 0) with 0 in H0.
    rewrite Z.sub_0_r in H0. rewrite H0. cbn [exact shr_m].
    replace (e1 <=? emax - prec) with true
      by (symmetry; apply Z.leb_le; unfold emax, prec; lia).
    exists m, e1. split; [reflexivity|]. split; lia.
Qed.

Lemma round_nearest_even_step (q : Z) (l : location) :
  round_nearest_even q l = q \/ round_nearest_even q l = q + 1.
Proof.
  destruct l as [|[]]; cbn [round_nearest_even]; auto.
  destruct (Z.even q); auto.
Qed.

Lemma loc_of_record_of_loc (q : Z) (l : location) :
  shr_record_of_loc q l
  = Build_shr_record q (shr_r (shr_record_of_loc q l)) (shr_s (shr_record_of_loc q l)).
Proof. destruct l as [|[]]; reflexivity. Qed.

(** Rounding, from any location, a mantissa of 53 or 54 bits away from
    the ends of the exponent range gives a normal float. *)
Lemma round_short (s : bool) (q : positive) (e : Z) (l : location) :
  2 ^ 52 <= Zpos q < 2 ^ 54 -> -1074 <= e <= 969 ->
  exists M E,
    binary_round_aux prec emax s (Zpos q) e l = S754_finite s M E
    /\ 2 ^ 52 <= Zpos M < 2 ^ 53 /\ e <= E <= e + 2.
Proof.
  intros Rq Re. unfold binary_round_aux, shr_fexp at 1. cbn [Zdigits2].
  destruct (Z.lt_ge_cases (Zpos q) (2 ^ 53)) as [Lo|Hi].
  - assert (Dq : Zpos (digits2_pos q) = 53) by (apply digits_exact; lia).
    rewrite Dq, fexp_normal by lia.
    replace (53 + e - 53 - e) with 0 by lia. cbn [shr].
    rewrite loc_of_record_of_loc. cbn [shr_m].
    destruct (round_nearest_even_step (Zpos q)
                (loc_of_shr_record
                   (Build_shr_record (Zpos q) (shr_r (shr_record_of_loc (Zpos q) l))
                      (shr_s (shr_record_of_loc (Zpos q) l))))) as [R|R];
      rewrite R;
      [destruct (round_tail s (Zpos q) e ltac:(lia) ltac:(lia))
         as (M & E & H & RM & RE)
      |destruct (round_tail s (Zpos q + 1) e ltac:(lia) ltac:(lia))
         as (M & E & H & RM & RE)];
      exists M, E; (split; [exact H|split; lia]).
  - assert (Dq : Zpos (digits2_pos q) = 54) by (apply digits_exact; lia).
    rewrite Dq, fexp_normal by lia.
    replace (54 + e - 53 - e) with 1 by lia. cbn [shr iter_pos].
    rewrite loc_of_record_of_loc, shr_1_nonneg by lia. cbn [shr_m].
    pose proof (Z.div2_odd (Zpos q)) as Dv.
    assert (Bq : 0 <= Z.b2z (Z.odd (Zpos q)) <= 1)
      by (destruct (Z.odd (Zpos q)); cbn; lia).
    change (2 ^ 54) with (2 * 2 ^ 53) in Rq.
    change (2 ^ 53) with (2 * 2 ^ 52) in Hi.
    match goal with
    | |- context [round_nearest_even ?a ?b] =>
        destruct (round_nearest_even_step a b) as [R|R]; rewrite R
    end;
      [destruct (round_tail s (Z.div2 (Zpos q)) (e + 1) ltac:(lia) ltac:(lia))
         as (M & E & H & RM & RE)
      |destruct (round_tail s (Z.div2 (Zpos q) + 1) (e + 1) ltac:(lia) ltac:(lia))
         as (M & E & H & RM & RE)];
      exists M, E; (split; [exact H|split; lia]).
Qed.

Lemma normal_is_valid (s : bool) (M : positive) (E : Z) :
  2 ^ 52 <= Zpos M < 2 ^ 53 -> -1074 <= E <= 971 ->
  valid_binary (S754_finite s M E) = true.
Proof.
  intros RM RE. cbn [SpecFloat.valid_binary]. unfold bounded, canonical_mantissa.
  assert (D : Zpos (digits2_pos M) = 53) by (apply digits_exact; lia).
  rewrite D, fexp_normal by lia.
  apply andb_true_iff. split.
  - apply Z.eqb_eq. lia.
  - apply Z.leb_le. unfold emax, prec. lia.
Qed.

(** A valid finite float is not an overflow. *)
Lemma finite_is_no_overflow (s : bool) (M : positive) (E : Z) :
  valid_binary (S754_finite s M E) = true ->
  Py.finite_or_overflow (SF2Prim (S754_finite s M E))
  = Ok (SF2Prim (S754_finite s M E)).
Proof.
  intros V. unfold Py.finite_or_overflow, is_infinity.
  rewrite eqb_spec, abs_spec, Prim2SF_SF2Prim by exact V. reflexivity.
Qed.

Lemma div_core_ten (p : positive) :
  Zpos p < 2 ^ 53 ->
  exists q l,
    SFdiv_core_binary prec emax (Zpos p) 0 10 0
    = (Zpos q, Zpos (digits2_pos p) - 57, l)
    /\ 2 ^ 52 <= Zpos q < 2 ^ 54.
Proof.
  intros B. pose proof (digits_bounds p) as [DL DU].
  assert (Dd : 1 <= Zpos (digits2_pos p) <= 53).
  { split; [lia|]. apply digits_le; lia. }
  set (d := Zpos (digits2_pos p)) in *.
  unfold SFdiv_core_binary. cbn [Zdigits2]. fold d.
  change (Zpos (digits2_pos 10)) with 4.
  replace (d + 0 - (4 + 0)) with (d - 4) by lia.
  assert (Fx : fexp prec emax (d - 4) = d - 57)
    by (unfold fexp, SpecFloat.emin, prec, emax; lia).
  rewrite Fx. replace (Z.min (d - 57) (0 - 0)) with (d - 57) by lia.
  replace (0 - 0 - (d - 57)) with (57 - d) by lia.
  destruct (57 - d) as [|sh|sh] eqn:Sh; try lia.
  rewrite Z.shiftl_mul_pow2 by lia. rewrite <- Sh.
  assert (P : 2 ^ 56 <= Zpos p * 2 ^ (57 - d) < 2 ^ 57).
  { assert (E1 : 2 ^ 56 = 2 ^ (d - 1) * 2 ^ (57 - d))
      by (rewrite <- Z.pow_add_r by lia; f_equal; lia).
    assert (E2 : 2 ^ 57 = 2 ^ d * 2 ^ (57 - d))
      by (rewrite <- Z.pow_add_r by lia; f_equal; lia).
    assert (0 < 2 ^ (57 - d)) by (apply Z.pow_pos_nonneg; lia).
    rewrite E1, E2. split; nia. }
  set (N := Zpos p * 2 ^ (57 - d)) in *.
  pose proof (Z.div_eucl_eq N 10 ltac:(lia)) as Eq.
  pose proof (Z.mod_pos_bound N 10 ltac:(lia)) as Mb.
  unfold Z.modulo in Mb.
  destruct (Z.div_eucl N 10) as [q r].
  change (2 ^ 56) with 72057594037927936 in P.
  change (2 ^ 57) with 144115188075855872 in P.
  assert (Q : 2 ^ 52 <= q < 2 ^ 54).
  { change (2 ^ 52) with 4503599627370496.
    change (2 ^ 54) with 18014398509481984. lia. }
  destruct q as [|q|q]; try (change (2 ^ 52) with 4503599627370496 in Q; lia).
  exists q. eexists. split; [reflexivity|exact Q].
Qed.

(** [n / 10] is a float for every integer below 2^53 in magnitude. *)
Lemma int_truediv_ten (n : Z) :
  Z.abs n < 2 ^ 53 -> exists t, Py.int_truediv n 10 = Ok t.
Proof.
  intros B. unfold Py.int_truediv. cbn [Z.eqb].
  destruct n as [|p|p].
  - eexists. vm_compute. reflexivity.
  - cbn [Py.Z2SF SFdiv].
    destruct (div_core_ten p ltac:(lia)) as (q & l & -> & Rq).
    pose proof (digits_bounds p). 
    assert (Dd : 1 <= Zpos (digits2_pos p) <= 53)
      by (split; [lia|apply digits_le; lia]).
    destruct (round_short (xorb false false) q (Zpos (digits2_pos p) - 57) l Rq
                ltac:(lia)) as (M & E & -> & RM & RE).
    rewrite finite_is_no_overflow by (apply normal_is_valid; lia). eauto.
  - cbn [Py.Z2SF SFdiv].
    destruct (div_core_ten p ltac:(lia)) as (q & l & -> & Rq).
    pose proof (digits_bounds p). 
    assert (Dd : 1 <= Zpos (digits2_pos p) <= 53)
      by (split; [lia|apply digits_le; lia]).
    destruct (round_short (xorb true false) q (Zpos (digits2_pos p) - 57) l Rq
                ltac:(lia)) as (M & E & -> & RM & RE).
    rewrite finite_is_no_overflow by (apply normal_is_valid; lia). eauto.
Qed.

Lemma value_nonzero (f : float) (S : Z) :
  value f = Some S -> S <> 0 -> (f =? 0)%float = false.
Proof.
  unfold value. rewrite eqb_spec. change (Prim2SF 0) with (S754_zero false).
  destruct (Prim2SF f) as [s|s| |s m e]; try discriminate.
  - intros [= <-]. contradiction.
  - intros _ _. destruct s; reflexivity.
Qed.

Lemma digits_fill (p : positive) :
  Zpos p < 2 ^ 53 -> Zpos (digits2_pos (shl p (fill p))) = 53.
Proof.
  intros B. rewrite digits_shl. unfold fill.
  assert (Zpos (digits2_pos p) <= 53) by (apply digits_le; lia).
  rewrite Z2Nat.id by lia. lia.
Qed.

(** The inventory pressure [1.0 + cargo * 0.02] is not zero when the
    quantity held is not negative. *)
Lemma pressure_nonzero (n : Z) :
  0 <= n < 2 ^ 53 -> ((1.0 + SF2Prim (BN n) * 0.02) =? 0)%float = false.
Proof.
  intros B. destruct n as [|p|p]; [vm_compute; reflexivity| |lia].
  assert (Px : Prim2SF (SF2Prim (BN (Zpos p)))
               = S754_finite false (shl p (fill p)) (- Z.of_nat (fill p))).
  { rewrite Prim2SF_BN by lia.
    change (BN (Zpos p)) with (BN (cond_Zopp false (Zpos p))).
    apply BN_finite. lia. }
  pose proof (digits_fill p ltac:(lia)) as Dx.
  set (mx := shl p (fill p)) in *.
  assert (Fl : 0 <= Z.of_nat (fill p) <= 52).
  { unfold fill. pose proof (digits_bounds p).
    assert (1 <= Zpos (digits2_pos p)) by lia. lia. }
  set (ex := - Z.of_nat (fill p)) in *.
  assert (Py : exists M g,
             Prim2SF (SF2Prim (BN (Zpos p)) * 0.02)
             = S754_finite false M (ex + -58 + g)
             /\ 2 ^ 52 <= Zpos M < 2 ^ 53 /\ 0 <= g <= 55).
  { rewrite mul_spec, Px. unfold SF64mul.
    change (Prim2SF 0.02) with (S754_finite false 5764607523034235 (-58)).
    cbn [SFmul xorb].
    destruct (product_digits mx 5764607523034235 Dx eq_refl) as (k & Dk & Rk).
    destruct (binary_round_aux_normal false (mx * 5764607523034235) (ex + -58) k Dk
                ltac:(lia) ltac:(lia)) as (M & g & -> & RM & Rg & Err).
    exists M, g. split; [reflexivity|]. split; [exact RM|]. split; [exact Rg|].
    destruct (Z.le_gt_cases g 55) as [|G]; [assumption|exfalso].
    pose proof (digits_bounds (mx * 5764607523034235)) as [_ PU].
    rewrite Dk in PU.
    assert (PU' : Zpos (mx * 5764607523034235) < 2 ^ 107).
    { eapply Z.lt_le_trans; [exact PU|]. apply Z.pow_le_mono_r; lia. }
    assert (G' : 2 ^ 56 <= 2 ^ g) by (apply Z.pow_le_mono_r; lia).
    change (2 ^ 107) with 162259276829213363391578010288128 in PU'.
    change (2 ^ 56) with 72057594037927936 in G'.
    change (2 ^ 52) with 4503599627370496 in RM.
    change (2 ^ 53) with 9007199254740992 in Err, RM.
    nia. }
  destruct Py as (M & g & Py & RM & Rg).
  set (y := (SF2Prim (BN (Zpos p)) * 0.02)%float) in *.
  assert (Vy : value y = Some (Zpos M * 2 ^ (ex + -58 + g + 1074))).
  { unfold value. rewrite Py. reflexivity. }
  assert (V1 : value 1.0 = Some (2 ^ 1074)) by reflexivity.
  set (U := 2 ^ 1071).
  assert (HU : 0 < U) by (apply Z.pow_pos_nonneg; lia).
  assert (X1 : 2 ^ 1074 = 8 * U)
    by (unfold U; change 8 with (2 ^ 3); rewrite <- Z.pow_add_r by lia; reflexivity).
  assert (Yb : 0 < Zpos M * 2 ^ (ex + -58 + g + 1074) <= 2 ^ 53 * U).
  { assert (0 < 2 ^ (ex + -58 + g + 1074)) by (apply Z.pow_pos_nonneg; lia).
    assert (2 ^ (ex + -58 + g + 1074) <= U) by (apply Z.pow_le_mono_r; lia).
    split; nia. }
  set (Y := Zpos M * 2 ^ (ex + -58 + g + 1074)) in *.
  assert (Big : 2 ^ 2074 = 2 ^ 1003 * U)
    by (unfold U; rewrite <- Z.pow_add_r by lia; reflexivity).
  assert (B54 : 2 ^ 54 <= 2 ^ 1003) by (apply Z.pow_le_mono_r; lia).
  destruct (add_value 1.0 y _ _ V1 Vy) as (S & VS & Err).
  { rewrite X1, Big.
    change (2 ^ 53) with 9007199254740992 in Yb.
    change (2 ^ 54) with 18014398509481984 in B54. nia. }
  apply (value_nonzero _ S VS).
  intros ->. rewrite X1 in Err.
  change (2 ^ 53) with 9007199254740992 in Err. lia.
Qed.

Import GameState.

Lemma stock_factor_nonzero (y : float) : (Py.max 0.5 y =? 0)%float = false.
Proof.
  unfold Py.max. destruct (0.5 <? y)%float eqn:L; [|reflexivity].
  destruct (y =? 0)%float eqn:E; [|reflexivity].
  pose proof (ltb_eqb_trans _ _ _ L E) as F. discriminate F.
Qed.

Lemma int_mul_float_defined (n : Z) (f : float) :
  Z.abs n < 2 ^ 53 -> Py.int_mul_float n f = Ok (SF2Prim (BN n) * f)%float.
Proof.
  intros B. unfold Py.int_mul_float. rewrite float_of_int_exact by exact B.
  reflexivity.
Qed.

(** X12.  The pricing engine returns a quote for every good of the
    catalogue in every city of the map, buying or selling, as long as the
    stock, the quantity held and the reputation are below 2^53 in
    magnitude and the quantity held is not negative. *)
Theorem get_price_is_defined (self : t) (good_id city_id : string)
    (is_buying : bool) (good : Good.t) (city : City.t) :
  Dict.get (goods self) good_id = Some good ->
  Dict.get (cities self) city_id = Some city ->
  Z.abs (Dict.get_default (City.stock city) good_id 0) < 2 ^ 53 ->
  0 <= held self good_id < 2 ^ 53 ->
  Z.abs (Dict.get_default (reputation self) "merchant_guild" 0) < 2 ^ 53 ->
  exists price, get_price self good_id city_id is_buying = Ok price.
Proof.
  intros G C Bs Bh Br. unfold held in Bh.
  unfold get_price, Dict.subscript. rewrite G, C. cbn [bind].
  destruct (int_truediv_ten _ Bs) as [stock_tenth ->]. cbn [bind].
  rewrite int_mul_float_defined by lia. cbn [bind].
  rewrite int_mul_float_defined by exact Br.
  destruct is_buying.
  - unfold Py.float_truediv at 1. rewrite stock_factor_nonzero. cbn [bind].
    destruct (City.is_specialty city good_id); cbn [bind]; eauto.
  - unfold Py.float_truediv at 1. rewrite pressure_nonzero by lia. cbn [bind].
    destruct (City.is_specialty city good_id); cbn [bind]; eauto.
Qed.

Lemma get_price_is_defined_witness :
  exists price, get_price World.initial "silver" "gadir" false = Ok price.
Proof.
  apply (get_price_is_defined World.initial "silver" "gadir" false
           (Good.mk "silver" "Silver" 240 2 false false false) World.gadir);
    try reflexivity; vm_compute; split; congruence.
Defined.

End QuotesDefined.

(** ** The hold and the stocks *)

Section DictUpdates.

Context {V : Type}.

Lemma mem_keys_set (d : Dict.t V) (k j : string) (v : V) :
  Dict.mem j (Dict.keys (Dict.set d k v))
  = String.eqb j k || Dict.mem j (Dict.keys d).
Proof.
  induction d as [|[k' v'] d IH]; simpl.
  - reflexivity.
  - destruct (String.eqb k k') eqn:E; simpl.
    + apply String.eqb_eq in E. subst k'.
      destruct (String.eqb j k); reflexivity.
    + rewrite IH. destruct (String.eqb j k), (String.eqb j k'); reflexivity.
Qed.

Lemma unique_keys_set (d : Dict.t V) (k : string) (v : V) :
  Dict.unique_keys d = true -> Dict.unique_keys (Dict.set d k v) = true.
Proof.
  unfold Dict.unique_keys.
  induction d as [|[k' v'] d IH]; simpl; [reflexivity|].
  rewrite andb_true_iff, negb_true_iff. intros [M U].
  destruct (String.eqb k k') eqn:E; simpl.
  - rewrite M, U. reflexivity.
  - fold (Dict.keys (Dict.set d k v)). rewrite mem_keys_set, M, (IH U).
    rewrite String.eqb_sym, E. reflexivity.
Qed.

Lemma mem_keys_del (d : Dict.t V) (k j : string) :
  Dict.mem j (Dict.keys (Dict.del d k)) = true -> Dict.mem j (Dict.keys d) = true.
Proof.
  induction d as [|[k' v'] d IH]; simpl; [auto|].
  destruct (String.eqb k k'); simpl.
  - intros ->. apply orb_true_r.
  - destruct (String.eqb j k'); [reflexivity|exact IH].
Qed.

Lemma unique_keys_del (d : Dict.t V) (k : string) :
  Dict.unique_keys d = true -> Dict.unique_keys (Dict.del d k) = true.
Proof.
  unfold Dict.unique_keys.
  induction d as [|[k' v'] d IH]; simpl; [reflexivity|].
  rewrite andb_true_iff, negb_true_iff. intros [M U].
  destruct (String.eqb k k'); simpl; [exact U|].
  rewrite (IH U), andb_true_r, negb_true_iff.
  destruct (Dict.mem k' (Dict.keys (Dict.del d k))) eqn:M'; [|reflexivity].
  apply mem_keys_del in M'. congruence.
Qed.

Lemma get_absent (d : Dict.t V) (k : string) :
  Dict.mem k (Dict.keys d) = false -> Dict.get d k = None.
Proof.
  induction d as [|[k' v'] d IH]; simpl; [reflexivity|].
  destruct (String.eqb k k'); simpl; [discriminate|exact IH].
Qed.

Lemma get_del_same (d : Dict.t V) (k : string) :
  Dict.unique_keys d = true -> Dict.get (Dict.del d k) k = None.
Proof.
  unfold Dict.unique_keys.
  induction d as [|[k' v'] d IH]; simpl; [reflexivity|].
  rewrite andb_true_iff, negb_true_iff. intros [M U].
  destruct (String.eqb k k') eqn:E; simpl.
  - apply String.eqb_eq in E. subst k'. apply get_absent, M.
  - rewrite E. exact (IH U).
Qed.

Lemma get_del_other (d : Dict.t V) (k j : string) :
  j <> k -> Dict.get (Dict.del d k) j = Dict.get d j.
Proof.
  intros N. induction d as [|[k' v'] d IH]; simpl; [reflexivity|].
  destruct (String.eqb k k') eqn:E; simpl.
  - apply String.eqb_eq in E. subst k'.
    destruct (String.eqb j k) eqn:E'; [apply String.eqb_eq in E'; contradiction|].
    reflexivity.
  - rewrite IH. reflexivity.
Qed.

Lemma forallb_set (P : string * V -> bool) (d : Dict.t V) (k : string) (v : V) :
  (forall k', P (k', v) = true) ->
  forallb P d = true -> forallb P (Dict.set d k v) = true.
Proof.
  intros Pv. induction d as [|[k' v'] d IH]; simpl.
  - intros _. rewrite Pv. reflexivity.
  - rewrite andb_true_iff. intros [H1 H2].
    destruct (String.eqb k k'); simpl.
    + rewrite Pv, H2. reflexivity.
    + rewrite H1, (IH H2). reflexivity.
Qed.

Lemma forallb_del (P : string * V -> bool) (d : Dict.t V) (k : string) :
  forallb P d = true -> forallb P (Dict.del d k) = true.
Proof.
  induction d as [|[k' v'] d IH]; simpl; [auto|].
  rewrite andb_true_iff. intros [H1 H2].
  destruct (String.eqb k k'); simpl; [exact H2|].
  rewrite H1, (IH H2). reflexivity.
Qed.

(** Deleting the entry that was just set to [v] leaves the entries that
    satisfy [P] before the update. *)
Lemma forallb_del_set (P : string * V -> bool) (d : Dict.t V) (k : string) (v : V) :
  forallb P d = true -> forallb P (Dict.del (Dict.set d k v) k) = true.
Proof.
  induction d as [|[k' v'] d IH]; simpl.
  - intros _. rewrite String.eqb_refl. reflexivity.
  - rewrite andb_true_iff. intros [H1 H2].
    destruct (String.eqb k k') eqn:E; simpl; rewrite E.
    + exact H2.
    + simpl. rewrite H1, (IH H2). reflexivity.
Qed.

End DictUpdates.

Section Hold.

Import GameState GameEngine.

Lemma buy_goods_inv (state state' : t) (choice_input quantity_input : option Z)
    (total_price : Surreal) :
  buy_goods state choice_input quantity_input = (Ok (Done total_price), state') ->
  exists city good_id max_stock quantity in_stock,
    Dict.get (cities state) (current_city state) = Some city
    /\ In (good_id, max_stock) (City.stock city)
    /\ 1 <= quantity <= max_stock
    /\ Dict.get (City.stock city) good_id = Some in_stock
    /\ current_city state' = current_city state
    /\ money state' = SurrealNumber.__sub__ (money state) total_price
    /\ cargo state'
       = Dict.set (cargo state) good_id
           (Dict.get_default (cargo state) good_id 0 + quantity)
    /\ cities state'
       = Dict.set (cities state) (current_city state)
           (City.with_stock city
              (Dict.set (City.stock city) good_id (in_stock - quantity)))
    /\ stats state' = add_bought (stats state) good_id quantity total_price.
Proof.
  unfold buy_goods. intros H.
  destruct (Dict.get (cities state) (current_city state)) as [city|];
    [|discriminate H].
  destruct (filter _ (City.stock city)) as [|item rest] eqn:F; [discriminate H|].
  destruct (quote_all state (item :: rest) true); [|discriminate H].
  destruct choice_input as [typed|]; [|discriminate H].
  destruct (select (item :: rest) (typed - 1)) as [[good_id max_stock]|] eqn:S;
    [|discriminate H].
  destruct quantity_input as [quantity|]; [|discriminate H].
  destruct ((1 <=? quantity) && (quantity <=? max_stock)) eqn:Q;
    [|discriminate H].
  destruct (negotiate_price state good_id (current_city state) quantity true)
    as [[total|]|] eqn:Np; try discriminate H.
  destruct (can_afford state total) eqn:Af; [|discriminate H].
  destruct (Dict.get (City.stock city) good_id) as [in_stock|] eqn:G;
    [|discriminate H].
  injection H as <- <-.
  exists city, good_id, max_stock, quantity, in_stock.
  apply select_In in S. rewrite <- F in S. apply filter_In in S.
  apply andb_true_iff in Q. destruct Q as [Q1 Q2].
  repeat split; try tauto; try reflexivity; lia.
Qed.

Lemma sell_goods_inv (state state' : t) (choice_input quantity_input : option Z)
    (total_price : Surreal) :
  sell_goods state choice_input quantity_input = (Ok (Done total_price), state') ->
  exists city good_id max_quantity quantity in_hold,
    Dict.get (cities state) (current_city state) = Some city
    /\ In (good_id, max_quantity) (cargo state)
    /\ 1 <= quantity <= max_quantity
    /\ Dict.get (cargo state) good_id = Some in_hold
    /\ current_city state' = current_city state
    /\ money state' = SurrealNumber.__add__ (money state) total_price
    /\ cargo state'
       = (if in_hold - quantity =? 0
          then Dict.del (Dict.set (cargo state) good_id (in_hold - quantity)) good_id
          else Dict.set (cargo state) good_id (in_hold - quantity))
    /\ cities state'
       = Dict.set (cities state) (current_city state)
           (City.with_stock city
              (Dict.set (City.stock city) good_id
                 (Dict.get_default (City.stock city) good_id 0 + quantity)))
    /\ stats state' = add_sold (stats state) good_id quantity total_price.
Proof.
  unfold sell_goods. intros H.
  destruct (cargo state) as [|item rest] eqn:Cg; [discriminate H|].
  destruct (quote_all state (item :: rest) false); [|discriminate H].
  destruct choice_input as [typed|]; [|discriminate H].
  destruct (select (item :: rest) (typed - 1)) as [[good_id max_quantity]|] eqn:S;
    [|discriminate H].
  destruct quantity_input as [quantity|]; [|discriminate H].
  destruct ((1 <=? quantity) && (quantity <=? max_quantity)) eqn:Q;
    [|discriminate H].
  destruct (negotiate_price state good_id (current_city state) quantity false)
    as [[total|]|] eqn:Np; try discriminate H.
  simpl in H. rewrite Cg in H.
  destruct (Dict.get (item :: rest) good_id) as [in_hold|] eqn:G; [|discriminate H].
  destruct (Dict.get (cities state) (current_city state)) as [city|] eqn:C;
    [|discriminate H].
  injection H as <- <-.
  exists city, good_id, max_quantity, quantity, in_hold.
  apply select_In in S.
  apply andb_true_iff in Q. destruct Q as [Q1 Q2].
  simpl. repeat split; try assumption; try reflexivity; lia.
Qed.

Lemma stock_of_set (state state' : t) (city : City.t) (good_id : string) (v : Z) :
  Dict.get (cities state) (current_city state) = Some city ->
  cities state'
  = Dict.set (cities state) (current_city state)
      (City.with_stock city (Dict.set (City.stock city) good_id v)) ->
  forall city_id k,
    stock_of state' city_id k
    = if String.eqb city_id (current_city state) && String.eqb k good_id
      then v else stock_of state city_id k.
Proof.
  intros C E city_id k. unfold stock_of. rewrite E.
  destruct (String.eqb city_id (current_city state)) eqn:Ec.
  - apply String.eqb_eq in Ec. subst city_id.
    rewrite get_set_same, C. cbn [City.stock City.with_stock andb].
    apply get_default_set.
  - apply String.eqb_neq in Ec. rewrite get_set_other by exact Ec. reflexivity.
Qed.

(** What a completed purchase was asked for and charged: the good
    selected, the quantity typed and the price settled for them. *)
Lemma buy_goods_charged (state state' : t) (choice_input quantity_input : option Z)
    (total_price : Surreal) :
  buy_goods state choice_input quantity_input = (Ok (Done total_price), state') ->
  exists typed good_id max_stock quantity city in_stock,
    choice_input = Some typed
    /\ quantity_input = Some quantity
    /\ select (available_goods state) (typed - 1) = Some (good_id, max_stock)
    /\ 1 <= quantity <= max_stock
    /\ negotiate_price state good_id (current_city state) quantity true
       = Ok (Some total_price)
    /\ can_afford state total_price = true
    /\ Dict.get (cities state) (current_city state) = Some city
    /\ Dict.get (City.stock city) good_id = Some in_stock
    /\ money state' = SurrealNumber.__sub__ (money state) total_price
    /\ cargo state'
       = Dict.set (cargo state) good_id
           (Dict.get_default (cargo state) good_id 0 + quantity)
    /\ cities state'
       = Dict.set (cities state) (current_city state)
           (City.with_stock city
              (Dict.set (City.stock city) good_id (in_stock - quantity))).
Proof.
  unfold buy_goods, available_goods. intros H.
  destruct (Dict.get (cities state) (current_city state)) as [city|];
    [|discriminate H].
  destruct (filter _ (City.stock city)) as [|item rest] eqn:F; [discriminate H|].
  destruct (quote_all state (item :: rest) true); [|discriminate H].
  destruct choice_input as [typed|]; [|discriminate H].
  destruct (select (item :: rest) (typed - 1)) as [[good_id max_stock]|] eqn:S;
    [|discriminate H].
  destruct quantity_input as [quantity|]; [|discriminate H].
  destruct ((1 <=? quantity) && (quantity <=? max_stock)) eqn:Q;
    [|discriminate H].
  destruct (negotiate_price state good_id (current_city state) quantity true)
    as [[total|]|] eqn:Np; try discriminate H.
  destruct (can_afford state total) eqn:Af; [|discriminate H].
  destruct (Dict.get (City.stock city) good_id) as [in_stock|] eqn:G;
    [|discriminate H].
  injection H as <- <-.
  exists typed, good_id, max_stock, quantity, city, in_stock.
  apply andb_true_iff in Q. destruct Q as [Q1 Q2].
  split; [reflexivity|]. split; [reflexivity|]. split; [exact S|].
  split; [lia|]. split; [exact Np|]. split; [exact Af|].
  split; [reflexivity|]. split; [exact G|].
  split; [reflexivity|]. split; reflexivity.
Qed.

(** X13.  A purchase moves goods from the city's stock to the hold.
    The good is the one selected from the goods on offer, the quantity is
    the one typed, between 1 and the stock on offer, and the price is the
    one settled for that good and that quantity, which the player can
    afford.  That quantity is added to the hold and taken from the stock
    of that good in the current city, the sum of stock and hold is the
    same for every good, every other stock is untouched, and the money
    paid is the price settled. *)
Theorem purchase_moves_stock_to_hold (state state' : t)
    (choice_input quantity_input : option Z) (total_price : Surreal) :
  buy_goods state choice_input quantity_input = (Ok (Done total_price), state') ->
  exists typed good_id max_stock quantity,
    choice_input = Some typed
    /\ quantity_input = Some quantity
    /\ select (available_goods state) (typed - 1) = Some (good_id, max_stock)
    /\ 1 <= quantity <= max_stock
    /\ negotiate_price state good_id (current_city state) quantity true
       = Ok (Some total_price)
    /\ can_afford state total_price = true
    /\ money state' = SurrealNumber.__sub__ (money state) total_price
    /\ (forall k,
          held state' k
          = held state k + (if String.eqb k good_id then quantity else 0))
    /\ (forall city_id k,
          stock_of state' city_id k
          = stock_of state city_id k
            - (if String.eqb city_id (current_city state) && String.eqb k good_id
               then quantity else 0))
    /\ (forall k,
          stock_of state' (current_city state) k + held state' k
          = stock_of state (current_city state) k + held state k).
Proof.
  intros H.
  destruct (buy_goods_charged _ _ _ _ _ H)
    as (typed & good_id & max_stock & quantity & city & in_stock
        & Ci & Qi & S & Q & Np & Af & C & G & M & Cg & Cs).
  exists typed, good_id, max_stock, quantity.
  assert (Hh : forall k,
             held state' k
             = held state k + (if String.eqb k good_id then quantity else 0)).
  { intros k. unfold held. rewrite Cg, get_default_set.
    destruct (String.eqb k good_id) eqn:E; [|lia].
    apply String.eqb_eq in E. subst k. reflexivity. }
  assert (Hs : forall city_id k,
             stock_of state' city_id k
             = stock_of state city_id k
               - (if String.eqb city_id (current_city state) && String.eqb k good_id
                  then quantity else 0)).
  { intros city_id k. rewrite (stock_of_set _ _ _ _ _ C Cs).
    destruct (String.eqb city_id (current_city state)) eqn:Ec; cbn [andb]; [|lia].
    destruct (String.eqb k good_id) eqn:Ek; [|lia].
    apply String.eqb_eq in Ec, Ek. subst city_id k.
    unfold stock_of, Dict.get_default. rewrite C, G. lia. }
  split; [exact Ci|]. split; [exact Qi|]. split; [exact S|]. split; [exact Q|].
  split; [exact Np|]. split; [exact Af|]. split; [exact M|].
  split; [exact Hh|]. split; [exact Hs|].
  intros k. rewrite Hh, Hs, String.eqb_refl. cbn [andb].
  destruct (String.eqb k good_id); lia.
Qed.

(** Two units of glass bought in Carthage in a new game: the price is
    the one settled for two units of glass, the hold gets 2 and the stock
    goes from 18 to 16. *)
Lemma purchase_moves_stock_to_hold_witness :
  exists state' total_price,
    buy_goods World.initial (Some 1) (Some 2) = (Ok (Done total_price), state')
    /\ negotiate_price World.initial "glass" "carthage" 2 true
       = Ok (Some total_price)
    /\ can_afford World.initial total_price = true
    /\ money state' = SurrealNumber.__sub__ (money World.initial) total_price
    /\ held state' "glass" = 2
    /\ stock_of state' "carthage" "glass" = 16.
Proof.
  eexists. eexists.
  destruct (purchase_moves_stock_to_hold World.initial _ (Some 1) (Some 2) _
              ltac:(vm_compute; reflexivity))
    as (typed & good_id & max_stock & quantity
        & Ci & Qi & S & Q & Np & Af & M & Hh & Hs & _).
  injection Ci as <-. injection Qi as <-.
  vm_compute in S. injection S as <- <-.
  split; [vm_compute; reflexivity|].
  split; [exact Np|]. split; [exact Af|]. split; [exact M|].
  split; [rewrite Hh; reflexivity|rewrite Hs; reflexivity].
Defined.

(** X14.  A purchase never oversells: with the stock table keyed
    uniquely, as a dict is, a stock that was not negative is not negative
    afterwards. *)
Theorem purchase_never_oversells (state state' : t)
    (choice_input quantity_input : option Z) (total_price : Surreal)
    (city : City.t) :
  buy_goods state choice_input quantity_input = (Ok (Done total_price), state') ->
  Dict.get (cities state) (current_city state) = Some city ->
  Dict.unique_keys (City.stock city) = true ->
  forall city_id k,
    0 <= stock_of state city_id k -> 0 <= stock_of state' city_id k.
Proof.
  intros H C U city_id k P.
  destruct (buy_goods_inv _ _ _ _ _ H)
    as (city' & good_id & max_stock & quantity & in_stock
        & C' & I & Q & G & _ & _ & _ & Cs & _).
  rewrite C in C'. injection C' as <-.
  rewrite (get_of_item _ _ _ U I) in G. injection G as <-.
  rewrite (stock_of_set _ _ _ _ _ C Cs).
  destruct (String.eqb city_id (current_city state) && String.eqb k good_id);
    lia.
Qed.

Lemma purchase_never_oversells_witness :
  exists state' total_price,
    buy_goods World.initial (Some 4) (Some 30) = (Ok (Done total_price), state')
    /\ 0 <= stock_of state' "carthage" "salt".
Proof.
  eexists. eexists. split; [vm_compute; reflexivity|].
  eapply (purchase_never_oversells World.initial _ (Some 4) (Some 30) _
            World.carthage);
    [vm_compute; reflexivity|reflexivity|reflexivity|vm_compute; discriminate].
Defined.

Lemma held_del_set (d : Dict.t Z) (good_id k : string) (v : Z) :
  Dict.unique_keys d = true ->
  Dict.get_default (Dict.del (Dict.set d good_id v) good_id) k 0
  = if String.eqb k good_id then 0 else Dict.get_default d k 0.
Proof.
  intros U. unfold Dict.get_default.
  destruct (String.eqb k good_id) eqn:E.
  - apply String.eqb_eq in E. subst k.
    rewrite get_del_same by (apply unique_keys_set, U). reflexivity.
  - apply String.eqb_neq in E.
    rewrite get_del_other, get_set_other by exact E. reflexivity.
Qed.

(** What a completed sale was asked for and paid: the good selected
    from the hold, the quantity typed and the price settled for them. *)
Lemma sell_goods_paid (state state' : t) (choice_input quantity_input : option Z)
    (total_price : Surreal) :
  sell_goods state choice_input quantity_input = (Ok (Done total_price), state') ->
  exists typed good_id max_quantity quantity city in_hold,
    choice_input = Some typed
    /\ quantity_input = Some quantity
    /\ select (cargo state) (typed - 1) = Some (good_id, max_quantity)
    /\ 1 <= quantity <= max_quantity
    /\ negotiate_price state good_id (current_city state) quantity false
       = Ok (Some total_price)
    /\ Dict.get (cities state) (current_city state) = Some city
    /\ Dict.get (cargo state) good_id = Some in_hold
    /\ money state' = SurrealNumber.__add__ (money state) total_price
    /\ cargo state'
       = (if in_hold - quantity =? 0
          then Dict.del (Dict.set (cargo state) good_id (in_hold - quantity)) good_id
          else Dict.set (cargo state) good_id (in_hold - quantity))
    /\ cities state'
       = Dict.set (cities state) (current_city state)
           (City.with_stock city
              (Dict.set (City.stock city) good_id
                 (Dict.get_default (City.stock city) good_id 0 + quantity))).
Proof.
  unfold sell_goods. intros H.
  destruct (cargo state) as [|item rest] eqn:Cg; [discriminate H|].
  destruct (quote_all state (item :: rest) false); [|discriminate H].
  destruct choice_input as [typed|]; [|discriminate H].
  destruct (select (item :: rest) (typed - 1)) as [[good_id max_quantity]|] eqn:S;
    [|discriminate H].
  destruct quantity_input as [quantity|]; [|discriminate H].
  destruct ((1 <=? quantity) && (quantity <=? max_quantity)) eqn:Q;
    [|discriminate H].
  destruct (negotiate_price state good_id (current_city state) quantity false)
    as [[total|]|] eqn:Np; try discriminate H.
  simpl in H. rewrite Cg in H.
  destruct (Dict.get (item :: rest) good_id) as [in_hold|] eqn:G; [|discriminate H].
  destruct (Dict.get (cities state) (current_city state)) as [city|] eqn:C;
    [|discriminate H].
  injection H as <- <-.
  exists typed, good_id, max_quantity, quantity, city, in_hold.
  apply andb_true_iff in Q. destruct Q as [Q1 Q2].
  split; [reflexivity|]. split; [reflexivity|]. split; [exact S|].
  split; [lia|]. split; [exact Np|].
  split; [reflexivity|]. split; [exact G|].
  simpl. split; [reflexivity|]. split; reflexivity.
Qed.

(** X15.  A sale moves goods from the hold to the city's stock.  The
    good is the one selected from the hold, the quantity is the one
    typed, between 1 and the quantity held, and the price is the one
    settled for that good and that quantity.  That quantity leaves the
    hold and is added to the stock of that good in the current city,
    listed there or not; a good sold out is removed from the hold; the
    money received is the price settled. *)
Theorem sale_moves_hold_to_stock (state state' : t)
    (choice_input quantity_input : option Z) (total_price : Surreal) :
  sell_goods state choice_input quantity_input = (Ok (Done total_price), state') ->
  Dict.unique_keys (cargo state) = true ->
  exists typed good_id quantity,
    choice_input = Some typed
    /\ quantity_input = Some quantity
    /\ select (cargo state) (typed - 1) = Some (good_id, held state good_id)
    /\ 1 <= quantity <= held state good_id
    /\ negotiate_price state good_id (current_city state) quantity false
       = Ok (Some total_price)
    /\ money state' = SurrealNumber.__add__ (money state) total_price
    /\ (forall k,
          held state' k
          = held state k - (if String.eqb k good_id then quantity else 0))
    /\ (forall city_id k,
          stock_of state' city_id k
          = stock_of state city_id k
            + (if String.eqb city_id (current_city state) && String.eqb k good_id
               then quantity else 0))
    /\ (quantity = held state good_id ->
        Dict.contains (cargo state') good_id = false).
Proof.
  intros H U.
  destruct (sell_goods_paid _ _ _ _ _ H)
    as (typed & good_id & max_quantity & quantity & city & in_hold
        & Ci & Qi & S & Q & Np & C & G & M & Cg & Cs).
  pose proof (select_In _ _ _ S) as I.
  rewrite (get_of_item _ _ _ U I) in G. injection G as <-.
  assert (Hd : held state good_id = max_quantity).
  { unfold held, Dict.get_default. rewrite (get_of_item _ _ _ U I). reflexivity. }
  exists typed, good_id, quantity. rewrite Hd.
  split; [exact Ci|]. split; [exact Qi|]. split; [exact S|]. split; [exact Q|].
  split; [exact Np|]. split; [exact M|]. split; [|split].
  - intros k. unfold held. rewrite Cg.
    destruct (max_quantity - quantity =? 0) eqn:Sold.
    + apply Z.eqb_eq in Sold. rewrite held_del_set by exact U.
      destruct (String.eqb k good_id) eqn:E; [|lia].
      apply String.eqb_eq in E. subst k. fold (held state good_id). lia.
    + rewrite get_default_set.
      destruct (String.eqb k good_id) eqn:E; [|lia].
      apply String.eqb_eq in E. subst k. fold (held state good_id). lia.
  - intros city_id k. rewrite (stock_of_set _ _ _ _ _ C Cs).
    destruct (String.eqb city_id (current_city state)) eqn:Ec; cbn [andb]; [|lia].
    destruct (String.eqb k good_id) eqn:Ek; [|lia].
    apply String.eqb_eq in Ec, Ek. subst city_id k.
    unfold stock_of. rewrite C. lia.
  - intros E. rewrite Cg. replace (max_quantity - quantity =? 0) with true
      by (symmetry; apply Z.eqb_eq; lia).
    unfold Dict.contains.
    rewrite get_del_same by (apply unique_keys_set, U). reflexivity.
Qed.

(** All three units of glass sold in Carthage from a hold of three
    glass and two salt: the price is the one settled for three units of
    glass, glass leaves the hold and the stock goes from 18 to 21. *)
Lemma sale_moves_hold_to_stock_witness :
  exists state' total_price,
    sell_goods Examples.laden (Some 1) (Some 3) = (Ok (Done total_price), state')
    /\ negotiate_price Examples.laden "glass" "carthage" 3 false
       = Ok (Some total_price)
    /\ money state' = SurrealNumber.__add__ (money Examples.laden) total_price
    /\ held state' "glass" = 0
    /\ held state' "salt" = 2
    /\ stock_of state' "carthage" "glass" = 21
    /\ Dict.contains (cargo state') "glass" = false.
Proof.
  eexists. eexists.
  destruct (sale_moves_hold_to_stock Examples.laden _ (Some 1) (Some 3) _
              ltac:(vm_compute; reflexivity) ltac:(reflexivity))
    as (typed & good_id & quantity
        & Ci & Qi & S & Q & Np & M & Hh & Hs & Out).
  injection Ci as <-. injection Qi as <-.
  vm_compute in S. injection S as <-.
  split; [vm_compute; reflexivity|].
  split; [exact Np|]. split; [exact M|].
  split; [rewrite Hh; reflexivity|].
  split; [rewrite Hh; reflexivity|].
  split; [rewrite Hs; reflexivity|apply Out; reflexivity].
Defined.

Lemma held_nonneg (state : t) (k : string) :
  hold_is_positive state = true -> 0 <= held state k.
Proof.
  unfold hold_is_positive, held, Dict.get_default.
  induction (cargo state) as [|[k' v'] d IH]; simpl; [lia|].
  rewrite andb_true_iff. intros [P1 P2].
  destruct (String.eqb k k'); [|exact (IH P2)].
  apply Z.ltb_lt in P1. simpl in P1. lia.
Qed.

(** X16.  The hold lists only positive quantities, each good once: if
    that holds before a buy or a sell attempt, it holds after it, however
    the attempt ends. *)
Theorem hold_stays_positive (state state' : t)
    (choice_input quantity_input : option Z) (r : Res report) :
  buy_goods state choice_input quantity_input = (r, state')
  \/ sell_goods state choice_input quantity_input = (r, state') ->
  Dict.unique_keys (cargo state) = true ->
  hold_is_positive state = true ->
  Dict.unique_keys (cargo state') = true /\ hold_is_positive state' = true.
Proof.
  intros H U P.
  assert (D : (exists total_price, r = Ok (Done total_price))
              \/ (forall total_price, r <> Ok (Done total_price))).
  { destruct r as [[| | | | |t]|e]; try (right; intros ? [= ]; fail).
    left. eauto. }
  destruct D as [[total_price ->]|N].
  - destruct H as [H|H].
    + destruct (buy_goods_inv _ _ _ _ _ H)
        as (city & good_id & max_stock & quantity & in_stock
            & _ & _ & Q & _ & _ & _ & Cg & _).
      unfold hold_is_positive. rewrite Cg.
      split; [apply unique_keys_set, U|].
      apply forallb_set; [|exact P].
      intros k'. apply Z.ltb_lt. cbn [snd].
      pose proof (held_nonneg state good_id P) as Hn. unfold held in Hn. lia.
    + destruct (sell_goods_inv _ _ _ _ _ H)
        as (city & good_id & max_quantity & quantity & in_hold
            & _ & I & Q & G & _ & _ & Cg & _).
      rewrite (get_of_item _ _ _ U I) in G. injection G as <-.
      unfold hold_is_positive. rewrite Cg.
      destruct (max_quantity - quantity =? 0) eqn:Sold.
      * split; [apply unique_keys_del, unique_keys_set, U|].
        apply forallb_del_set, P.
      * apply Z.eqb_neq in Sold.
        split; [apply unique_keys_set, U|].
        apply forallb_set; [|exact P].
        intros k'. apply Z.ltb_lt. cbn [snd]. lia.
  - assert (E : state' = state).
    { destruct H as [H|H].
      - exact (buy_goods_atomic _ _ _ _ _ H N).
      - exact (sell_goods_atomic _ _ _ _ _ H N). }
    subst state'. split; assumption.
Qed.

Lemma hold_stays_positive_witness :
  exists state' total_price,
    sell_goods Examples.laden (Some 1) (Some 3) = (Ok (Done total_price), state')
    /\ Dict.unique_keys (cargo state') = true /\ hold_is_positive state' = true.
Proof.
  eexists. eexists. split; [vm_compute; reflexivity|].
  eapply (hold_stays_positive Examples.laden _ (Some 1) (Some 3));
    [right; vm_compute; reflexivity|reflexivity|reflexivity].
Defined.

End Hold.

(** ** The supply schedule *)

Section Schedule.

Import GameState.

(** What [refresh_city_supplies] returns, in terms of the outer loop. *)
Lemma refresh_city_supplies_inv (self self' : t) (g g' : Random.t)
    (r : Res (list message)) :
  refresh_city_supplies self g = (r, self', g') ->
  exists e cities' msgs,
    refresh_cities (goods self) (base_stock_levels self) (cities self) g []
    = (e, cities', g', msgs)
    /\ match e with
       | Some ex => r = Raise ex /\ self' = with_cities self cities'
       | None =>
           r = Ok msgs
           /\ self' = with_stats (with_cities self cities')
                        (count_refresh (stats self))
       end.
Proof.
  unfold refresh_city_supplies.
  destruct (refresh_cities _ _ _ g []) as [[[e cities'] g1] msgs] eqn:R.
  destruct e as [ex|]; intros [= <- <- <-]; eexists; eexists; eexists; (split; [reflexivity|split; reflexivity]).
Qed.

(** X17.  Supply caravans come once a fortnight: a check made fewer
    than 14 days after the last refresh answers False and changes
    nothing; a check that answers True has refreshed the supplies once,
    recorded the day, and a second check on the same day answers False
    and changes nothing. *)
Theorem supply_check_fires_once_a_fortnight (self : t) (g : Random.t) :
  (day self - last_supply_refresh_day self < 14 ->
   check_supply_refresh self g = (Ok false, self, g))
  /\ (forall self' g',
        check_supply_refresh self g = (Ok true, self', g') ->
        14 <= day self - last_supply_refresh_day self
        /\ day self' = day self
        /\ last_supply_refresh_day self' = day self
        /\ Stats.supply_refreshes (stats self')
           = Stats.supply_refreshes (stats self) + 1
        /\ forall g2, check_supply_refresh self' g2 = (Ok false, self', g2)).
Proof.
  unfold check_supply_refresh. split.
  - intros H. destruct (Z.geb_spec (day self - last_supply_refresh_day self) 14);
      [lia|reflexivity].
  - intros self' g'.
    destruct (Z.geb_spec (day self - last_supply_refresh_day self) 14) as [D|D];
      [|discriminate].
    destruct (refresh_city_supplies self g) as [[r self1] g1] eqn:R.
    destruct (refresh_city_supplies_inv _ _ _ _ _ R) as (e & cities' & msgs & _ & E).
    destruct r as [msgs'|ex]; [|discriminate].
    destruct e as [ex|]; [destruct E as [E _]; discriminate E|].
    destruct E as [_ ->]. intros [= <- <-]. cbn.
    repeat split; try lia.
    intros g2. destruct (Z.geb_spec (day self - day self) 14); [lia|reflexivity].
Qed.

Lemma supply_check_fires_once_a_fortnight_witness :
  check_supply_refresh World.initial Examples.sixes
  = (Ok false, World.initial, Examples.sixes).
Proof.
  apply (proj1 (supply_check_fires_once_a_fortnight World.initial Examples.sixes)).
  vm_compute. reflexivity.
Defined.

Lemma refresh_goods_completes (goods : Dict.t Good.t) (city : City.t)
    (base_stocks : list (string * Z)) :
  (forall good_id base_amount,
      In (good_id, base_amount) base_stocks ->
      Dict.contains goods good_id = true) ->
  forall stock g msgs,
    exists stock' g' msgs',
      refresh_goods goods city base_stocks stock g msgs = (None, stock', g', msgs').
Proof.
  induction base_stocks as [|[good_id base_amount] rest IH]; intros K stock g msgs.
  - simpl. eauto.
  - assert (Kg : exists good, Dict.get goods good_id = Some good).
    { specialize (K good_id base_amount (or_introl eq_refl)).
      unfold Dict.contains in K.
      destruct (Dict.get goods good_id); [eauto|discriminate]. }
    destruct Kg as [good Kg].
    assert (K' : forall good_id base_amount,
               In (good_id, base_amount) rest -> Dict.contains goods good_id = true).
    { intros k v I. apply (K k v). now right. }
    cbn [refresh_goods]. rewrite Kg.
    destruct (City.is_specialty city good_id).
    + destruct (Random.randint 2 8 g) as [d g1]. apply (IH K').
    + destruct (Random.randint (-2) 4 g) as [d g1].
      destruct (_ >? _); apply (IH K').
Qed.

Lemma refresh_cities_completes (goods : Dict.t Good.t)
    (bsl : Dict.t (Dict.t Z)) (todo : list (string * City.t)) :
  (forall city_id city,
      In (city_id, city) todo ->
      exists base_stocks,
        Dict.get bsl city_id = Some base_stocks
        /\ forall good_id base_amount,
             In (good_id, base_amount) base_stocks ->
             Dict.contains goods good_id = true) ->
  forall g msgs,
    exists cities' g' msgs',
      refresh_cities goods bsl todo g msgs = (None, cities', g', msgs').
Proof.
  induction todo as [|[cid city] rest IH]; intros K g msgs.
  - simpl. eauto.
  - destruct (K cid city (or_introl eq_refl)) as (base_stocks & B & Kg).
    simpl. rewrite B.
    destruct (refresh_goods_completes goods city base_stocks Kg (City.stock city)
                g msgs) as (stock' & g1 & msgs1 & R).
    rewrite R.
    destruct (IH (fun k c I => K k c (or_intror I)) g1 msgs1)
      as (rest' & g2 & msgs2 & R2).
    rewrite R2. eauto.
Qed.

(** X18.  The refresh completes, and is counted once, whenever every
    city has a base-stock table and every good of a table is in the
    catalogue; the KeyError that cuts it short needs a missing table or
    a missing good. *)
Theorem refresh_completes_on_complete_tables (self : t) (g : Random.t) :
  tables_complete self ->
  exists msgs self' g',
    refresh_city_supplies self g = (Ok msgs, self', g')
    /\ Stats.supply_refreshes (stats self')
       = Stats.supply_refreshes (stats self) + 1.
Proof.
  intros K.
  destruct (refresh_cities_completes (goods self) (base_stock_levels self)
              (cities self) K g []) as (cities' & g' & msgs & R).
  unfold refresh_city_supplies. rewrite R.
  exists msgs. eexists. exists g'. split; reflexivity.
Qed.

Lemma refresh_completes_on_complete_tables_witness :
  exists msgs self' g',
    refresh_city_supplies World.initial Examples.sixes = (Ok msgs, self', g')
    /\ Stats.supply_refreshes (stats self')
       = Stats.supply_refreshes (stats World.initial) + 1.
Proof.
  apply (refresh_completes_on_complete_tables World.initial Examples.sixes).
  intros city_id city I. simpl in I.
  destruct I as [[= <- <-]|[[= <- <-]|[[= <- <-]|[]]]];
    (eexists; split; [reflexivity|]);
    intros good_id base_amount J; simpl in J;
    repeat (destruct J as [[= <- <-]|J]; [reflexivity|]); destruct J.
Defined.

Lemma refresh_goods_announces (goods : Dict.t Good.t) (city : City.t)
    (base_stocks : list (string * Z)) :
  forall stock g msgs e stock' g' msgs',
    refresh_goods goods city base_stocks stock g msgs = (e, stock', g', msgs') ->
    announces_increases msgs -> announces_increases msgs'.
Proof.
  induction base_stocks as [|[good_id base_amount] rest IH];
    intros stock g msgs e stock' g' msgs' H A.
  - simpl in H. injection H as _ _ _ <-. exact A.
  - cbn [refresh_goods] in H.
    destruct (City.is_specialty city good_id).
    + destruct (Random.randint 2 8 g) as [d g1].
      destruct (Dict.get goods good_id) as [good|];
        [|injection H as _ _ _ <-; exact A].
      apply (IH _ _ _ _ _ _ _ H).
      intros c k delta I. apply in_app_or in I. destruct I as [I|[I|[]]].
      * exact (A _ _ _ I).
      * discriminate I.
    + destruct (Random.randint (-2) 4 g) as [d g1].
      destruct (_ >? _) eqn:Gt; [|exact (IH _ _ _ _ _ _ _ H A)].
      destruct (Dict.get goods good_id) as [good|];
        [|injection H as _ _ _ <-; exact A].
      apply (IH _ _ _ _ _ _ _ H).
      intros c k delta I. apply in_app_or in I. destruct I as [I|[I|[]]].
      * exact (A _ _ _ I).
      * injection I as _ _ <-. apply Z.gtb_lt in Gt. lia.
Qed.

Lemma refresh_cities_announces (goods : Dict.t Good.t)
    (bsl : Dict.t (Dict.t Z)) (todo : list (string * City.t)) :
  forall g msgs e cities' g' msgs',
    refresh_cities goods bsl todo g msgs = (e, cities', g', msgs') ->
    announces_increases msgs -> announces_increases msgs'.
Proof.
  induction todo as [|[cid city] rest IH]; intros g msgs e cities' g' msgs' H A.
  - simpl in H. injection H as _ _ _ <-. exact A.
  - simpl in H.
    destruct (Dict.get bsl cid) as [base_stocks|];
      [|injection H as _ _ _ <-; exact A].
    destruct (refresh_goods goods city base_stocks (City.stock city) g msgs)
      as [[[e1 stock1] g1] msgs1] eqn:R.
    pose proof (refresh_goods_announces _ _ _ _ _ _ _ _ _ _ R A) as A1.
    destruct e1 as [ex|]; [injection H as _ _ _ <-; exact A1|].
    destruct (refresh_cities goods bsl rest g1 msgs1)
      as [[[e2 rest'] g2] msgs2] eqn:R2.
    injection H as _ _ _ <-. exact (IH _ _ _ _ _ _ R2 A1).
Qed.

(** X19.  Every restock line of the refresh report announces an
    increase of at least one unit. *)
Theorem restock_lines_announce_increases (self self' : t) (g g' : Random.t)
    (msgs : list message) :
  refresh_city_supplies self g = (Ok msgs, self', g') ->
  forall city good delta, In (Restock city good delta) msgs -> 1 <= delta.
Proof.
  intros H.
  destruct (refresh_city_supplies_inv _ _ _ _ _ H) as (e & cities' & msgs' & R & E).
  destruct e as [ex|]; [destruct E as [E _]; discriminate E|].
  destruct E as [[= ->] _].
  apply (refresh_cities_announces _ _ _ _ _ _ _ _ _ R).
  intros ? ? ? [].
Qed.

Lemma restock_lines_announce_increases_witness :
  exists msgs self' g',
    refresh_city_supplies World.initial Examples.sixes = (Ok msgs, self', g')
    /\ In (Restock "Carthage" "Olive Oil" 4) msgs
    /\ 1 <= 4.
Proof.
  eexists. eexists. eexists.
  split; [vm_compute; reflexivity|].
  split; [right; left; reflexivity|].
  eapply (restock_lines_announce_increases World.initial _ Examples.sixes _ _
            ltac:(vm_compute; reflexivity) "Carthage" "Olive Oil" 4).
  right. left. reflexivity.
Defined.

Lemma refresh_cities_frame (goods : Dict.t Good.t)
    (bsl : Dict.t (Dict.t Z)) (todo : list (string * City.t)) :
  forall g msgs e cities' g' msgs',
    refresh_cities goods bsl todo g msgs = (e, cities', g', msgs') ->
    Dict.keys cities' = Dict.keys todo
    /\ forall city_id city',
         Dict.get cities' city_id = Some city' ->
         exists city,
           Dict.get todo city_id = Some city
           /\ city' = City.with_stock city (City.stock city').
Proof.
  induction todo as [|[cid city] rest IH]; intros g msgs e cities' g' msgs' H.
  - simpl in H. injection H as _ <- _ _. split; [reflexivity|discriminate].
  - simpl in H.
    destruct (Dict.get bsl cid) as [base_stocks|].
    + destruct (refresh_goods goods city base_stocks (City.stock city) g msgs)
        as [[[e1 stock1] g1] msgs1] eqn:R.
      destruct e1 as [ex|].
      * injection H as _ <- _ _. split; [reflexivity|].
        intros city_id city'. simpl.
        destruct (String.eqb city_id cid).
        -- intros [= <-]. exists city. split; reflexivity.
        -- intros G. destruct (Dict.get rest city_id) as [c|] eqn:G';
             [|discriminate G].
           injection G as <-. exists c. split; [reflexivity|].
           destruct c; reflexivity.
      * destruct (refresh_cities goods bsl rest g1 msgs1)
          as [[[e2 rest'] g2] msgs2] eqn:R2.
        injection H as _ <- _ _.
        destruct (IH _ _ _ _ _ _ R2) as [Kk Kc].
        split; [simpl; f_equal; exact Kk|].
        intros city_id city'. simpl.
        destruct (String.eqb city_id cid).
        -- intros [= <-]. exists city. split; reflexivity.
        -- apply Kc.
    + injection H as _ <- _ _. split; [reflexivity|].
      intros city_id city' G. exists city'. split; [exact G|].
      destruct city'; reflexivity.
Qed.

(** X20.  A refresh, completed or cut short, touches only the stocks
    and its own counter: money, hold, day, place, charters and catalogue
    are as before, the cities are the same in the same order, and each
    keeps its name, region and modifiers. *)
Theorem refresh_touches_only_stocks (self self' : t) (g g' : Random.t)
    (r : Res (list message)) :
  refresh_city_supplies self g = (r, self', g') ->
  money self' = money self /\ cargo self' = cargo self
  /\ day self' = day self /\ current_city self' = current_city self
  /\ charters self' = charters self /\ goods self' = goods self
  /\ last_supply_refresh_day self' = last_supply_refresh_day self
  /\ Dict.keys (cities self') = Dict.keys (cities self)
  /\ forall city_id city',
       Dict.get (cities self') city_id = Some city' ->
       exists city,
         Dict.get (cities self) city_id = Some city
         /\ city' = City.with_stock city (City.stock city').
Proof.
  intros H.
  destruct (refresh_city_supplies_inv _ _ _ _ _ H) as (e & cities' & msgs & R & E).
  destruct (refresh_cities_frame _ _ _ _ _ _ _ _ _ R) as [Kk Kc].
  destruct e as [ex|]; destruct E as [_ ->]; cbn; repeat split; assumption.
Qed.

Lemma refresh_touches_only_stocks_witness :
  exists r self' g',
    refresh_city_supplies World.initial Examples.sixes = (r, self', g')
    /\ money self' = money World.initial /\ cargo self' = cargo World.initial.
Proof.
  destruct (refresh_city_supplies World.initial Examples.sixes)
    as [[r self'] g'] eqn:E.
  exists r, self', g'. split; [reflexivity|].
  destruct (refresh_touches_only_stocks _ _ _ _ _ E) as (M & C & _).
  split; assumption.
Defined.

End Schedule.

(** ** Net worth *)

Section NetWorth.

Import GameState.

Lemma sum_sell_prices_none (self : t) (good_id : string) (cities : list string) :
  (forall city_id price,
      In city_id cities ->
      get_price self good_id city_id false = Ok price ->
      SurrealNumber.is_legal price = false) ->
  forall avg_price price_count,
    sum_sell_prices self good_id cities avg_price price_count
    = (avg_price, price_count).
Proof.
  induction cities as [|city_id rest IH]; intros K avg_price price_count;
    [reflexivity|].
  simpl.
  destruct (get_price self good_id city_id false) as [price|] eqn:P.
  - rewrite (K city_id price (or_introl eq_refl) P).
    apply IH. intros c p I. apply K. now right.
  - apply IH. intros c p I. apply K. now right.
Qed.

Lemma add_cargo_value_none (self : t) (items : list (string * Z)) :
  (forall good_id quantity city_id price,
      In (good_id, quantity) items ->
      In city_id (Dict.keys (cities self)) ->
      get_price self good_id city_id false = Ok price ->
      SurrealNumber.is_legal price = false) ->
  forall total_worth, add_cargo_value self items total_worth = Ok total_worth.
Proof.
  induction items as [|[good_id quantity] rest IH]; intros K total_worth;
    [reflexivity|].
  cbn [add_cargo_value].
  rewrite sum_sell_prices_none
    by (intros c p I; apply (K good_id quantity c p (or_introl eq_refl) I)).
  cbn. apply IH. intros k q c p I. apply (K k q c p). now right.
Qed.

(** X21.  Cargo that no city would legally buy adds nothing: when, for
    every good held, the selling quote of every city raises or is
    illegal, the net worth is the money; in particular with an empty
    hold. *)
Theorem unsellable_cargo_is_worth_nothing (self : t) :
  (forall good_id quantity city_id price,
      In (good_id, quantity) (cargo self) ->
      In city_id (Dict.keys (cities self)) ->
      get_price self good_id city_id false = Ok price ->
      SurrealNumber.is_legal price = false) ->
  get_net_worth self = Ok (money self).
Proof.
  intros K. unfold get_net_worth. rewrite add_cargo_value_none by exact K.
  destruct (money self); reflexivity.
Qed.

Lemma unsellable_cargo_is_worth_nothing_witness :
  get_net_worth Examples.stowaway = Ok (money Examples.stowaway).
Proof.
  apply (unsellable_cargo_is_worth_nothing Examples.stowaway).
  intros good_id quantity city_id price I _ H. simpl in I.
  destruct I as [[= <- <-]|[]]. discriminate H.
Defined.

Lemma sum_sell_prices_count (self : t) (good_id : string) (cities : list string) :
  forall avg_price price_count,
    price_count
    <= snd (sum_sell_prices self good_id cities avg_price price_count)
    <= price_count + Z.of_nat (List.length cities).
Proof.
  induction cities as [|city_id rest IH]; intros avg_price price_count.
  - simpl. lia.
  - cbn [sum_sell_prices List.length]. rewrite Nat2Z.inj_succ.
    destruct (get_price self good_id city_id false) as [price|].
    + destruct (SurrealNumber.is_legal price).
      * specialize (IH (SurrealNumber.__add__ avg_price price) (price_count + 1)).
        lia.
      * specialize (IH avg_price price_count). lia.
    + specialize (IH avg_price price_count). lia.
Qed.

(** Dividing by a count between 1 and 2^53 never fails. *)
Lemma divide_by_count (x : float) (n : Z) :
  0 < n < 2 ^ 53 ->
  exists q,
    (m <- Py.float_of_int n ;; Py.float_truediv x m) = Ok q.
Proof.
  intros B. rewrite float_of_int_exact by lia. cbn [bind].
  unfold Py.float_truediv.
  assert (N : (SF2Prim (BN n) =? 0)%float = false).
  { rewrite eqb_spec, Prim2SF_BN by lia.
    destruct n as [|p|p]; try lia.
    change (BN (Zpos p)) with (BN (cond_Zopp false (Zpos p))).
    rewrite (BN_finite false p) by lia. reflexivity. }
  rewrite N. eauto.
Qed.

Lemma add_cargo_value_defined (self : t) (items : list (string * Z)) :
  (forall good_id quantity, In (good_id, quantity) items -> Z.abs quantity < 2 ^ 53) ->
  Z.of_nat (List.length (cities self)) < 2 ^ 53 ->
  forall total_worth, exists worth, add_cargo_value self items total_worth = Ok worth.
Proof.
  intros Q C.
  induction items as [|[good_id quantity] rest IH]; intros total_worth.
  - simpl. eauto.
  - cbn [add_cargo_value].
    pose proof (sum_sell_prices_count self good_id (Dict.keys (cities self))
                  (SurrealNumber.mk 0 0 0) 0) as B.
    assert (Lk : List.length (Dict.keys (cities self)) = List.length (cities self))
      by apply length_map.
    rewrite Lk in B.
    destruct (sum_sell_prices self good_id (Dict.keys (cities self))
                (SurrealNumber.mk 0 0 0) 0) as [avg_price price_count].
    cbn [snd] in B.
    assert (IH' : forall total_worth,
               exists worth, add_cargo_value self rest total_worth = Ok worth).
    { apply IH. intros k q I. apply (Q k q). now right. }
    destruct (Z.gtb_spec price_count 0) as [P|P]; [|apply IH'].
    destruct (divide_by_count (SurrealNumber.a avg_price) price_count ltac:(lia))
      as [a' ->].
    destruct (divide_by_count (SurrealNumber.b avg_price) price_count ltac:(lia))
      as [b' ->].
    cbn [bind]. unfold SurrealNumber.__mul__. cbn [Py.to_float].
    rewrite float_of_int_exact by (apply (Q good_id quantity); now left).
    cbn [bind]. apply IH'.
Qed.

(** X22.  The net worth is defined whenever the quantities held are
    below 2^53 in magnitude (and the cities fewer than 2^53): goods and
    cities the pricing engine rejects are skipped, not reported. *)
Theorem net_worth_is_defined (self : t) :
  (forall good_id quantity,
      In (good_id, quantity) (cargo self) -> Z.abs quantity < 2 ^ 53) ->
  Z.of_nat (List.length (cities self)) < 2 ^ 53 ->
  exists worth, get_net_worth self = Ok worth.
Proof.
  intros Q C. unfold get_net_worth. apply add_cargo_value_defined; assumption.
Qed.

Lemma net_worth_is_defined_witness :
  exists worth, get_net_worth Examples.laden = Ok worth.
Proof.
  apply (net_worth_is_defined Examples.laden).
  - intros good_id quantity I. simpl in I.
    destruct I as [[= <- <-]|[[= <- <-]|[]]]; reflexivity.
  - reflexivity.
Defined.

End NetWorth.

(** ** Travel *)

Section Travel.

Import GameState.

(** X23.  A journey takes between the route's shortest and longest
    time; a route whose shortest time exceeds its longest makes [randint]
    raise ValueError, before anything is drawn. *)
Theorem travel_time_is_in_range (route : Route.t) (g : Random.t) :
  (Route.min_days route <= Route.max_days route ->
   exists days,
     fst (Route.travel_time route g) = Ok days
     /\ Route.min_days route <= days <= Route.max_days route)
  /\ (Route.max_days route < Route.min_days route ->
      Route.travel_time route g = (Raise ValueError, g)).
Proof.
  unfold Route.travel_time. split; intros H.
  - destruct (Z.gtb_spec (Route.min_days route) (Route.max_days route)); [lia|].
    pose proof (randint_range _ _ g H) as R.
    destruct (Random.randint _ _ g) as [days g']. exists days. split; [reflexivity|exact R].
  - destruct (Z.gtb_spec (Route.min_days route) (Route.max_days route)); [reflexivity|lia].
Qed.

Lemma travel_time_is_in_range_witness :
  exists days,
    fst (Route.travel_time (Route.mk "carthage" "gadir" 7 10 0.18) Examples.sixes)
    = Ok days
    /\ 7 <= days <= 10.
Proof.
  apply (proj1 (travel_time_is_in_range (Route.mk "carthage" "gadir" 7 10 0.18)
                  Examples.sixes)).
  simpl. lia.
Defined.

Lemma travel_time_ok (route : Route.t) (g g' : Random.t) (days : Z) :
  Route.travel_time route g = (Ok days, g') ->
  Route.min_days route <= days <= Route.max_days route.
Proof.
  unfold Route.travel_time.
  destruct (Z.gtb_spec (Route.min_days route) (Route.max_days route)) as [L|L];
    [discriminate|].
  pose proof (randint_range _ _ g L) as R.
  destruct (Random.randint _ _ g) as [d g1]. intros [= <- _]. exact R.
Qed.

Lemma same_but_supplies_refl (s : t) : same_but_supplies s s.
Proof. unfold same_but_supplies. repeat split; lia. Qed.

Lemma same_but_supplies_trans (s1 s2 s3 : t) :
  same_but_supplies s1 s2 -> same_but_supplies s2 s3 -> same_but_supplies s1 s3.
Proof.
  unfold same_but_supplies.
  intros (A1 & A2 & A3 & A4 & A5 & A6 & A7)
         (B1 & B2 & B3 & B4 & B5 & B6 & B7).
  repeat split; try congruence.
  intros c k. specialize (A7 c k). specialize (B7 c k). lia.
Qed.

(** A refresh moves only the supplies, and counts itself when it
    completes. *)
Lemma refresh_city_supplies_keeps (self self' : t) (g g' : Random.t)
    (r : Res (list message)) :
  refresh_city_supplies self g = (r, self', g') ->
  same_but_supplies self self'
  /\ last_supply_refresh_day self' = last_supply_refresh_day self
  /\ Stats.supply_refreshes (stats self')
     = Stats.supply_refreshes (stats self)
       + (match r with Ok _ => 1 | Raise _ => 0 end).
Proof.
  intros H.
  destruct (refresh_city_supplies_inv _ _ _ _ _ H) as (e & cities' & msgs & R & E).
  pose proof (refresh_cities_monotone _ _ _ _ _ _ _ _ _ R) as M.
  unfold same_but_supplies.
  destruct e as [ex|]; destruct E as [-> ->]; cbn; repeat split; try lia;
    exact M.
Qed.

Lemma check_supply_refresh_keeps (self self' : t) (g g' : Random.t)
    (r : Res bool) :
  check_supply_refresh self g = (r, self', g') ->
  same_but_supplies self self'
  /\ match r with
     | Ok true =>
         14 <= day self - last_supply_refresh_day self
         /\ last_supply_refresh_day self' = day self
         /\ Stats.supply_refreshes (stats self')
            = Stats.supply_refreshes (stats self) + 1
     | Ok false =>
         day self - last_supply_refresh_day self < 14 /\ self' = self /\ g' = g
     | Raise _ => True
     end.
Proof.
  unfold check_supply_refresh.
  destruct (Z.geb_spec (day self - last_supply_refresh_day self) 14) as [D|D].
  - destruct (refresh_city_supplies self g) as [[r1 self1] g1] eqn:R.
    destruct (refresh_city_supplies_keeps _ _ _ _ _ R) as (S & L & N).
    destruct r1 as [msgs|ex]; intros [= <- <- <-].
    + split.
      * unfold same_but_supplies in *. cbn. exact S.
      * cbn. destruct S as (_ & Sd & _). repeat split; lia.
    + split; [exact S|exact I].
  - intros [= <- <- <-]. split; [apply same_but_supplies_refl|].
    repeat split; lia.
Qed.

(** What an event leaves: everything but the money, the crew's morale
    and the count of events. *)
Lemma handle_travel_event_inv (self self' : Game.t) (g g' : Random.t)
    (r : Res event) :
  Engine._handle_travel_event self g = (r, self', g') ->
  exists met,
    r = Ok met
    /\ Game.routes self' = Game.routes self
    /\ Game.owns_house self' = Game.owns_house self
    /\ Game.game_completed self' = Game.game_completed self
    /\ same_but_supplies
         (with_money (Game.state self) (money (Game.state self')))
         (Game.state self')
    /\ cities (Game.state self') = cities (Game.state self)
    /\ last_supply_refresh_day (Game.state self')
       = last_supply_refresh_day (Game.state self)
    /\ Stats.supply_refreshes (stats (Game.state self'))
       = Stats.supply_refreshes (stats (Game.state self))
    /\ (if match met with Pirates => true | _ => false end
        then money (Game.state self')
             = SurrealNumber.mk
                 (SurrealNumber.a (money (Game.state self)) - 50)
                 (SurrealNumber.b (money (Game.state self)))
                 (SurrealNumber.c (money (Game.state self)))
        else money (Game.state self') = money (Game.state self)).
Proof.
  unfold Engine._handle_travel_event.
  destruct (Random.randbelow _ g) as [i g1].
  destruct (nth (Z.to_nat i) Engine.events Pirates) eqn:Ev.
  - unfold SurrealNumber.sub_number.
    change (Py.to_float (Py.Int 50)) with (@Ok float 50%float). cbn [bind].
    intros [= <- <- <-]. exists Pirates.
    unfold same_but_supplies, stock_of. cbn. repeat split; try reflexivity; lia.
  - intros [= <- <- <-]. exists Storm.
    unfold same_but_supplies, stock_of. cbn. repeat split; try reflexivity; lia.
  - intros [= <- <- <-]. exists Winds.
    unfold same_but_supplies, stock_of. cbn. repeat split; try reflexivity; lia.
  - intros [= <- <- <-]. exists Trader.
    unfold same_but_supplies, stock_of. cbn. repeat split; try reflexivity; lia.
Qed.

(** The steps of a journey that ends with an arrival. *)
Lemma travel_arrived (self self' : Game.t) (choice_input : option Z)
    (g g' : Random.t) (name : string) (travel_time : Z)
    (caravans : option (list message)) (met : option event) :
  Engine.travel self choice_input g
  = (Ok (Arrived name travel_time caravans met), self', g') ->
  exists route g1 st4 g2 refresh_occurred st5 g3,
    In route (Game.routes self)
    /\ Route.from_city route = current_city (Game.state self)
    /\ Route.travel_time route g = (Ok travel_time, g1)
    /\ check_supply_refresh (departed (Game.state self) route travel_time) g1
       = (Ok refresh_occurred, st4, g2)
    /\ (if refresh_occurred
        then exists msgs,
               refresh_city_supplies st4 g2 = (Ok msgs, st5, g3)
               /\ caravans = Some msgs
        else st5 = st4 /\ g3 = g2 /\ caravans = None)
    /\ (exists g4,
          match met with
          | None => self' = Game.with_state self st5
          | Some event =>
              Engine._handle_travel_event (Game.with_state self st5) g4
              = (Ok event, self', g')
          end)
    /\ exists city,
         Dict.get (cities (Game.state self')) (current_city (Game.state self'))
         = Some city
         /\ City.name city = name.
Proof.
  unfold Engine.travel. fold (departed (Game.state self)).
  destruct (filter _ (Game.routes self)) as [|r0 rs] eqn:F; [discriminate|].
  destruct (Engine.list_destinations _ _) as [listed|]; [|discriminate].
  destruct choice_input as [typed|]; [|discriminate].
  destruct (GameEngine.select (r0 :: rs) (typed - 1)) as [route|] eqn:S;
    [|discriminate].
  apply select_In in S. rewrite <- F in S. apply filter_In in S.
  destruct S as [I Fr]. apply String.eqb_eq in Fr.
  destruct (Route.travel_time route g) as [[t|[]] g1] eqn:T; try discriminate.
  fold (departed (Game.state self) route t).
  destruct (check_supply_refresh (departed (Game.state self) route t) g1)
    as [[[refresh_occurred|ex] st4] g2] eqn:C; [|discriminate].
  destruct refresh_occurred.
  - destruct (refresh_city_supplies st4 g2) as [[[msgs|ex] st5] g3] eqn:R;
      [|discriminate].
    destruct (Random.random g3) as [roll g4].
    destruct (roll <? Route.base_risk route)%float.
    + destruct (Engine._handle_travel_event (Game.with_state self st5) g4)
        as [[[ev|ex] self6] g5] eqn:E; [|discriminate].
      destruct (Dict.get _ _) as [city|] eqn:G; [|discriminate].
      intros [= <- <- <- <- <- <-].
      exists route, g1, st4, g2, true, st5, g3.
      split; [exact I|split; [exact Fr|split; [exact T|split; [exact C|]]]].
      split; [exists msgs; split; [exact R|reflexivity]|].
      split; [exists g4; first [exact E|reflexivity]|].
      exists city. split; [exact G|reflexivity].
    + destruct (Dict.get _ _) as [city|] eqn:G; [|discriminate].
      intros [= <- <- <- <- <- <-].
      exists route, g1, st4, g2, true, st5, g3.
      split; [exact I|split; [exact Fr|split; [exact T|split; [exact C|]]]].
      split; [exists msgs; split; [exact R|reflexivity]|].
      split; [exists g4; first [exact E|reflexivity]|].
      exists city. split; [exact G|reflexivity].
  - destruct (Random.random g2) as [roll g4].
    destruct (roll <? Route.base_risk route)%float.
    + destruct (Engine._handle_travel_event (Game.with_state self st4) g4)
        as [[[ev|ex] self6] g5] eqn:E; [|discriminate].
      destruct (Dict.get _ _) as [city|] eqn:G; [|discriminate].
      intros [= <- <- <- <- <- <-].
      exists route, g1, st4, g2, false, st4, g2.
      split; [exact I|split; [exact Fr|split; [exact T|split; [exact C|]]]].
      split; [repeat split|].
      split; [exists g4; first [exact E|reflexivity]|].
      exists city. split; [exact G|reflexivity].
    + destruct (Dict.get _ _) as [city|] eqn:G; [|discriminate].
      intros [= <- <- <- <- <- <-].
      exists route, g1, st4, g2, false, st4, g2.
      split; [exact I|split; [exact Fr|split; [exact T|split; [exact C|]]]].
      split; [repeat split|].
      split; [exists g4; first [exact E|reflexivity]|].
      exists city. split; [exact G|reflexivity].
Qed.

Lemma mem_app_last (x : string) (l : list string) :
  Dict.mem x (l ++ [x]) = true.
Proof.
  induction l as [|y l IH]; simpl.
  - rewrite String.eqb_refl. reflexivity.
  - rewrite IH. apply orb_true_r.
Qed.

Lemma count_route_visited (st : Stats.t) (city_id : string) :
  Dict.mem city_id (Stats.cities_visited (Engine.count_route st city_id)) = true.
Proof.
  unfold Engine.count_route. cbn [Stats.cities_visited].
  destruct (Dict.mem city_id (Stats.cities_visited st)) eqn:M;
    [exact M|apply mem_app_last].
Qed.

(** The state an arrival leaves, from the state on departure. *)
Lemma arrival_state (self self' : Game.t) (choice_input : option Z)
    (g g' : Random.t) (name : string) (travel_time : Z)
    (caravans : option (list message)) (met : option event) :
  Engine.travel self choice_input g
  = (Ok (Arrived name travel_time caravans met), self', g') ->
  exists route,
    In route (Game.routes self)
    /\ Route.from_city route = current_city (Game.state self)
    /\ Route.min_days route <= travel_time <= Route.max_days route
    /\ same_but_supplies
         (with_money (departed (Game.state self) route travel_time)
                     (money (Game.state self')))
         (Game.state self')
    /\ (if match met with Some Pirates => true | _ => false end
        then money (Game.state self')
             = SurrealNumber.mk
                 (SurrealNumber.a (money (Game.state self)) - 50)
                 (SurrealNumber.b (money (Game.state self)))
                 (SurrealNumber.c (money (Game.state self)))
        else money (Game.state self') = money (Game.state self))
    /\ (if day (Game.state self) + travel_time
           - last_supply_refresh_day (Game.state self) >=? 14
        then caravans <> None
             /\ last_supply_refresh_day (Game.state self')
                = day (Game.state self) + travel_time
             /\ Stats.supply_refreshes (stats (Game.state self'))
                = Stats.supply_refreshes (stats (Game.state self)) + 2
        else caravans = None
             /\ last_supply_refresh_day (Game.state self')
                = last_supply_refresh_day (Game.state self)
             /\ Stats.supply_refreshes (stats (Game.state self'))
                = Stats.supply_refreshes (stats (Game.state self)))
    /\ exists city,
         Dict.get (cities (Game.state self')) (Route.to_city route) = Some city
         /\ City.name city = name.
Proof.
  intros H.
  destruct (travel_arrived _ _ _ _ _ _ _ _ _ H)
    as (route & g1 & st4 & g2 & refresh_occurred & st5 & g3
        & I & Fr & T & C & R & [g4 E] & city & G & N).
  exists route.
  pose proof (travel_time_ok _ _ _ _ T) as Tr.
  destruct (check_supply_refresh_keeps _ _ _ _ _ C) as [S4 C4].
  set (st := Game.state self) in *.
  set (dep := departed st route travel_time) in *.
  (* the second refresh *)
  assert (S5 : same_but_supplies st4 st5
               /\ last_supply_refresh_day st5 = last_supply_refresh_day st4
               /\ Stats.supply_refreshes (stats st5)
                  = Stats.supply_refreshes (stats st4)
                    + (if refresh_occurred then 1 else 0)
               /\ (if refresh_occurred then caravans <> None else caravans = None)).
  { destruct refresh_occurred.
    - destruct R as (msgs & R & ->).
      destruct (refresh_city_supplies_keeps _ _ _ _ _ R) as (S & L & K).
      split; [exact S|split; [exact L|split; [exact K|discriminate]]].
    - destruct R as (-> & _ & ->).
      split; [apply same_but_supplies_refl|].
      split; [reflexivity|split; [lia|reflexivity]]. }
  destruct S5 as (S5 & L5 & K5 & Cv).
  pose proof (same_but_supplies_trans _ _ _ S4 S5) as S45.
  (* the event *)
  assert (Ev : same_but_supplies (with_money st5 (money (Game.state self')))
                 (Game.state self')
               /\ last_supply_refresh_day (Game.state self')
                  = last_supply_refresh_day st5
               /\ Stats.supply_refreshes (stats (Game.state self'))
                  = Stats.supply_refreshes (stats st5)
               /\ cities (Game.state self') = cities st5
               /\ (if match met with Some Pirates => true | _ => false end
                   then money (Game.state self')
                        = SurrealNumber.mk
                            (SurrealNumber.a (money st5) - 50)
                            (SurrealNumber.b (money st5))
                            (SurrealNumber.c (money st5))
                   else money (Game.state self') = money st5)).
  { destruct met as [ev|].
    - destruct (handle_travel_event_inv _ _ _ _ _ E)
        as (met & [= <-] & _ & _ & _ & Se & Ce & Le & Ke & Me).
      cbn [Game.state Game.with_state] in *.
      split; [exact Se|split; [exact Le|split; [exact Ke|split; [exact Ce|]]]].
      destruct ev; exact Me.
    - subst self'. cbn [Game.state Game.with_state].
      split; [destruct st5; apply same_but_supplies_refl|].
      repeat split; reflexivity. }
  destruct Ev as (Se & Le & Ke & Ce & Me).
  assert (M45 : money st5 = money st).
  { destruct S45 as (_ & _ & M & _). exact M. }
  split; [exact I|split; [exact Fr|split; [exact Tr|]]].
  split.
  { unfold same_but_supplies in *. cbn in *.
    destruct S45 as (A1 & A2 & A3 & A4 & A5 & A6 & A7).
    destruct Se as (B1 & B2 & B3 & B4 & B5 & B6 & B7).
    repeat split; try congruence.
    intros c k. specialize (A7 c k). specialize (B7 c k).
    unfold stock_of in *. cbn in *. lia. }
  split; [rewrite <- M45; exact Me|].
  split.
  { change (day st + travel_time - last_supply_refresh_day st)
      with (day dep - last_supply_refresh_day dep).
    destruct refresh_occurred.
    - destruct C4 as (D & L4 & K4).
      destruct (Z.geb_spec (day dep - last_supply_refresh_day dep) 14); [|lia].
      split; [exact Cv|]. split; [cbn in *; lia|].
      change (Stats.supply_refreshes (stats st))
        with (Stats.supply_refreshes (stats dep)). lia.
    - destruct C4 as (D & -> & _).
      destruct (Z.geb_spec (day dep - last_supply_refresh_day dep) 14); [lia|].
      split; [exact Cv|]. split; [cbn in *; lia|].
      change (Stats.supply_refreshes (stats st))
        with (Stats.supply_refreshes (stats dep)). lia. }
  exists city. split; [|exact N].
  destruct Se as (B1 & _). destruct S45 as (A1 & _).
  cbn in B1, A1. rewrite <- A1, <- B1. exact G.
Qed.

(** X24.  An arrival is booked: the route taken leaves the city the
    player was in, the day advances by the travel time, which lies
    between the route's shortest and longest, the player is in the
    destination, whose name is announced, the destination is among the
    cities visited and one more route is counted. *)
Theorem arrival_is_booked (self self' : Game.t) (choice_input : option Z)
    (g g' : Random.t) (name : string) (travel_time : Z)
    (caravans : option (list message)) (met : option event) :
  Engine.travel self choice_input g
  = (Ok (Arrived name travel_time caravans met), self', g') ->
  exists route city,
    In route (Game.routes self)
    /\ Route.from_city route = current_city (Game.state self)
    /\ Route.min_days route <= travel_time <= Route.max_days route
    /\ day (Game.state self') = day (Game.state self) + travel_time
    /\ current_city (Game.state self') = Route.to_city route
    /\ Dict.get (cities (Game.state self')) (Route.to_city route) = Some city
    /\ City.name city = name
    /\ Dict.mem (Route.to_city route)
         (Stats.cities_visited (stats (Game.state self'))) = true
    /\ Stats.routes_traveled (stats (Game.state self'))
       = Stats.routes_traveled (stats (Game.state self)) + 1.
Proof.
  intros H.
  destruct (arrival_state _ _ _ _ _ _ _ _ _ H)
    as (route & I & Fr & Tr & S & _ & _ & city & G & N).
  exists route, city.
  destruct S as (A1 & A2 & _ & _ & A5 & A6 & _). cbn in A1, A2, A5, A6.
  repeat split; try assumption; try lia.
  rewrite A6. apply count_route_visited.
Qed.

Lemma arrival_is_booked_witness :
  exists self' g' route city,
    Engine.travel World.new_game (Some 1) Examples.sixes
    = (Ok (Arrived "Gadir" 9 None (Some Winds)), self', g')
    /\ In route (Game.routes World.new_game)
    /\ Route.from_city route = current_city (Game.state World.new_game)
    /\ Route.min_days route <= 9 <= Route.max_days route
    /\ day (Game.state self') = day (Game.state World.new_game) + 9
    /\ current_city (Game.state self') = Route.to_city route
    /\ Dict.get (cities (Game.state self')) (Route.to_city route) = Some city
    /\ City.name city = "Gadir"
    /\ Dict.mem (Route.to_city route)
         (Stats.cities_visited (stats (Game.state self'))) = true
    /\ Stats.routes_traveled (stats (Game.state self'))
       = Stats.routes_traveled (stats (Game.state World.new_game)) + 1.
Proof.
  eexists. eexists.
  destruct (arrival_is_booked World.new_game _ (Some 1) Examples.sixes _
              "Gadir" 9 None (Some Winds) ltac:(vm_compute; reflexivity))
    as (route & city & H).
  exists route, city. split; [vm_compute; reflexivity|exact H].
Defined.

(** X25.  When the arrival falls 14 days or more after the last
    refresh, the supplies are refreshed twice, once by the check and once
    more by [travel] itself: the refresh counter goes up by two, the
    report carries the second refresh, and the day of arrival is
    recorded.  Otherwise nothing is refreshed. *)
Theorem arrival_on_caravan_day_refreshes_twice (self self' : Game.t)
    (choice_input : option Z) (g g' : Random.t) (name : string)
    (travel_time : Z) (caravans : option (list message)) (met : option event) :
  Engine.travel self choice_input g
  = (Ok (Arrived name travel_time caravans met), self', g') ->
  if day (Game.state self) + travel_time
     - last_supply_refresh_day (Game.state self) >=? 14
  then caravans <> None
       /\ last_supply_refresh_day (Game.state self')
          = day (Game.state self) + travel_time
       /\ Stats.supply_refreshes (stats (Game.state self'))
          = Stats.supply_refreshes (stats (Game.state self)) + 2
  else caravans = None
       /\ last_supply_refresh_day (Game.state self')
          = last_supply_refresh_day (Game.state self)
       /\ Stats.supply_refreshes (stats (Game.state self'))
          = Stats.supply_refreshes (stats (Game.state self)).
Proof.
  intros H.
  destruct (arrival_state _ _ _ _ _ _ _ _ _ H)
    as (route & _ & _ & _ & _ & _ & K & _).
  exact K.
Qed.

Lemma arrival_on_caravan_day_refreshes_twice_witness :
  exists self' g' caravans met,
    Engine.travel World.new_game (Some 2) Examples.sevens
    = (Ok (Arrived "Tyre" 14 caravans met), self', g')
    /\ caravans <> None
    /\ last_supply_refresh_day (Game.state self') = 15
    /\ Stats.supply_refreshes (stats (Game.state self')) = 2.
Proof.
  eexists. eexists. eexists. eexists.
  split; [vm_compute; reflexivity|].
  exact (arrival_on_caravan_day_refreshes_twice World.new_game _ (Some 2)
           Examples.sevens _ "Tyre" 14 _ _ ltac:(vm_compute; reflexivity)).
Defined.

(** X26.  Travel moves no goods: after an arrival the hold is as it
    was, no stock of any city is lower, and the money is as it was unless
    pirates were met, who take exactly 50 from its real part, whatever is
    left. *)
Theorem travel_moves_no_goods (self self' : Game.t) (choice_input : option Z)
    (g g' : Random.t) (name : string) (travel_time : Z)
    (caravans : option (list message)) (met : option event) :
  Engine.travel self choice_input g
  = (Ok (Arrived name travel_time caravans met), self', g') ->
  cargo (Game.state self') = cargo (Game.state self)
  /\ (forall city_id good_id,
        stock_of (Game.state self) city_id good_id
        <= stock_of (Game.state self') city_id good_id)
  /\ (if match met with Some Pirates => true | _ => false end
      then money (Game.state self')
           = SurrealNumber.mk
               (SurrealNumber.a (money (Game.state self)) - 50)
               (SurrealNumber.b (money (Game.state self)))
               (SurrealNumber.c (money (Game.state self)))
      else money (Game.state self') = money (Game.state self)).
Proof.
  intros H.
  destruct (arrival_state _ _ _ _ _ _ _ _ _ H)
    as (route & _ & _ & _ & S & M & _).
  destruct S as (_ & _ & _ & A4 & _ & _ & A7).
  split; [exact A4|split; [exact A7|exact M]].
Qed.

Lemma travel_moves_no_goods_witness :
  exists self' g',
    Engine.travel World.new_game (Some 1) Examples.eights
    = (Ok (Arrived "Gadir" 7 None (Some Pirates)), self', g')
    /\ cargo (Game.state self') = cargo (Game.state World.new_game)
    /\ money (Game.state self') = SurrealNumber.mk 1190 (-1) 0.
Proof.
  eexists. eexists.
  destruct (travel_moves_no_goods World.new_game _ (Some 1) Examples.eights _
              "Gadir" 7 None (Some Pirates) ltac:(vm_compute; reflexivity))
    as (C & _ & M).
  split; [vm_compute; reflexivity|split; [exact C|exact M]].
Defined.

(** X27.  A journey that does not start changes nothing: with no route
    out of the city, a selection that is not a number or not on the list,
    or a route whose shortest time exceeds its longest, the state is
    exactly what it was. *)
Theorem travel_not_started_changes_nothing (self self' : Game.t)
    (choice_input : option Z) (g g' : Random.t) (r : voyage) :
  Engine.travel self choice_input g = (Ok r, self', g') ->
  (forall name travel_time caravans met,
      r <> Arrived name travel_time caravans met) ->
  self' = self.
Proof.
  unfold Engine.travel. intros H N.
  destruct (filter _ (Game.routes self)) as [|r0 rs];
    [injection H as _ <- _; reflexivity|].
  destruct (Engine.list_destinations _ _) as [listed|]; [|discriminate H].
  destruct choice_input as [typed|]; [|injection H as _ <- _; reflexivity].
  destruct (GameEngine.select (r0 :: rs) (typed - 1)) as [route|];
    [|injection H as _ <- _; reflexivity].
  destruct (Route.travel_time route g) as [[t|[]] g1];
    try discriminate H; try (injection H as _ <- _; reflexivity).
  exfalso.
  destruct (check_supply_refresh _ g1) as [[[refresh_occurred|ex] st4] g2];
    [|discriminate H].
  destruct (if refresh_occurred then _ else _) as [[[cv|ex] st5] g3];
    [|discriminate H].
  destruct (Random.random g3) as [roll g4].
  destruct (if (roll <? Route.base_risk route)%float then _ else _)
    as [[[mt|ex] self6] g5]; [|discriminate H].
  destruct (Dict.get _ _) as [city|]; [|discriminate H].
  injection H as <- _ _. exact (N _ _ _ _ eq_refl).
Qed.

Lemma travel_not_started_changes_nothing_witness :
  Engine.travel World.new_game (Some 3) Examples.sixes
  = (Ok NoSuchRoute, World.new_game, Examples.sixes)
  /\ World.new_game = World.new_game.
Proof.
  split; [vm_compute; reflexivity|].
  apply (travel_not_started_changes_nothing World.new_game World.new_game
           (Some 3) Examples.sixes Examples.sixes NoSuchRoute).
  - vm_compute. reflexivity.
  - intros name travel_time caravans met. discriminate.
Defined.

End Travel.

(** ** The house *)

Section House.

Import GameState.

Lemma SFsub_zero (x : spec_float) : SFsub prec emax x (S754_zero false) = x.
Proof. destruct x as [[]|[]| |s m e]; reflexivity. Qed.

Lemma sub_zero (x : float) : (x - 0)%float = x.
Proof.
  apply Prim2SF_inj. rewrite sub_spec. unfold SF64sub.
  change (Prim2SF 0) with (S754_zero false). apply SFsub_zero.
Qed.

(** X28.  The house is bought at most once.  A purchase succeeds only
    for a player who owns no house and whose money is not below 10000; it
    takes exactly 10000 from the real part of the money, leaves the other
    two parts and the rest of the state alone, sets both victory flags,
    and makes any further purchase fail without effect.  A purchase that
    fails changes nothing. *)
Theorem house_is_bought_once (self self' : Game.t) :
  (Game.purchase_house self = (true, self') ->
   Game.owns_house self = false
   /\ SurrealNumber.__lt__ (money (Game.state self)) Game.house_price = false
   /\ Game.owns_house self' = true /\ Game.game_completed self' = true
   /\ money (Game.state self')
      = SurrealNumber.mk
          (SurrealNumber.a (money (Game.state self)) - 10000)
          (SurrealNumber.b (money (Game.state self)))
          (SurrealNumber.c (money (Game.state self)))
   /\ Game.state self'
      = with_money (Game.state self) (money (Game.state self'))
   /\ Game.purchase_house self' = (false, self'))
  /\ (Game.purchase_house self = (false, self') -> self' = self).
Proof.
  unfold Game.purchase_house, Game.can_afford_house. split.
  - destruct (SurrealNumber.__ge__ _ _) eqn:Ge; cbn [andb]; [|discriminate].
    destruct (Game.owns_house self) eqn:Own; cbn [negb]; [discriminate|].
    intros [= <-]. cbn.
    unfold SurrealNumber.__ge__ in Ge. apply negb_true_iff in Ge.
    rewrite andb_false_r.
    repeat split; try reflexivity; [exact Ge|].
    unfold SurrealNumber.__sub__, Game.house_price. cbn [SurrealNumber.a SurrealNumber.b SurrealNumber.c].
    rewrite !sub_zero. reflexivity.
  - destruct (_ && _); [discriminate|]. intros [= <-]. reflexivity.
Qed.

Lemma house_is_bought_once_witness :
  exists self',
    Game.purchase_house Examples.wealthy = (true, self')
    /\ Game.owns_house self' = true
    /\ money (Game.state self') = SurrealNumber.mk 10000 (-1) 0
    /\ Game.purchase_house self' = (false, self').
Proof.
  eexists.
  destruct (proj1 (house_is_bought_once Examples.wealthy _)
              ltac:(vm_compute; reflexivity))
    as (_ & _ & O & _ & M & _ & P).
  split; [vm_compute; reflexivity|].
  split; [exact O|split; [exact M|exact P]].
Defined.

(** X29.  [buy_house] sells the house only in Carthage, to a player
    without a house whose money is not below 10000; any other answer it
    gives leaves the state exactly as it was. *)
Theorem house_needs_carthage_and_money (self self' : Game.t)
    (r : Res house_report) :
  Engine.buy_house self = (r, self') ->
  (forall screen,
      r = Ok (Victory screen) ->
      current_city (Game.state self) = "carthage"
      /\ Game.owns_house self = false
      /\ SurrealNumber.__lt__ (money (Game.state self)) Game.house_price = false
      /\ Game.owns_house self' = true
      /\ Game.game_completed self' = true)
  /\ ((forall screen, r <> Ok (Victory screen)) ->
      (forall e, r <> Raise e) ->
      self' = self).
Proof.
  unfold Engine.buy_house.
  destruct (String.eqb_spec (current_city (Game.state self)) "carthage") as [C|C];
    cbn [negb]; [|intros [= <- <-]; split; [discriminate|reflexivity]].
  destruct (Game.owns_house self) eqn:Own;
    [intros [= <- <-]; split; [discriminate|reflexivity]|].
  destruct (Game.can_afford_house self) eqn:Af; cbn [negb];
    [|intros [= <- <-]; split; [discriminate|reflexivity]].
  unfold Game.purchase_house. rewrite Af.
  unfold Game.can_afford_house in Af. apply andb_true_iff in Af.
  destruct Af as [Ge _]. unfold SurrealNumber.__ge__ in Ge.
  apply negb_true_iff in Ge.
  destruct (Engine.show_victory_screen _) as [screen|e]; intros [= <- <-].
  - split; [|intros N; exfalso; exact (N screen eq_refl)].
    intros ? _. repeat split; assumption.
  - split; [discriminate|]. intros _ N. exfalso. exact (N e eq_refl).
Qed.

Lemma house_needs_carthage_and_money_witness :
  Engine.buy_house World.new_game = (Ok (NotEnough 8760), World.new_game)
  /\ World.new_game = World.new_game.
Proof.
  split; [vm_compute; reflexivity|].
  apply (proj2 (house_needs_carthage_and_money World.new_game World.new_game
                  (Ok (NotEnough 8760)) ltac:(vm_compute; reflexivity)));
    discriminate.
Defined.

(** X30.  The final score lies between 2 and 9: the 10 it is shown
    out of is never reached.  The highest title, at 8 or more, is given
    only to a player who has visited exactly three cities, finished
    within 60 days and made more than 10000 in profit; the lowest goes
    with a score of 2 or 3. *)
Theorem score_is_between_2_and_9 (self : Game.t) (screen : victory) :
  Engine.show_victory_screen self = Ok screen ->
  2 <= score screen <= 9
  /\ (rating screen = Legendary <-> 8 <= score screen)
  /\ (rating screen = Novice <-> score screen <= 3)
  /\ (rating screen = Legendary ->
      cities_discovered screen = 3
      /\ completion_time screen <= 60
      /\ (10000 <? total_profit screen)%float = true).
Proof.
  unfold Engine.show_victory_screen, bind.
  destruct (get_net_worth _) as [net_worth|]; [|discriminate].
  destruct (Py.float_truediv _ _) as [ratio|]; [|discriminate].
  destruct (if Stats.total_trades _ >? 0 then _ else _) as [eff|]; [|discriminate].
  destruct (Engine.most_traded _ (Stats.goods_bought _)) as [mp|]; [|discriminate].
  destruct (Engine.most_traded _ (Stats.goods_sold _)) as [ms|]; [|discriminate].
  destruct (Engine.names_of _ _) as [names|]; [|discriminate].
  intros [= <-]. cbn [score rating cities_discovered completion_time total_profit].
  match goal with
  | |- context [(15000 <? ?p)%float] => set (profit := p)
  end.
  assert (P : (15000 <? profit)%float = true -> (10000 <? profit)%float = true).
  { apply ltb_trans. reflexivity. }
  destruct (Z.leb_spec (day (Game.state self)) 30),
           (Z.leb_spec (day (Game.state self)) 60),
           (15000 <? profit)%float eqn:P1, (10000 <? profit)%float eqn:P2,
           (Z.eqb_spec (Z.of_nat (List.length
                          (Stats.cities_visited (stats (Game.state self))))) 3),
           (Stats.events_encountered (stats (Game.state self)) >=? 5);
    cbn;
    (split; [lia|]);
    (split; [split; [try discriminate; lia|try reflexivity; lia]|]);
    (split; [split; [try discriminate; lia|try reflexivity; lia]|]);
    try discriminate;
    intros _; repeat split; try assumption; try lia; auto.
Qed.

Lemma score_is_between_2_and_9_witness :
  exists screen,
    Engine.show_victory_screen Examples.wealthy = Ok screen
    /\ 2 <= score screen <= 9.
Proof.
  eexists. split; [vm_compute; reflexivity|].
  apply (proj1 (score_is_between_2_and_9 Examples.wealthy _
                  ltac:(vm_compute; reflexivity))).
Defined.

End House.
